(** * arm/ripper/utils.py: job persistence, duplicate guards, sweep, data rip

    A shallow embedding of the job-lifecycle helpers of
    [arm/ripper/utils.py]: [database_updater], [clean_old_jobs],
    [job_dupe_check], [duplicate_run_check], [rip_data] and
    [check_for_wait], together with the helpers they call ([make_dir],
    [convert_job_type]).

    The Python code is stateful: it mutates ORM objects attached to the
    module-level [db.session], commits them, sleeps, touches the file
    system and runs a shell command.  It is embedded as a state-and-exception
    monad over a [World]; everything the code cannot control (whether a
    commit succeeds, the process table, what the shell command does, what
    the web UI writes meanwhile) is read from an environment [Env].

    Calls to [logging] and [print] have no influence on the values studied
    here and are left out. *)

From Stdlib Require Import ZArith String Ascii List Lia DecimalString.
From stdpp Require Import gmap strings list fin_maps.

Local Open Scope string_scope.
Local Open Scope Z_scope.

(** ** Python values *)

(** The values stored in the attributes of a job.  [VDate] is a
    [datetime], as microseconds on the time line. *)
Inductive pyval :=
| VNone
| VBool (b : bool)
| VInt (n : Z)
| VStr (s : string)
| VDate (us : Z).

#[global] Instance pyval_eq_dec : EqDecision pyval.
Proof. solve_decision. Defined.

#[global] Instance pyval_inhabited : Inhabited pyval := populate VNone.

(** Python truthiness ([if x:]). *)
Definition truthy (v : pyval) : bool :=
  match v with
  | VNone => false
  | VBool b => b
  | VInt n => negb (n =? 0)
  | VStr s => negb (String.eqb s "")
  | VDate _ => true
  end.

(** [sub in s] on strings. *)
Fixpoint contains (sub s : string) : bool :=
  String.prefix sub s ||
  match s with
  | EmptyString => false
  | String _ rest => contains sub rest
  end.

(** [str.lower()] on the ASCII letters. *)
Definition lower_ascii (c : ascii) : ascii :=
  let n := nat_of_ascii c in
  if (Nat.leb 65 n && Nat.leb n 90)%bool then ascii_of_nat (n + 32) else c.

Fixpoint lower (s : string) : string :=
  match s with
  | EmptyString => EmptyString
  | String c rest => String (lower_ascii c) (lower rest)
  end.

(** [str(n)] for an integer. *)
Definition str_int (n : Z) : string := NilZero.string_of_int (Z.to_int n).

(** [round(n / d)] for [d > 0]: Python rounds a float to the nearest
    integer, ties to the even one.  The quotients met here are far below
    2^53, where the float quotient rounds like the exact one. *)
Definition py_round_div (n d : Z) : Z :=
  let q := n / d in
  let r := n mod d in
  if 2 * r <? d then q
  else if d <? 2 * r then q + 1
  else if Z.even q then q else q + 1.

(** [os.path.join(a, b)] of [posixpath]. *)
Definition ends_with_slash (s : string) : bool :=
  match String.get (Nat.pred (String.length s)) s with
  | Some c => Ascii.eqb c "/"%char
  | None => false
  end.

Definition path_join (a b : string) : string :=
  if String.prefix "/" b then b
  else if (String.eqb a "" || ends_with_slash a)%bool then a ++ b
  else a ++ "/" ++ b.

(** ** The world the code runs in *)

(** A job is an ORM object: its attributes are set by name
    ([setattr(job, key, value)]), so it is a dictionary from attribute
    names to values.  A mapped column that was never assigned reads as
    [None]. *)
Abbreviation Job := (gmap string pyval).

Definition getattr (j : Job) (k : string) : pyval := default VNone (j !! k).

Inductive node := File | Dir.

Inductive objref := JobRef (i : nat) | ConfigRef.

(** What the code does to the outside, newest event first. *)
Inductive event :=
| EvCommit (ok : bool)
| EvRollback
| EvQuery
| EvRefresh (o : objref)
| EvSleep (secs : Z)
| EvShell (cmd : string)
| EvMakedirs (path : string)
| EvUnlink (path : string)
| EvRename (src dst : string)
| EvRmtree (path : string).

Record World := mkWorld {
  jobs : list Job;          (* the Job objects of the session, in the store's default order *)
  stored : list Job;        (* the rows as last committed *)
  fs : gmap string node;    (* the paths that exist *)
  clock : Z;                (* now, in microseconds *)
  attempts : nat;           (* commits attempted so far *)
  polls : nat;              (* refreshes of a job so far *)
  trace : list event
}.

Definition set_jobs (l : list Job) (w : World) : World :=
  mkWorld l (stored w) (fs w) (clock w) (attempts w) (polls w) (trace w).
Definition set_stored (l : list Job) (w : World) : World :=
  mkWorld (jobs w) l (fs w) (clock w) (attempts w) (polls w) (trace w).
Definition set_fs (f : gmap string node) (w : World) : World :=
  mkWorld (jobs w) (stored w) f (clock w) (attempts w) (polls w) (trace w).
Definition set_clock (t : Z) (w : World) : World :=
  mkWorld (jobs w) (stored w) (fs w) t (attempts w) (polls w) (trace w).
Definition set_attempts (n : nat) (w : World) : World :=
  mkWorld (jobs w) (stored w) (fs w) (clock w) n (polls w) (trace w).
Definition set_polls (n : nat) (w : World) : World :=
  mkWorld (jobs w) (stored w) (fs w) (clock w) (attempts w) n (trace w).
Definition emit (e : event) (w : World) : World :=
  mkWorld (jobs w) (stored w) (fs w) (clock w) (attempts w) (polls w) (e :: trace w).

(** The outcome of one [db.session.commit()]: it goes through, or it raises
    an exception whose text is [msg]. *)
Inductive outcome := Committed | Failed (msg : string).

(** [arm.config.config.cfg], the keys read here. *)
Record Config := mkConfig {
  RAW_PATH : string;
  COMPLETED_PATH : string;
  DATA_RIP_PARAMETERS : string;
  MANUAL_WAIT : bool;
  MANUAL_WAIT_TIME : Z
}.

(** Everything decided outside this module. *)
Record Env := mkEnv {
  cfg : Config;
  (* the outcome of the n-th commit attempt *)
  store_outcome : nat -> outcome;
  (* psutil: the identity hash of the process with this pid, if it runs *)
  process_table : Z -> option Z;
  (* subprocess.check_output(cmd, shell=True): exit status, captured output
     as it prints, and the file system it leaves *)
  run_shell : string -> gmap string node -> Z * string * gmap string node;
  (* paths the process may neither create nor remove *)
  denied : string -> bool;
  (* what the web UI has written to the rows by the n-th refresh *)
  ui_writes : nat -> list Job -> list Job;
  (* Job.get_d() of arm.models.models: the attributes of a row as a dict *)
  get_d : Job -> Job;
  (* str() of a datetime *)
  str_datetime : Z -> string
}.

(** Python exceptions.  [SystemExit] carries the argument of [sys.exit]. *)
Inductive exn :=
| StoreError (msg : string)
| RuntimeError (msg : string)
| OSError (path : string)
| CalledProcessError (returncode : Z) (output : string)
| TypeError
| KeyError (key : string)
| SystemExit (code : pyval).

(** The exit status of the process when [SystemExit] reaches the top. *)
Definition exit_status (code : pyval) : Z :=
  match code with
  | VNone => 0
  | VInt n => n
  | _ => 1
  end.

(** [except Exception] catches everything but [SystemExit]. *)
Definition is_Exception (e : exn) : bool :=
  match e with
  | SystemExit _ => false
  | _ => true
  end.

Definition is_OSError (e : exn) : bool :=
  match e with
  | OSError _ => true
  | _ => false
  end.

(** [str(error)].  Only the text of a store error is ever inspected. *)
Definition exn_str (e : exn) : string :=
  match e with
  | StoreError msg => msg
  | RuntimeError msg => msg
  | OSError path => path
  | CalledProcessError _ output => output
  | TypeError => ""
  | KeyError key => key
  | SystemExit _ => ""
  end.

Inductive result (A : Type) :=
| Ret (a : A)
| Raise (e : exn).
Arguments Ret {A} a.
Arguments Raise {A} e.

(** ** A state-and-exception monad *)

Definition M (A : Type) : Type := World -> result A * World.

#[global] Instance M_ret : MRet M := fun A a w => (Ret a, w).
#[global] Instance M_bind : MBind M := fun A B f m w =>
  match m w with
  | (Ret a, w') => f a w'
  | (Raise e, w') => (Raise e, w')
  end.

Definition raise {A} (e : exn) : M A := fun w => (Raise e, w).

(** [try: m  except <filter> as e: handler e]. *)
Definition try_except {A} (m : M A) (catches : exn -> bool) (handler : exn -> M A) : M A :=
  fun w =>
    match m w with
    | (Raise e, w') => if catches e then handler e w' else (Raise e, w')
    | r => r
    end.

Definition modify (f : World -> World) : M unit := fun w => (Ret tt, f w).
Definition gets {A} (f : World -> A) : M A := fun w => (Ret (f w), w).

(** [for x in l: body x]. *)
Fixpoint for_each {A} (l : list A) (body : A -> M unit) : M unit :=
  match l with
  | [] => mret tt
  | x :: rest => body x ;; for_each rest body
  end.

Section Utils.
Context (E : Env).

(** ** The session, the clock and the file system *)

(** [setattr(job, key, value)] on the session object [job]. *)
Definition setattr (job : nat) (key : string) (value : pyval) : M unit :=
  modify (fun w => set_jobs (alter (insert key value) job (jobs w)) w).

(** [job.key]. *)
Definition attr (job : nat) (key : string) : M pyval :=
  gets (fun w => getattr (default ∅ (jobs w !! job)) key).

(** [db.session.commit()]: the environment decides whether the store takes
    the write; when it does, the rows become what the session holds.  What a
    failed commit does to the session objects is the ORM's business and is
    not modelled: here they stay as they are. *)
Definition commit : M unit := fun w =>
  let w' := set_attempts (S (attempts w)) w in
  match store_outcome E (attempts w) with
  | Committed => (Ret tt, emit (EvCommit true) (set_stored (jobs w) w'))
  | Failed msg => (Raise (StoreError msg), emit (EvCommit false) w')
  end.

(** [db.session.rollback()]: the session objects go back to the rows. *)
Definition rollback : M unit :=
  modify (fun w => emit EvRollback (set_jobs (stored w) w)).

(** [db.session.refresh(obj)]: the object is read again from the store,
    with whatever the web UI wrote to it in the meantime. *)
Definition refresh (o : objref) : M unit :=
  match o with
  | JobRef i =>
      modify (fun w =>
        let rows := ui_writes E (polls w) (stored w) in
        let w1 := set_polls (S (polls w)) (set_stored rows w) in
        emit (EvRefresh o)
          (set_jobs (match rows !! i with
                     | Some row => <[i := row]> (jobs w)
                     | None => jobs w
                     end) w1))
  | ConfigRef => modify (emit (EvRefresh o))
  end.

(** [time.sleep(secs)]. *)
Definition sleep (secs : Z) : M unit :=
  modify (fun w => emit (EvSleep secs) (set_clock (clock w + secs * 1000000) w)).

(** The rows a query returns, as references into the session, in the
    store's order. *)
Fixpoint select_from (p : Job -> bool) (i : nat) (l : list Job) : list nat :=
  match l with
  | [] => []
  | j :: rest => if p j then i :: select_from p (S i) rest else select_from p (S i) rest
  end.

Definition query (p : Job -> bool) : M (list nat) := fun w =>
  (Ret (select_from p 0 (jobs w)), emit EvQuery w).

(** SQL [col NOT IN (...)]: a NULL column never satisfies it. *)
Definition sql_notin (col : pyval) (vals : list pyval) : bool :=
  match col with
  | VNone => false
  | _ => negb (bool_decide (col ∈ vals))
  end.

(** SQLAlchemy [col == v]: [IS NULL] when [v] is [None], else equality with
    a non-NULL column. *)
Definition sql_eq (col v : pyval) : bool := bool_decide (col = v).

(** ** [database_updater] *)

(** When the argument is not a dictionary. *)
Inductive pyarg :=
| ArgDict (d : gmap string pyval)
| ArgOther (v : pyval).

(** The retry loop [for i in range(wait_time)], [n] iterations to go. *)
Fixpoint commit_loop (n : nat) : M unit :=
  match n with
  | O => mret tt
  | S n' =>
      try_except commit is_Exception
        (fun error =>
           if contains "locked" (exn_str error) then sleep 1
           else raise (RuntimeError (exn_str error))) ;;
      commit_loop n'
  end.

Definition database_updater (args : pyarg) (job : nat) (wait_time : nat) : M bool :=
  match args with
  | ArgOther _ =>
      rollback ;;
      mret false
  | ArgDict d =>
      for_each (map_to_list d) (fun '(key, value) => setattr job key value) ;;
      commit_loop wait_time ;;
      mret true
  end.

(** The default of [wait_time]. *)
Definition wait_time_default : nat := 90.

(** ** [clean_old_jobs] *)

Definition terminal : list pyval := [VStr "fail"; VStr "success"].

(** [m.Job.status.notin_(['fail', 'success'])]. *)
Definition non_terminal (j : Job) : bool := sql_notin (getattr j "status") terminal.

Definition clean_old_jobs : M pyval :=
  active_jobs ← query non_terminal;
  for_each active_jobs (fun job =>
    pid ← attr job "pid";
    match pid with
    | VInt p =>
        match process_table E p with
        | Some h =>
            (* job_process = psutil.Process(job.pid); the comparison of
               the hashes only decides whether a line is logged *)
            pid_hash ← attr job "pid_hash";
            if bool_decide (pid_hash = VInt h) then mret tt else mret tt
        | None =>
            setattr job "status" (VStr "fail") ;;
            commit
        end
    | _ => raise TypeError
    end) ;;
  mret VNone.

(** ** [job_dupe_check] *)

(** [str(value)]. *)
Definition py_str (v : pyval) : string :=
  match v with
  | VNone => "None"
  | VBool true => "True"
  | VBool false => "False"
  | VInt n => str_int n
  | VStr s => s
  | VDate us => str_datetime E us
  end.

(** [d[key]] on a dictionary of strings. *)
Definition item (d : gmap string string) (key : string) : M string :=
  match d !! key with
  | Some s => mret s
  | None => raise (KeyError key)
  end.

(** [results] is a dictionary with the keys 0, 1, ... in the order of the
    rows: a list, [results[0]] its head. *)
Definition job_dupe_check (job : nat)
  : M (bool * option (list (gmap string string))) :=
  crc_id ← attr job "crc_id";
  if bool_decide (crc_id = VNone) then mret (false, None)
  else
    previous_rips ← query (fun j =>
      sql_eq (getattr j "crc_id") crc_id
      && sql_eq (getattr j "status") (VStr "success")
      && sql_eq (getattr j "hasnicetitle") (VBool true));
    rows ← gets (fun w => omap (fun i => jobs w !! i) previous_rips);
    let results := (fun j => py_str <$> get_d E j) <$> rows in
    match results with
    | first :: _ =>
        r_title ← item first "title";
        label ← attr job "label";
        let title := if negb (String.eqb r_title "") then VStr r_title else label in
        r_year ← item first "year";
        let year := if negb (String.eqb r_year "") then r_year else "" in
        r_poster ← item first "poster_url";
        let poster_url := if negb (String.eqb r_poster "") then VStr r_poster else VNone in
        r_nice ← item first "hasnicetitle";
        let hasnicetitle := String.eqb (lower r_nice) "true" in
        video_type ←
          (if negb (String.eqb r_nice "") then item first "video_type"
           else mret "unknown");
        let active_rip : gmap string pyval :=
          {[ "title" := title; "year" := VStr year; "poster_url" := poster_url;
             "hasnicetitle" := VBool hasnicetitle; "video_type" := VStr video_type ]} in
        database_updater (ArgDict active_rip) job wait_time_default ;;
        mret (true, Some results)
    | [] => mret (false, None)
    end.

(** ** [duplicate_run_check] *)

Definition duplicate_run_check (dev_path : pyval) : M unit :=
  running_jobs ← query (fun j =>
    non_terminal j && sql_eq (getattr j "devpath") dev_path);
  if (1 <=? length running_jobs)%nat then
    for_each running_jobs (fun j =>
      start_time ← attr j "start_time";
      now ← gets clock;
      match start_time with
      | VDate t =>
          (* int(round(abs(delta).total_seconds()) / 60) *)
          let mins_last_run := py_round_div (Z.abs (t - now)) 1000000 / 60 in
          if mins_last_run <=? 1 then raise (SystemExit (VInt 1))
          else mret tt
      | _ => raise TypeError
      end)
  else mret tt.

(** ** The file system and the shell *)

(** [os.path.exists(path)]. *)
Definition path_exists (path : string) : M bool :=
  gets (fun w => bool_decide (is_Some (fs w !! path))).

(** [os.makedirs(path)], as far as [path] itself goes: the missing parents
    it creates on the way, and leaves behind when the leaf fails, are not
    modelled. *)
Definition makedirs (path : string) : M unit := fun w =>
  let w' := emit (EvMakedirs path) w in
  if (denied E path || bool_decide (is_Some (fs w !! path)))%bool
  then (Raise (OSError path), w')
  else (Ret tt, set_fs (<[path := Dir]> (fs w)) w').

(** [os.unlink(path)]: only an existing file can be removed. *)
Definition unlink (path : string) : M unit := fun w =>
  let w' := emit (EvUnlink path) w in
  match fs w !! path with
  | Some File =>
      if denied E path then (Raise (OSError path), w')
      else (Ret tt, set_fs (delete path (fs w)) w')
  | _ => (Raise (OSError path), w')
  end.

(** [os.rename(src, dst)]. *)
Definition rename (src dst : string) : M unit := fun w =>
  let w' := emit (EvRename src dst) w in
  match fs w !! src with
  | Some n =>
      if denied E dst then (Raise (OSError dst), w')
      else (Ret tt, set_fs (<[dst := n]> (delete src (fs w))) w')
  | None => (Raise (OSError src), w')
  end.

(** The paths of the tree rooted at [root]. *)
Definition in_tree (root path : string) : bool :=
  (String.eqb path root || String.prefix (root ++ "/") path)%bool.

(** [shutil.rmtree(path)]. *)
Definition rmtree (path : string) : M unit := fun w =>
  let w' := emit (EvRmtree path) w in
  match fs w !! path with
  | Some Dir =>
      if denied E path then (Raise (OSError path), w')
      else (Ret tt, set_fs (filter (fun kv => negb (in_tree path kv.1)) (fs w)) w')
  | _ => (Raise (OSError path), w')
  end.

(** [subprocess.check_output(cmd, shell=True)]. *)
Definition check_output (cmd : string) : M string := fun w =>
  let '(code, output, fs') := run_shell E cmd (fs w) in
  let w' := emit (EvShell cmd) (set_fs fs' w) in
  if code =? 0 then (Ret output, w')
  else (Raise (CalledProcessError code output), w').

(** [round(time.time() * 100)], on the exact reading of the clock.  The code
    rounds a float product, which can fall on the neighbouring hundredth. *)
Definition time_x100 : M Z := gets (fun w => py_round_div (clock w) 10000).

(** ** [convert_job_type], [make_dir] *)

Definition convert_job_type (video_type : pyval) : string :=
  if bool_decide (video_type = VStr "movie") then "movies"
  else if bool_decide (video_type = VStr "series") then "tv"
  else "unidentified".

Definition make_dir (path : string) : M bool :=
  there ← path_exists path;
  if negb there then
    try_except (makedirs path ;; mret true) is_OSError
      (fun _ =>
         let err := "Couldn't create a directory at path: " ++ path
                    ++ " Probably a permissions error.  Exiting" in
         raise (SystemExit (VStr err)))
  else mret false.

(** ** [rip_data] *)

Definition dquote : string := String "034"%char EmptyString.

Definition is_CalledProcessError (e : exn) : bool :=
  match e with
  | CalledProcessError _ _ => true
  | _ => false
  end.

(** Lines 331-345: the staging directory, the destination directory and the
    name of the partial file. *)
Definition rip_data_paths (job : nat) : M (string * string * string) :=
  label ← attr job "label";
  video_type ← attr job "video_type";
  let raw_path := path_join (RAW_PATH (cfg E)) (py_str label) in
  let final_path := path_join (COMPLETED_PATH (cfg E)) (convert_job_type video_type) in
  let final_file_name := py_str label in
  made ← make_dir raw_path;
  '(raw_path, final_file_name) ←
    (if negb made then
       t ← time_x100;
       let random_time := str_int t in
       let raw_path := path_join (RAW_PATH (cfg E)) (py_str label ++ "_" ++ random_time) in
       let final_file_name := py_str label ++ "_" ++ random_time in
       made ← make_dir raw_path;
       if negb made then raise (SystemExit VNone)
       else mret (raw_path, final_file_name)
     else mret (raw_path, final_file_name));
  let final_path := path_join final_path final_file_name in
  let incomplete_filename := path_join raw_path (py_str label ++ ".part") in
  make_dir final_path ;;
  mret (raw_path, final_path, incomplete_filename).

(** Lines 346-369: the copy, and the clean-up. *)
Definition rip_data_copy (job : nat) (raw_path final_path incomplete_filename : string)
  : M bool :=
  label ← attr job "label";
  devpath ← attr job "devpath";
  logfile ← attr job "logfile";
  let cmd := "dd if=" ++ dquote ++ py_str devpath ++ dquote
             ++ " of=" ++ dquote ++ incomplete_filename ++ dquote
             ++ " " ++ DATA_RIP_PARAMETERS (cfg E) ++ " 2>> " ++ py_str logfile in
  success ←
    try_except
      (check_output cmd ;;
       let full_final_file := path_join final_path (py_str label ++ ".iso") in
       rename incomplete_filename full_final_file ;;
       mret true)
      is_CalledProcessError
      (fun dd_error =>
         match dd_error with
         | CalledProcessError returncode output =>
             let err := "Data rip failed with code: " ++ str_int returncode
                        ++ "(" ++ output ++ ")" in
             unlink incomplete_filename ;;
             let args : gmap string pyval :=
               {[ "status" := VStr "fail"; "errors" := VStr err ]} in
             database_updater (ArgDict args) job wait_time_default ;;
             mret false
         | _ => raise dd_error
         end);
  try_except (rmtree raw_path) is_OSError (fun _ => mret tt) ;;
  mret success.

Definition rip_data (job : nat) : M bool :=
  label ← attr job "label";
  (if (bool_decide (label = VStr "") || bool_decide (label = VNone))%bool
   then setattr job "label" (VStr "data-disc")
   else mret tt) ;;
  '(raw_path, final_path, incomplete_filename) ← rip_data_paths job;
  rip_data_copy job raw_path final_path incomplete_filename.

(** ** [check_for_wait] *)

(** The loop [while sleep_time < cfg["MANUAL_WAIT_TIME"]].  Every round adds
    5 to [sleep_time], so [MANUAL_WAIT_TIME - sleep_time] rounds of fuel are
    never used up ([wait_loop_fuel]). *)
Fixpoint wait_loop (fuel : nat) (job : nat) (sleep_time : Z) : M unit :=
  if sleep_time <? MANUAL_WAIT_TIME (cfg E) then
    match fuel with
    | O => mret tt
    | S fuel' =>
        sleep 5 ;;
        let sleep_time := sleep_time + 5 in
        refresh (JobRef job) ;;
        refresh ConfigRef ;;
        title_manual ← attr job "title_manual";
        if truthy title_manual then
          setattr job "updated" (VBool true) ;;
          setattr job "hasnicetitle" (VBool true)
        else wait_loop fuel' job sleep_time
    end
  else mret tt.

Definition check_for_wait (job : nat) : M unit :=
  if MANUAL_WAIT (cfg E) then
    setattr job "status" (VStr "waiting") ;;
    commit ;;
    wait_loop (Z.to_nat (MANUAL_WAIT_TIME (cfg E))) job 0 ;;
    setattr job "status" (VStr "active") ;;
    commit
  else mret tt.

End Utils.

(** ** Notions used in the statements *)

(** The attributes of [j] after [setattr] of every item of [l], in order. *)
Definition apply_items (l : list (string * pyval)) (j : Job) : Job :=
  foldl (fun acc kv => <[kv.1 := kv.2]> acc) j l.

(** What [database_updater] does to the session before the first commit:
    the job takes every item of the dictionary. *)
Definition with_args (d : gmap string pyval) (job : nat) (w : World) : World :=
  set_jobs (alter (fun j => d ∪ j) job (jobs w)) w.

(** A commit that failed with an error text containing "locked". *)
Definition lock_error (o : outcome) : bool :=
  match o with
  | Committed => false
  | Failed msg => contains "locked" msg
  end.

(** The world after a commit that went through, after one that was refused,
    and after a sleep. *)
Definition committed (w : World) : World :=
  emit (EvCommit true) (set_stored (jobs w) (set_attempts (S (attempts w)) w)).
Definition refused (w : World) : World :=
  emit (EvCommit false) (set_attempts (S (attempts w)) w).
Definition slept (secs : Z) (w : World) : World :=
  emit (EvSleep secs) (set_clock (clock w + secs * 1000000) w).


(** A job whose recorded process is gone from the process table. *)
Definition abandoned (E : Env) (j : Job) : bool :=
  match getattr j "pid" with
  | VInt p => bool_decide (process_table E p = None)
  | _ => false
  end.

(** The jobs the sweep fails: non-terminal, and the process gone. *)
Definition swept (E : Env) (j : Job) : bool := (non_terminal j && abandoned E j)%bool.

(** The row of a job after the sweep. *)
Definition sweep_row (E : Env) (j : Job) : Job :=
  if swept E j then <["status" := VStr "fail"]> j else j.

(** The body of the loop of [clean_old_jobs]. *)
Definition sweep_one (E : Env) (job : nat) : M unit :=
  pid ← attr job "pid";
  match pid with
  | VInt p =>
      match process_table E p with
      | Some h =>
          pid_hash ← attr job "pid_hash";
          if bool_decide (pid_hash = VInt h) then mret tt else mret tt
      | None =>
          setattr job "status" (VStr "fail") ;;
          commit E
      end
  | _ => raise TypeError
  end.

(** The filter of the duplicate check: same fingerprint, status "success",
    usable-title flag set. *)
Definition prior_match (crc_id : pyval) (j : Job) : bool :=
  sql_eq (getattr j "crc_id") crc_id
  && sql_eq (getattr j "status") (VStr "success")
  && sql_eq (getattr j "hasnicetitle") (VBool true).

(** The attributes the duplicate check reads from a prior job. *)
Definition copied : list string :=
  ["title"; "year"; "poster_url"; "hasnicetitle"; "video_type"].

(** [get_d] reports these attributes of the row as they are. *)
Definition reports (E : Env) (p : Job) : Prop :=
  forall key, key ∈ copied -> get_d E p !! key = Some (getattr p key).

(** The records the duplicate check returns for the rows [refs]. *)
Definition records (E : Env) (w : World) (refs : list nat) : list (gmap string string) :=
  (fun j => py_str E <$> get_d E j) <$> omap (fun i => jobs w !! i) refs.

(** The filter of the concurrent-run guard: a non-terminal job on the
    device. *)
Definition running (dev_path : pyval) (j : Job) : bool :=
  (non_terminal j && sql_eq (getattr j "devpath") dev_path)%bool.

(** The body of the loop of [duplicate_run_check]. *)
Definition run_check_one (j : nat) : M unit :=
  start_time ← attr j "start_time";
  now ← gets clock;
  match start_time with
  | VDate t =>
      let mins_last_run := py_round_div (Z.abs (t - now)) 1000000 / 60 in
      if mins_last_run <=? 1 then raise (SystemExit (VInt 1))
      else mret tt
  | _ => raise TypeError
  end.

(** A property of the world that a computation keeps, whatever its outcome. *)
Definition preserves {A} (P : World -> Prop) (m : M A) : Prop :=
  forall w, P w -> P (m w).2.

(** The label of a job in the session. *)
Definition label_of (job : nat) (w : World) : pyval :=
  getattr (default ∅ (jobs w !! job)) "label".

(** The world in which the job carries the default label. *)
Definition relabelled (job : nat) (w : World) : World :=
  set_jobs (alter (insert "label" (VStr "data-disc")) job (jobs w)) w.

(** The world after the first two lines of [rip_data]: a job without a
    label has got the default one. *)
Definition default_label (job : nat) (w : World) : World :=
  if (bool_decide (label_of job w = VStr "") || bool_decide (label_of job w = VNone))%bool
  then relabelled job w
  else w.

(** The error text [rip_data] records when the copy fails. *)
Definition rip_error (returncode : Z) (output : string) : string :=
  "Data rip failed with code: " ++ str_int returncode ++ "(" ++ output ++ ")".

(** The command line of the copy, for the job's row [j] and the partial
    file. *)
Definition dd_command (E : Env) (j : Job) (incomplete_filename : string) : string :=
  "dd if=" ++ dquote ++ py_str E (getattr j "devpath") ++ dquote
  ++ " of=" ++ dquote ++ incomplete_filename ++ dquote
  ++ " " ++ DATA_RIP_PARAMETERS (cfg E) ++ " 2>> " ++ py_str E (getattr j "logfile").

(** The attempts to remove a directory tree. *)
Definition is_rmtree (e : event) : bool :=
  match e with
  | EvRmtree _ => true
  | _ => false
  end.

(** ** A small installation, for concrete runs *)

Module Sample.

Definition config : Config :=
  mkConfig "/home/arm/raw" "/home/arm/media" "conv=noerror" true 60.

(** A quiet environment: no process runs, the shell succeeds and changes
    nothing, nothing is denied, the UI writes nothing; only the store's
    behaviour is left open. *)
Definition env (outcomes : nat -> outcome) : Env :=
  mkEnv config outcomes (fun _ => None) (fun _ files => (0, "", files))
    (fun _ => false) (fun _ rows => rows) (fun j => j) (fun _ => "").

(** The same, with a store that takes every write and a process table. *)
Definition env_with_processes (table : Z -> option Z) : Env :=
  mkEnv config (fun _ => Committed) table (fun _ files => (0, "", files))
    (fun _ => false) (fun _ rows => rows) (fun j => j) (fun _ => "").

(** Process 4242 runs, but it is not the process the job recorded. *)
Definition pid_reused (pid : Z) : option Z :=
  if pid =? 4242 then Some 99 else None.

(** No process runs. *)
Definition no_process (pid : Z) : option Z := None.

Definition job : Job :=
  {[ "status" := VStr "active"; "devpath" := VStr "/dev/sr0";
     "label" := VStr "BACKUP"; "pid" := VInt 4242; "pid_hash" := VInt 77 ]}.

Definition world : World := mkWorld [job] [job] ∅ 0 0 0 [].

Definition fail_args : gmap string pyval :=
  {[ "status" := VStr "fail"; "errors" := VStr "no space left" ]}.

(** A disc seen before: row 0 is the earlier, successful rip, row 1 the
    current job.  The earlier rip has no poster. *)
Definition alpha : Job :=
  {[ "status" := VStr "success"; "crc_id" := VStr "f00d"; "hasnicetitle" := VBool true;
     "title" := VStr "Alpha (2001)"; "year" := VStr "2001"; "poster_url" := VStr "";
     "video_type" := VStr "movie" ]}.

Definition again : Job :=
  {[ "status" := VStr "active"; "crc_id" := VStr "f00d"; "label" := VStr "ALPHA_DISC" ]}.

Definition library : World := mkWorld [alpha; again] [alpha; again] ∅ 0 0 0 [].

(** A job without a fingerprint. *)
Definition unread : Job := {[ "status" := VStr "active"; "label" := VStr "ALPHA_DISC" ]}.

Definition library_unread : World := mkWorld [alpha; unread] [alpha; unread] ∅ 0 0 0 [].

(** A rip on /dev/sr0 that started at second 1000; the clock stands 30
    seconds, or 5 minutes, later. *)
Definition ripping : Job :=
  {[ "status" := VStr "active"; "devpath" := VStr "/dev/sr0";
     "start_time" := VDate 1000000000 ]}.

Definition half_a_minute_later : World :=
  mkWorld [ripping] [ripping] ∅ 1030000000 0 0 [].

Definition five_minutes_later : World :=
  mkWorld [ripping] [ripping] ∅ 1300000000 0 0 [].

(** The same installation with another ceiling for the manual wait. *)
Definition env_with_ceiling (ceiling : Z) : Env :=
  mkEnv (mkConfig "/home/arm/raw" "/home/arm/media" "conv=noerror" true ceiling)
    (fun _ => Committed) (fun _ => None) (fun _ files => (0, "", files))
    (fun _ => false) (fun _ rows => rows) (fun j => j) (fun _ => "").

(** A job whose title was already overridden by hand. *)
Definition overridden : Job :=
  {[ "status" := VStr "identifying"; "title_manual" := VStr "Alpha (2001)" ]}.

Definition desk : World := mkWorld [overridden] [overridden] ∅ 0 0 0 [].

(** A data disc without a label.  The copy writes the partial file, and
    either ends well or fails with status 1. *)
Definition unlabelled : Job :=
  {[ "status" := VStr "active"; "devpath" := VStr "/dev/sr0";
     "logfile" := VStr "/home/arm/logs/data.log" ]}.

Definition shelf : World := mkWorld [unlabelled] [unlabelled] ∅ 0 0 0 [].

Definition part_file : string := "/home/arm/raw/data-disc/data-disc.part".

Definition dd_copies (cmd : string) (files : gmap string node)
  : Z * string * gmap string node :=
  (0, "", <[part_file := File]> files).

Definition dd_fails (cmd : string) (files : gmap string node)
  : Z * string * gmap string node :=
  (1, "b'dd: error reading'", <[part_file := File]> files).

Definition env_with_shell
    (shell : string -> gmap string node -> Z * string * gmap string node)
    (outcomes : nat -> outcome) : Env :=
  mkEnv config outcomes (fun _ => None) shell
    (fun _ => false) (fun _ rows => rows) (fun j => j) (fun _ => "").

(** The store takes every write. *)
Definition healthy (n : nat) : outcome := Committed.

(** The store is locked for good. *)
Definition always_locked (n : nat) : outcome := Failed "database is locked".


(** The store is broken from the start. *)
Definition broken (n : nat) : outcome := Failed "disk I/O error".

End Sample.

(** * More of [arm/ripper/utils.py] *)

(** ** [database_adder] *)

(** [db.session.add(obj)]: a new object joins the session at the end; [slot]
    is the place it takes there, which tells it from the other objects.
    Adding an object that is in the session changes nothing. *)
Definition session_add (slot : nat) (obj : Job) : M unit :=
  modify (fun w =>
    if (slot <? length (jobs w))%nat then w
    else set_jobs (jobs w ++ [obj])%list w).

(** The loop [for i in range(90)] with its [break], [n] rounds to go. *)
Fixpoint add_loop (E : Env) (n : nat) (slot : nat) (obj : Job) : M unit :=
  match n with
  | O => mret tt
  | S n' =>
      done ←
        try_except
          (session_add slot obj ;;
           commit E ;;
           mret true)
          is_Exception
          (fun error =>
             if contains "locked" (exn_str error) then sleep 1 ;; mret false
             else raise (RuntimeError (exn_str error)));
      if done : bool then mret tt else add_loop E n' slot obj
  end.

Definition database_adder (E : Env) (obj_class : Job) : M bool :=
  slot ← gets (fun w => length (jobs w));
  add_loop E 90 slot obj_class ;;
  mret true.

(** The world once [obj] has joined the session. *)
Definition added (obj : Job) (w : World) : World :=
  set_jobs (jobs w ++ [obj])%list w.

Module Sample2.

Definition track : Job := {[ "track_number" := VStr "1"; "length" := VInt 5400 ]}.

(** The store is locked twice, then takes the write, then breaks. *)
Definition locked_twice (n : nat) : outcome :=
  match n with
  | 0%nat | 1%nat => Failed "database is locked"
  | 2%nat => Committed
  | _ => Failed "disk I/O error"
  end.

End Sample2.

(** ** Notions for the duplicate check *)

(** What [job_dupe_check] writes on the job, read from the first prior [p]:
    every value goes through [str]; an empty title gives way to the job's
    own label, an empty poster URL to [None]. *)
Definition active_rip_of (E : Env) (p : Job) (label : pyval) : gmap string pyval :=
  let title := py_str E (getattr p "title") in
  let poster := py_str E (getattr p "poster_url") in
  {[ "title" := if String.eqb title "" then label else VStr title;
     "year" := VStr (py_str E (getattr p "year"));
     "poster_url" := if String.eqb poster "" then VNone else VStr poster;
     "hasnicetitle" := VBool true;
     "video_type" := VStr (py_str E (getattr p "video_type")) ]}.

Module Sample3.

(** An earlier rip with the title flag set, an empty title and no year. *)
Definition untitled : Job :=
  {[ "status" := VStr "success"; "crc_id" := VStr "f00d"; "hasnicetitle" := VBool true;
     "title" := VStr ""; "year" := VNone;
     "poster_url" := VStr "http://posters/alpha.jpg";
     "video_type" := VStr "movie" ]}.

Definition library : World :=
  mkWorld [untitled; Sample.again] [untitled; Sample.again] ∅ 0 0 0 [].

(** A library without an earlier rip of the disc. *)
Definition fresh : World := mkWorld [Sample.again] [Sample.again] ∅ 0 0 0 [].

End Sample3.

Module Sample4.

(** The clock stands 119 seconds, or 2 minutes, after the start of the rip
    of [Sample.ripping]. *)
Definition after_119_seconds : World :=
  mkWorld [Sample.ripping] [Sample.ripping] ∅ 1119000000 0 0 [].

Definition after_2_minutes : World :=
  mkWorld [Sample.ripping] [Sample.ripping] ∅ 1120000000 0 0 [].

End Sample4.

(** ** Notions for the manual wait *)

(** The rounds of 5 seconds the wait loop makes in [d] seconds. *)
Definition ticks_left (d : Z) : Z := if d <=? 0 then 0 else (d + 4) / 5.



Module Sample5.

(** A job waiting for a title that nobody enters. *)
Definition waiting : Job := {[ "status" := VStr "identifying" ]}.

Definition desk : World := mkWorld [waiting] [waiting] ∅ 0 0 0 [].

End Sample5.

(** ** More runs of [rip_data] *)

Module Sample6.

(** The copy fails before it has written anything. *)
Definition dd_cannot_open (cmd : string) (files : gmap string node)
  : Z * string * gmap string node :=
  (1, "b'dd: failed to open'", files).

(** The clock stands at 1 700 000 000 seconds.  Every name the staging
    directory can take is taken: the one after the label, and the ones
    after the label and the hundredths of a second around now. *)
Definition crowded : World :=
  mkWorld [Sample.unlabelled] [Sample.unlabelled]
    {[ "/home/arm/raw/data-disc" := Dir;
       "/home/arm/raw/data-disc_169999999999" := Dir;
       "/home/arm/raw/data-disc_170000000000" := Dir;
       "/home/arm/raw/data-disc_170000000001" := Dir ]}
    1700000000000000 0 0 [].

End Sample6.

(** ** More keys of the configuration *)

(** The keys of [cfg] that the functions below read and the ones above do
    not. *)
Record Settings := mkSettings {
  TRANSCODE_PATH : string;
  LOGPATH : string;
  ABCDE_CONFIG_FILE : string
}.

(** ** [find_largest_file] *)

(** The loop [for file in files].  [st_size path] is
    [os.stat(path).st_size], and [None] where [os.stat] raises. *)
Fixpoint largest_from (st_size : string -> option Z) (mkv_out_path : string)
    (files : list string) (largest_file_name : string) : result string :=
  match files with
  | [] => Ret largest_file_name
  | file :: rest =>
      let largest_file_name :=
        if String.eqb largest_file_name "" then file else largest_file_name in
      let temp_path_f := path_join mkv_out_path file in
      let temp_path_largest := path_join mkv_out_path largest_file_name in
      match st_size temp_path_f with
      | None => Raise (OSError temp_path_f)
      | Some size_f =>
          match st_size temp_path_largest with
          | None => Raise (OSError temp_path_largest)
          | Some size_largest =>
              largest_from st_size mkv_out_path rest
                (if size_largest <? size_f then file else largest_file_name)
          end
      end
  end.

Definition find_largest_file (st_size : string -> option Z)
    (files : list string) (mkv_out_path : string) : result string :=
  largest_from st_size mkv_out_path files "".

Module Sample7.

Definition st_size (path : string) : option Z :=
  if String.eqb path "/home/arm/raw/ALPHA/title00.mkv" then Some 700
  else if String.eqb path "/home/arm/raw/ALPHA/title01.mkv" then Some 4200
  else if String.eqb path "/home/arm/raw/ALPHA/title02.mkv" then Some 4200
  else None.

Definition size (file : string) : Z :=
  if String.eqb file "title00.mkv" then 700 else 4200.

Definition listing : list string := ["title00.mkv"; "title01.mkv"; "title02.mkv"].

End Sample7.

(** ** [rip_music] *)

Definition rip_music (E : Env) (conf : Settings) (job : nat) (logfile : string) : M bool :=
  let abcfile := ABCDE_CONFIG_FILE conf in
  disctype ← attr job "disctype";
  if bool_decide (disctype = VStr "music") then
    isfile ← gets (fun w => match fs w !! abcfile with
                            | Some File => true
                            | _ => false
                            end);
    devpath ← attr job "devpath";
    let cmd :=
      if isfile : bool
      then "abcde -d " ++ dquote ++ py_str E devpath ++ dquote ++ " -c " ++ abcfile
           ++ " >> " ++ dquote ++ logfile ++ dquote ++ " 2>&1"
      else "abcde -d " ++ dquote ++ py_str E devpath ++ dquote
           ++ " >> " ++ dquote ++ logfile ++ dquote ++ " 2>&1" in
    try_except (check_output E cmd ;; mret true)
      is_CalledProcessError (fun _ => mret false)
  else mret false.

(** ** [arm_setup] *)

Definition arm_directories (E : Env) (conf : Settings) : list string :=
  [RAW_PATH (cfg E); TRANSCODE_PATH conf; COMPLETED_PATH (cfg E); LOGPATH conf].

(** The body of the loop of [arm_setup]; the branch only logs. *)
Definition setup_folder (E : Env) (folder : string) : M unit :=
  made ← make_dir E folder;
  if made : bool then mret tt else mret tt.

(** [IOError] is [OSError]. *)
Definition arm_setup (E : Env) (conf : Settings) : M unit :=
  try_except (for_each (arm_directories E conf) (setup_folder E))
    is_OSError (fun _ => mret tt).

(** The text [make_dir] exits with. *)
Definition make_dir_error (path : string) : string :=
  "Couldn't create a directory at path: " ++ path
  ++ " Probably a permissions error.  Exiting".

Module Sample8.

Definition settings : Settings :=
  mkSettings "/home/arm/transcode" "/home/arm/logs" "/etc/arm/abcde.conf".

End Sample8.

(** ** [sleep_check_process] *)

(** What the system answers at the n-th round of the loop: the number of
    processes [psutil.process_iter()] shows under a name, and the value of
    [random.randrange(20, 120, 10)]. *)
Record Polls := mkPolls {
  process_count : string -> nat -> Z;
  randrange : nat -> Z
}.

(** The loop [while loop_count >= transcode_limit], at round [round].  The
    loop has no bound of its own: [None] stands for a run that is still
    waiting when the fuel is used up. *)
Fixpoint check_loop (P : Polls) (fuel round : nat) (process_str : string)
    (transcode_limit loop_count : Z) : M (option bool) :=
  if transcode_limit <=? loop_count then
    match fuel with
    | O => mret None
    | S fuel' =>
        let loop_count := process_count P process_str round in
        if loop_count <? transcode_limit then mret (Some true)
        else
          let random_time := randrange P round in
          sleep random_time ;;
          check_loop P fuel' (S round) process_str transcode_limit loop_count
    end
  else mret (Some false).

Definition sleep_check_process (P : Polls) (fuel : nat) (process_str : string)
    (transcode_limit : Z) : M (option bool) :=
  if 0 <? transcode_limit then
    let loop_count := transcode_limit + 1 in
    check_loop P fuel 0 process_str transcode_limit loop_count
  else mret (Some false).

(** The world after the sleeps of the rounds [first], ..., [first + n - 1]. *)
Definition waited (P : Polls) (first n : nat) (w : World) : World :=
  foldl (fun w round => slept (randrange P round) w) w (seq first n).

Module Sample9.

(** Two transcodes run at the first two rounds, one at the third. *)
Definition polls : Polls :=
  mkPolls (fun _ round => if (round <? 2)%nat then 2 else 1)
          (fun round => if Nat.even round then 20 else 110).

End Sample9.

(** ** [check_ip] *)

(** The addresses the detection takes: not the loopback address, and not
    starting with "172". *)
Definition usable_address (ip_address : string) : bool :=
  negb (String.eqb ip_address "127.0.0.1") && negb (String.prefix "172" ip_address).

(** [links] holds, for every interface of [interfaces()], the addresses of
    its [AF_INET] links, in order. *)
Definition check_ip (WEBSERVER_IP : string) (links : list (list string)) : string :=
  if negb (String.eqb WEBSERVER_IP "x.x.x.x") then WEBSERVER_IP
  else
    let ip_list :=
      foldl (fun ip_list inet_links =>
               foldl (fun ip_list ip_address =>
                        if usable_address ip_address
                        then (ip_list ++ [ip_address])%list
                        else ip_list)
                     ip_list inet_links)
            [] links in
    match ip_list with
    | ip_address :: _ => ip_address
    | [] => "127.0.0.1"
    end.
(** * Properties *)

(** ** The monad *)

Lemma bind_Ret {A B} (m : M A) (f : A -> M B) w a w' :
  m w = (Ret a, w') -> (m ≫= f) w = f a w'.
Proof. intros H. unfold mbind, M_bind. now rewrite H. Qed.

Lemma bind_Raise {A B} (m : M A) (f : A -> M B) w e w' :
  m w = (Raise e, w') -> (m ≫= f) w = (Raise e, w').
Proof. intros H. unfold mbind, M_bind. now rewrite H. Qed.

Lemma try_except_Ret {A} (m : M A) c h w a w' :
  m w = (Ret a, w') -> try_except m c h w = (Ret a, w').
Proof. intros H. unfold try_except. now rewrite H. Qed.

Lemma try_except_caught {A} (m : M A) c h w e w' :
  m w = (Raise e, w') -> c e = true -> try_except m c h w = h e w'.
Proof. intros H Hc. unfold try_except. now rewrite H, Hc. Qed.


(** ** Reading and writing an attribute *)

Lemma attr_lookup k key w j :
  jobs w !! k = Some j -> attr k key w = (Ret (getattr j key), w).
Proof. intros H. unfold attr, gets. now rewrite H. Qed.

Lemma setattr_run k key v w :
  setattr k key v w = (Ret tt, set_jobs (alter (insert key v) k (jobs w)) w).
Proof. reflexivity. Qed.

(** ** Setting the attributes of a dictionary *)

Lemma apply_items_lookup (l : list (string * pyval)) (j : Job) (k : string) :
  NoDup l.*1 ->
  apply_items l j !! k
  = match (list_to_map l : gmap string pyval) !! k with
    | Some v => Some v
    | None => j !! k
    end.
Proof.
  revert j. induction l as [|[k1 v1] l IH]; intros j Hnd.
  - cbn. now rewrite lookup_empty.
  - rewrite fmap_cons in Hnd. apply NoDup_cons in Hnd as [Hk1 Hnd].
    change (apply_items ((k1, v1) :: l) j) with (apply_items l (<[k1:=v1]> j)).
    rewrite IH by assumption.
    change (list_to_map ((k1, v1) :: l) : gmap string pyval)
      with (<[k1:=v1]> (list_to_map l : gmap string pyval)).
    cbn [fst] in Hk1.
    destruct (decide (k1 = k)) as [->|Hne].
    + rewrite lookup_insert_eq.
      rewrite (not_elem_of_list_to_map_1 (M := gmap string) l k Hk1).
      now rewrite lookup_insert_eq.
    + rewrite !(lookup_insert_ne _ k1 k) by assumption. reflexivity.
Qed.

Lemma apply_items_map (d : gmap string pyval) (j : Job) :
  apply_items (map_to_list d) j = d ∪ j.
Proof.
  apply map_eq. intros k.
  rewrite apply_items_lookup by apply NoDup_fst_map_to_list.
  rewrite list_to_map_to_list, lookup_union.
  destruct (d !! k), (j !! k); reflexivity.
Qed.

Lemma for_each_setattr (l : list (string * pyval)) (job : nat) (w : World) :
  for_each l (fun '(key, value) => setattr job key value) w
  = (Ret tt, set_jobs (alter (apply_items l) job (jobs w)) w).
Proof.
  revert w. induction l as [|[k v] l IH]; intros w.
  - cbn. unfold mret, M_ret. f_equal. destruct w. unfold set_jobs. cbn. f_equal.
    symmetry. apply list_alter_id. reflexivity.
  - cbn [for_each]. erewrite bind_Ret by reflexivity. rewrite IH.
    f_equal. unfold set_jobs. cbn. f_equal.
    rewrite list_alter_alter_eq. reflexivity.
Qed.

Lemma database_updater_unfold E d job wait_time w :
  database_updater E (ArgDict d) job wait_time w
  = (commit_loop E wait_time ;; mret true) (with_args d job w).
Proof.
  unfold database_updater. erewrite bind_Ret by apply for_each_setattr.
  unfold with_args.
  rewrite (list_alter_ext (apply_items (map_to_list d)) (fun j => d ∪ j)
             (jobs w) (jobs w) job); [reflexivity| |reflexivity].
  intros j _. apply apply_items_map.
Qed.

(** ** The retry loop of [database_updater] *)

Section RetryLoop.
Context (E : Env).

Lemma commit_Committed w :
  store_outcome E (attempts w) = Committed -> commit E w = (Ret tt, committed w).
Proof. intros H. unfold commit. now rewrite H. Qed.

Lemma commit_Failed w msg :
  store_outcome E (attempts w) = Failed msg ->
  commit E w = (Raise (StoreError msg), refused w).
Proof. intros H. unfold commit. now rewrite H. Qed.

(** A successful commit does not leave the loop: the next round follows. *)
Lemma commit_loop_Committed n w :
  store_outcome E (attempts w) = Committed ->
  commit_loop E (S n) w = commit_loop E n (committed w).
Proof.
  intros H. cbn [commit_loop].
  rewrite (bind_Ret _ _ w tt (committed w)); [reflexivity|].
  apply try_except_Ret. now apply commit_Committed.
Qed.

Lemma commit_loop_locked n w :
  lock_error (store_outcome E (attempts w)) = true ->
  commit_loop E (S n) w = commit_loop E n (slept 1 (refused w)).
Proof.
  intros H. destruct (store_outcome E (attempts w)) as [|msg] eqn:Ho; [discriminate|].
  cbn [commit_loop].
  rewrite (bind_Ret _ _ w tt (slept 1 (refused w))); [reflexivity|].
  rewrite (try_except_caught _ _ _ w _ _ (commit_Failed w msg Ho) eq_refl).
  cbn [exn_str]. cbn [lock_error] in H. now rewrite H.
Qed.

Lemma commit_loop_fatal n w msg :
  store_outcome E (attempts w) = Failed msg ->
  contains "locked" msg = false ->
  commit_loop E (S n) w = (Raise (RuntimeError msg), refused w).
Proof.
  intros Ho H. cbn [commit_loop].
  rewrite (bind_Raise _ _ w (RuntimeError msg) (refused w)); [reflexivity|].
  rewrite (try_except_caught _ _ _ w _ _ (commit_Failed w msg Ho) eq_refl).
  cbn [exn_str]. now rewrite H.
Qed.

(** [n] rounds that all meet a locked store. *)
Lemma commit_loop_all_locked n w :
  (forall i, (i < n)%nat -> lock_error (store_outcome E (attempts w + i)) = true) ->
  commit_loop E n w = (Ret tt, Nat.iter n (fun w => slept 1 (refused w)) w).
Proof.
  revert w. induction n as [|n IH]; intros w H.
  - reflexivity.
  - rewrite commit_loop_locked by (rewrite <- (Nat.add_0_r (attempts w)); apply H; lia).
    rewrite IH.
    + now rewrite Nat.iter_succ_r.
    + intros i Hi. cbn [attempts slept refused emit set_clock set_attempts].
      rewrite Nat.add_succ_l, <- Nat.add_succ_r. apply H. lia.
Qed.

(** [n] rounds that all go through. *)
Lemma commit_loop_all_Committed n w :
  (forall i, (i < n)%nat -> store_outcome E (attempts w + i) = Committed) ->
  commit_loop E n w = (Ret tt, Nat.iter n committed w).
Proof.
  revert w. induction n as [|n IH]; intros w H.
  - reflexivity.
  - rewrite commit_loop_Committed by (rewrite <- (Nat.add_0_r (attempts w)); apply H; lia).
    rewrite IH.
    + now rewrite Nat.iter_succ_r.
    + intros i Hi. cbn [attempts committed emit set_stored set_attempts].
      rewrite Nat.add_succ_l, <- Nat.add_succ_r. apply H. lia.
Qed.

Lemma commit_loop_app n m w w' :
  commit_loop E n w = (Ret tt, w') ->
  commit_loop E (n + m) w = commit_loop E m w'.
Proof.
  revert w. induction n as [|n IH]; intros w H.
  - cbn in H. unfold mret, M_ret in H. now inversion H.
  - change (S n + m)%nat with (S (n + m)).
    cbn [commit_loop] in *. unfold mbind, M_bind in *.
    destruct (try_except _ _ _ w) as [[[]|e] w1]; [|discriminate].
    now apply IH.
Qed.

End RetryLoop.

(** What the rounds leave behind. *)
Ltac iter_step IH :=
  rewrite Nat.iter_succ;
  cbn [jobs stored fs clock attempts polls trace
       committed slept refused emit set_clock set_attempts set_stored];
  rewrite ?IH.

Lemma iter_locked_attempts n w :
  attempts (Nat.iter n (fun w => slept 1 (refused w)) w) = (attempts w + n)%nat.
Proof. induction n as [|n IH]; [cbn; lia|]. iter_step IH. lia. Qed.

Lemma iter_locked_stored n w :
  stored (Nat.iter n (fun w => slept 1 (refused w)) w) = stored w.
Proof. induction n as [|n IH]; [reflexivity|]. now iter_step IH. Qed.

Lemma iter_locked_jobs n w :
  jobs (Nat.iter n (fun w => slept 1 (refused w)) w) = jobs w.
Proof. induction n as [|n IH]; [reflexivity|]. now iter_step IH. Qed.

Lemma iter_locked_trace n w :
  trace (Nat.iter n (fun w => slept 1 (refused w)) w)
  = (mjoin (replicate n [EvSleep 1; EvCommit false]) ++ trace w)%list.
Proof. induction n as [|n IH]; [reflexivity|]. now iter_step IH. Qed.

Lemma iter_locked_clock n w :
  clock (Nat.iter n (fun w => slept 1 (refused w)) w) = clock w + Z.of_nat n * 1000000.
Proof. induction n as [|n IH]; [cbn; lia|]. iter_step IH. lia. Qed.

Lemma iter_committed_attempts n w :
  attempts (Nat.iter n committed w) = (attempts w + n)%nat.
Proof. induction n as [|n IH]; [cbn; lia|]. iter_step IH. lia. Qed.

Lemma iter_committed_jobs n w : jobs (Nat.iter n committed w) = jobs w.
Proof. induction n as [|n IH]; [reflexivity|]. now iter_step IH. Qed.

Lemma iter_committed_stored n w :
  stored (Nat.iter (S n) committed w) = jobs w.
Proof. rewrite Nat.iter_succ. cbn [stored committed emit set_stored]. apply iter_committed_jobs. Qed.

Lemma iter_committed_trace n w :
  trace (Nat.iter n committed w) = (replicate n (EvCommit true) ++ trace w)%list.
Proof. induction n as [|n IH]; [reflexivity|]. now iter_step IH. Qed.

Lemma iter_committed_clock n w : clock (Nat.iter n committed w) = clock w.
Proof. induction n as [|n IH]; [reflexivity|]. now iter_step IH. Qed.

(** How the loop can end. *)
Lemma commit_loop_outcomes E n : forall w,
  (commit_loop E n w).1 = Ret tt /\ attempts (commit_loop E n w).2 = (attempts w + n)%nat
  \/ exists k msg,
       (k < n)%nat
       /\ store_outcome E (attempts w + k) = Failed msg
       /\ contains "locked" msg = false
       /\ (commit_loop E n w).1 = Raise (RuntimeError msg)
       /\ attempts (commit_loop E n w).2 = (attempts w + k + 1)%nat.
Proof.
  induction n as [|n IH]; intros w.
  - left. cbn. split; [reflexivity|lia].
  - destruct (store_outcome E (attempts w)) as [|msg] eqn:Ho.
    + rewrite commit_loop_Committed by exact Ho.
      destruct (IH (committed w)) as [[Hr Ha]|(k & m & Hk & Hf & Hm & Hr & Ha)].
      * left. split; [exact Hr|]. rewrite Ha. cbn. lia.
      * right. exists (S k), m. cbn [attempts committed emit set_stored set_attempts] in *.
        rewrite Nat.add_succ_l, <- Nat.add_succ_r in Hf.
        repeat split; [lia|exact Hf|exact Hm|exact Hr|lia].
    + destruct (contains "locked" msg) eqn:Hl.
      * rewrite commit_loop_locked by (rewrite Ho; exact Hl).
        destruct (IH (slept 1 (refused w)))
          as [[Hr Ha]|(k & m & Hk & Hf & Hm & Hr & Ha)].
        -- left. split; [exact Hr|]. rewrite Ha. cbn. lia.
        -- right. exists (S k), m.
           cbn [attempts slept refused emit set_clock set_attempts] in *.
           rewrite Nat.add_succ_l, <- Nat.add_succ_r in Hf.
           repeat split; [lia|exact Hf|exact Hm|exact Hr|lia].
      * right. exists 0%nat, msg. rewrite (commit_loop_fatal E n w msg Ho Hl).
        rewrite Nat.add_0_r. repeat split; [lia|exact Ho|exact Hl|cbn; lia].
Qed.

(** ** [database_updater] *)

Lemma with_args_attempts d job w : attempts (with_args d job w) = attempts w.
Proof. reflexivity. Qed.

(** C4: when the first commit attempt fails with an error whose text does not
    contain "locked", [database_updater] raises a [RuntimeError] carrying that
    text: one commit was attempted, none retried, and no sleep took place. *)
Theorem database_updater_fatal_error E d job wait_time w msg :
  (0 < wait_time)%nat ->
  store_outcome E (attempts w) = Failed msg ->
  contains "locked" msg = false ->
  let r := database_updater E (ArgDict d) job wait_time w in
  r.1 = Raise (RuntimeError msg)
  /\ trace r.2 = EvCommit false :: trace w
  /\ attempts r.2 = S (attempts w)
  /\ clock r.2 = clock w.
Proof.
  intros Hwt Ho Hmsg. cbv zeta. rewrite database_updater_unfold.
  destruct wait_time as [|n]; [lia|].
  rewrite (bind_Raise _ _ _ (RuntimeError msg) (refused (with_args d job w)))
    by now apply commit_loop_fatal.
  repeat split.
Qed.

Lemma database_updater_fatal_error_witness :
  let r := database_updater (Sample.env Sample.broken) (ArgDict Sample.fail_args)
             0 wait_time_default Sample.world in
  r.1 = Raise (RuntimeError "disk I/O error")
  /\ trace r.2 = EvCommit false :: trace Sample.world
  /\ attempts r.2 = S (attempts Sample.world)
  /\ clock r.2 = clock Sample.world.
Proof.
  apply (database_updater_fatal_error (Sample.env Sample.broken) Sample.fail_args
           0 wait_time_default Sample.world "disk I/O error").
  - unfold wait_time_default. lia.
  - reflexivity.
  - reflexivity.
Defined.

(** C1 (the code departs from it): when every one of the [wait_time] commit
    attempts meets a locked store, [database_updater] still returns [True],
    although nothing was written: the rows are what they were. *)
Theorem database_updater_exhausted E d job wait_time w :
  (forall i, (i < wait_time)%nat ->
     lock_error (store_outcome E (attempts w + i)) = true) ->
  let r := database_updater E (ArgDict d) job wait_time w in
  r.1 = Ret true
  /\ stored r.2 = stored w
  /\ attempts r.2 = (attempts w + wait_time)%nat
  /\ clock r.2 = clock w + Z.of_nat wait_time * 1000000.
Proof.
  intros H. cbv zeta. rewrite database_updater_unfold.
  erewrite bind_Ret by (apply commit_loop_all_locked; exact H).
  cbn [fst snd mret M_ret].
  rewrite iter_locked_stored, iter_locked_attempts, iter_locked_clock.
  repeat split.
Qed.

Lemma database_updater_exhausted_witness :
  let r := database_updater (Sample.env Sample.always_locked)
             (ArgDict Sample.fail_args) 0 wait_time_default Sample.world in
  r.1 = Ret true
  /\ stored r.2 = stored Sample.world
  /\ attempts r.2 = (attempts Sample.world + wait_time_default)%nat
  /\ clock r.2 = clock Sample.world + Z.of_nat wait_time_default * 1000000.
Proof.
  apply (database_updater_exhausted (Sample.env Sample.always_locked)
           Sample.fail_args 0 wait_time_default Sample.world).
  intros i _. reflexivity.
Defined.

(** When [N] locked attempts are followed by commits that all go through,
    [database_updater] returns [True], the job carries every item of the
    dictionary, in the session and in the store, and [N] sleeps of one second
    took place, all of them before the first commit that went through.  The
    loop does not stop there: it commits [wait_time - N] times. *)
Lemma database_updater_retry_then_success E d job wait_time w N :
  (N < wait_time)%nat ->
  (forall i, (i < N)%nat ->
     lock_error (store_outcome E (attempts w + i)) = true) ->
  (forall i, (N <= i < wait_time)%nat ->
     store_outcome E (attempts w + i) = Committed) ->
  let r := database_updater E (ArgDict d) job wait_time w in
  r.1 = Ret true
  /\ jobs r.2 = alter (fun j => d ∪ j) job (jobs w)
  /\ stored r.2 = jobs r.2
  /\ trace r.2 = (replicate (wait_time - N) (EvCommit true)
                  ++ mjoin (replicate N [EvSleep 1; EvCommit false])
                  ++ trace w)%list
  /\ clock r.2 = clock w + Z.of_nat N * 1000000.
Proof.
  intros HN Hlock Hok. cbv zeta. rewrite database_updater_unfold.
  set (w1 := with_args d job w).
  set (w2 := Nat.iter N (fun w => slept 1 (refused w)) w1).
  assert (H2 : commit_loop E wait_time w1
               = (Ret tt, Nat.iter (S (wait_time - N - 1)) committed w2)).
  { replace wait_time with (N + S (wait_time - N - 1))%nat at 1 by lia.
    rewrite (commit_loop_app E N _ w1 w2) by (apply commit_loop_all_locked; exact Hlock).
    apply commit_loop_all_Committed. intros i Hi.
    unfold w2. rewrite iter_locked_attempts. unfold w1. rewrite with_args_attempts.
    rewrite <- Nat.add_assoc. apply Hok. lia. }
  rewrite (bind_Ret _ _ _ _ _ H2). cbn [fst snd mret M_ret].
  rewrite iter_committed_stored, iter_committed_jobs, iter_committed_trace,
    iter_committed_clock.
  unfold w2. rewrite iter_locked_jobs, iter_locked_trace, iter_locked_clock.
  replace (S (wait_time - N - 1)) with (wait_time - N)%nat by lia.
  repeat split.
Qed.



(** Given a dictionary, [database_updater] returns [True] or raises a
    [RuntimeError]. *)
Lemma database_updater_ends E d job n w :
  (exists w', database_updater E (ArgDict d) job n w = (Ret true, w'))
  \/ (exists msg w', database_updater E (ArgDict d) job n w
                     = (Raise (RuntimeError msg), w')).
Proof.
  rewrite database_updater_unfold.
  destruct (commit_loop_outcomes E n (with_args d job w))
    as [[Hr _]|(k & msg & _ & _ & _ & Hr & _)];
    unfold mbind, M_bind;
    destruct (commit_loop E n (with_args d job w)) as [[[]|e] w'];
    cbn [fst] in Hr; try discriminate.
  - left. eauto.
  - right. injection Hr as ->. eauto.
Qed.

(** Without a failure other than a locked store, it returns [True]. *)
Lemma database_updater_no_fatal E d job n w :
  (forall i msg, (i < n)%nat ->
     store_outcome E (attempts w + i) = Failed msg -> contains "locked" msg = true) ->
  exists w', database_updater E (ArgDict d) job n w = (Ret true, w').
Proof.
  intros Hlock. rewrite database_updater_unfold.
  destruct (commit_loop_outcomes E n (with_args d job w))
    as [[Hr _]|(k & msg & Hk & Hf & Hm & _)].
  - unfold mbind, M_bind.
    destruct (commit_loop E n (with_args d job w)) as [[[]|e] w'];
      cbn [fst] in Hr; [eauto|discriminate].
  - change (attempts (with_args d job w)) with (attempts w) in Hf.
    rewrite (Hlock k msg Hk Hf) in Hm. discriminate.
Qed.

(** ** [clean_old_jobs] *)

Lemma clean_old_jobs_unfold E :
  clean_old_jobs E
  = (active_jobs ← query non_terminal;
     for_each active_jobs (sweep_one E) ;; mret VNone).
Proof. reflexivity. Qed.

Section Sweep.
Context (E : Env).

Lemma sweep_one_running w k j p h :
  jobs w !! k = Some j ->
  getattr j "pid" = VInt p ->
  process_table E p = Some h ->
  sweep_one E k w = (Ret tt, w).
Proof.
  intros Hk Hpid Hp. unfold sweep_one.
  rewrite (bind_Ret _ _ w _ w (attr_lookup k "pid" w j Hk)). rewrite Hpid, Hp.
  rewrite (bind_Ret _ _ w _ w (attr_lookup k "pid_hash" w j Hk)).
  now case_bool_decide.
Qed.

Lemma sweep_one_gone w k j p :
  jobs w !! k = Some j ->
  getattr j "pid" = VInt p ->
  process_table E p = None ->
  store_outcome E (attempts w) = Committed ->
  sweep_one E k w
  = (Ret tt, committed (set_jobs (alter (insert "status" (VStr "fail")) k (jobs w)) w)).
Proof.
  intros Hk Hpid Hp Ho. unfold sweep_one.
  rewrite (bind_Ret _ _ w _ w (attr_lookup k "pid" w j Hk)). rewrite Hpid, Hp.
  rewrite (bind_Ret _ _ w _ _ (setattr_run k "status" (VStr "fail") w)).
  now apply commit_Committed.
Qed.

Lemma select_from_skip p k j l :
  p j = false -> select_from p k (j :: l) = select_from p (S k) l.
Proof. intros H. cbn. now rewrite H. Qed.

Lemma select_from_take p k j l :
  p j = true -> select_from p k (j :: l) = k :: select_from p (S k) l.
Proof. intros H. cbn. now rewrite H. Qed.

(** The loop, from the rows [pre] already passed to the rows [suf] to come. *)
Lemma sweep_loop suf : forall pre w,
  jobs w = (pre ++ suf)%list ->
  (forall n, (attempts w <= n)%nat -> store_outcome E n = Committed) ->
  (forall j, j ∈ suf -> non_terminal j = true -> exists p, getattr j "pid" = VInt p) ->
  exists w',
    for_each (select_from non_terminal (length pre) suf) (sweep_one E) w = (Ret tt, w')
    /\ jobs w' = (pre ++ (sweep_row E <$> suf))%list
    /\ (attempts w <= attempts w')%nat
    /\ (stored w = jobs w -> stored w' = jobs w')
    /\ ((exists j, j ∈ suf /\ swept E j = true) -> stored w' = jobs w').
Proof.
  induction suf as [|j suf IH]; intros pre w Hjobs Hcommit Hpid.
  - exists w. cbn. rewrite Hjobs. repeat split; auto.
    intros (j & Hj & _). now apply elem_of_nil in Hj.
  - assert (Hk : jobs w !! length pre = Some j).
    { rewrite Hjobs. now rewrite list_lookup_middle. }
    assert (Hsplit : forall x, (pre ++ x :: suf = (pre ++ [x]) ++ suf)%list).
    { intros x. now rewrite <- app_assoc. }
    assert (Hlen : forall x : Job, length (pre ++ [x]) = S (length pre)).
    { intros x. rewrite length_app. cbn. lia. }
    destruct (non_terminal j) eqn:Hnt.
    + destruct (Hpid j) as [p Hp]; [left|assumption|].
      rewrite select_from_take by assumption. cbn [for_each].
      destruct (process_table E p) as [h|] eqn:Hproc.
      * (* the process runs: the job is left alone *)
        rewrite (bind_Ret _ _ w tt w) by (eapply sweep_one_running; eassumption).
        destruct (IH (pre ++ [j])%list w) as (w' & Hrun & Hj' & Ha & Hs & Hs').
        { now rewrite <- Hsplit. }
        { assumption. }
        { intros j' Hin. apply Hpid. now right. }
        exists w'. rewrite Hlen in Hrun.
        assert (Hrow : sweep_row E j = j).
        { unfold sweep_row, swept, abandoned. rewrite Hp, Hproc.
          rewrite bool_decide_eq_false_2 by discriminate.
          now rewrite andb_false_r. }
        repeat split; auto.
        -- rewrite Hj', fmap_cons, Hrow, <- app_assoc. reflexivity.
        -- intros (j' & Hin & Hsw). apply Hs'.
           apply elem_of_cons in Hin as [->|Hin]; [|eauto].
           unfold sweep_row in Hrow. rewrite Hsw in Hrow.
           exfalso. assert (Hst : getattr (<["status":=VStr "fail"]> j) "status"
                                  = getattr j "status") by now rewrite Hrow.
           unfold getattr in Hst at 1. rewrite lookup_insert_eq in Hst. cbn in Hst.
           unfold non_terminal in Hnt. rewrite <- Hst in Hnt. discriminate.
      * (* the process is gone: the job is failed and committed *)
        set (w1 := committed (set_jobs (alter (insert "status" (VStr "fail"))
                                          (length pre) (jobs w)) w)).
        rewrite (bind_Ret _ _ w tt w1)
          by (eapply sweep_one_gone; eauto).
        assert (Hj1 : jobs w1 = ((pre ++ [<["status":=VStr "fail"]> j]) ++ suf)%list).
        { unfold w1. cbn [jobs committed emit set_stored set_attempts set_jobs].
          rewrite Hjobs, <- Hsplit.
          rewrite alter_app_r_alt by lia. rewrite Nat.sub_diag. reflexivity. }
        destruct (IH (pre ++ [<["status":=VStr "fail"]> j])%list w1)
          as (w' & Hrun & Hj' & Ha & Hs & Hs').
        { assumption. }
        { intros n Hn. apply Hcommit. unfold w1 in Hn. cbn in Hn. lia. }
        { intros j' Hin. apply Hpid. now right. }
        exists w'. rewrite Hlen in Hrun.
        assert (Hrow : sweep_row E j = <["status":=VStr "fail"]> j).
        { unfold sweep_row, swept, abandoned. rewrite Hnt, Hp, Hproc.
          now rewrite bool_decide_eq_true_2. }
        assert (Hst : stored w' = jobs w') by (apply Hs; reflexivity).
        repeat split; auto.
        -- rewrite Hj', fmap_cons, Hrow, <- app_assoc. reflexivity.
        -- unfold w1 in Ha. cbn in Ha. lia.
    + rewrite select_from_skip by assumption.
      destruct (IH (pre ++ [j])%list w) as (w' & Hrun & Hj' & Ha & Hs & Hs').
      { now rewrite <- Hsplit. }
      { assumption. }
      { intros j' Hin. apply Hpid. now right. }
      exists w'. rewrite Hlen in Hrun.
      assert (Hrow : sweep_row E j = j).
      { unfold sweep_row, swept. now rewrite Hnt. }
      repeat split; auto.
      * rewrite Hj', fmap_cons, Hrow, <- app_assoc. reflexivity.
      * intros (j' & Hin & Hsw). apply Hs'.
        apply elem_of_cons in Hin as [->|Hin]; [|eauto].
        unfold swept in Hsw. rewrite Hnt in Hsw. discriminate.
Qed.

End Sweep.

Lemma query_run p w :
  query p w = (Ret (select_from p 0 (jobs w)), emit EvQuery w).
Proof. reflexivity. Qed.

Lemma sweep_row_swept E j p :
  non_terminal j = true -> getattr j "pid" = VInt p -> process_table E p = None ->
  sweep_row E j = <["status" := VStr "fail"]> j.
Proof.
  intros Hnt Hp Hproc. unfold sweep_row, swept, abandoned.
  rewrite Hnt, Hp, Hproc. now rewrite bool_decide_eq_true_2.
Qed.

(** When the commits go through, the sweep fails every non-terminal job
    whose recorded PID is not in the process table, in the session and in
    the store, and it returns [None]. *)
Theorem clean_old_jobs_fails_abandoned E w :
  (forall n, (attempts w <= n)%nat -> store_outcome E n = Committed) ->
  (forall j, j ∈ jobs w -> non_terminal j = true -> exists p, getattr j "pid" = VInt p) ->
  let r := clean_old_jobs E w in
  r.1 = Ret VNone
  /\ forall i j p,
       jobs w !! i = Some j ->
       non_terminal j = true ->
       getattr j "pid" = VInt p ->
       process_table E p = None ->
       jobs r.2 !! i = Some (<["status" := VStr "fail"]> j)
       /\ stored r.2 !! i = Some (<["status" := VStr "fail"]> j).
Proof.
  intros Hcommit Hpid. cbv zeta. rewrite clean_old_jobs_unfold.
  rewrite (bind_Ret _ _ w _ _ (query_run non_terminal w)).
  destruct (sweep_loop E (jobs w) [] (emit EvQuery w))
    as (w' & Hrun & Hjobs & _ & _ & Hstored); [reflexivity|exact Hcommit|exact Hpid|].
  change (length (@nil Job)) with 0%nat in Hrun.
  rewrite (bind_Ret _ _ _ _ _ Hrun). cbn [fst snd mret M_ret].
  split; [reflexivity|].
  intros i j p Hi Hnt Hp Hproc.
  assert (Hrow : jobs w' !! i = Some (<["status" := VStr "fail"]> j)).
  { rewrite Hjobs. cbn [app]. rewrite list_lookup_fmap, Hi. cbn.
    now rewrite (sweep_row_swept E j p). }
  split; [exact Hrow|]. rewrite Hstored; [exact Hrow|].
  exists j. split; [now apply list_elem_of_lookup_2 in Hi|].
  unfold swept, abandoned. rewrite Hnt, Hp, Hproc. now rewrite bool_decide_eq_true_2.
Qed.

Lemma clean_old_jobs_fails_abandoned_witness :
  let r := clean_old_jobs (Sample.env_with_processes Sample.no_process) Sample.world in
  r.1 = Ret VNone
  /\ jobs r.2 !! 0%nat = Some (<["status" := VStr "fail"]> Sample.job)
  /\ stored r.2 !! 0%nat = Some (<["status" := VStr "fail"]> Sample.job).
Proof.
  destruct (clean_old_jobs_fails_abandoned
              (Sample.env_with_processes Sample.no_process) Sample.world)
    as [Hret Hrows].
  - intros n _. reflexivity.
  - intros j Hj _. apply list_elem_of_singleton in Hj. subst j.
    exists 4242. reflexivity.
  - split; [exact Hret|].
    apply (Hrows 0%nat Sample.job 4242); reflexivity.
Defined.

(** C2 (the code departs from it): a non-terminal job whose recorded PID is
    in the process table keeps its row, and so its status, also when the
    process there has another identity than the one the job recorded: the
    comparison of the hashes decides nothing.  The sweep returns [None]. *)
Theorem clean_old_jobs_keeps_reused_pid E w i j p h :
  (forall n, (attempts w <= n)%nat -> store_outcome E n = Committed) ->
  (forall j, j ∈ jobs w -> non_terminal j = true -> exists p, getattr j "pid" = VInt p) ->
  jobs w !! i = Some j ->
  non_terminal j = true ->
  getattr j "pid" = VInt p ->
  process_table E p = Some h ->
  getattr j "pid_hash" <> VInt h ->
  let r := clean_old_jobs E w in
  r.1 = Ret VNone
  /\ jobs r.2 !! i = Some j
  /\ getattr j "status" <> VStr "fail".
Proof.
  intros Hcommit Hpid Hi Hnt Hp Hproc _. cbv zeta. rewrite clean_old_jobs_unfold.
  rewrite (bind_Ret _ _ w _ _ (query_run non_terminal w)).
  destruct (sweep_loop E (jobs w) [] (emit EvQuery w))
    as (w' & Hrun & Hjobs & _); [reflexivity|exact Hcommit|exact Hpid|].
  change (length (@nil Job)) with 0%nat in Hrun.
  rewrite (bind_Ret _ _ _ _ _ Hrun). cbn [fst snd mret M_ret].
  split; [reflexivity|]. split.
  - rewrite Hjobs. cbn [app]. rewrite list_lookup_fmap, Hi. cbn. f_equal.
    unfold sweep_row, swept, abandoned. rewrite Hp, Hproc.
    rewrite bool_decide_eq_false_2 by discriminate. now rewrite andb_false_r.
  - intros Hst. unfold non_terminal in Hnt. rewrite Hst in Hnt. discriminate.
Qed.

Lemma clean_old_jobs_keeps_reused_pid_witness :
  let E := Sample.env_with_processes Sample.pid_reused in
  let r := clean_old_jobs E Sample.world in
  r.1 = Ret VNone
  /\ jobs r.2 !! 0%nat = Some Sample.job
  /\ getattr Sample.job "status" <> VStr "fail".
Proof.
  apply (clean_old_jobs_keeps_reused_pid (Sample.env_with_processes Sample.pid_reused)
           Sample.world 0 Sample.job 4242 99).
  - intros n _. reflexivity.
  - intros j Hj _. apply list_elem_of_singleton in Hj. subst j. exists 4242. reflexivity.
  - reflexivity.
  - reflexivity.
  - reflexivity.
  - reflexivity.
  - discriminate.
Defined.

(** ** Queries *)

Lemma elem_of_select_from f l : forall k i,
  i ∈ select_from f k l
  <-> (k <= i)%nat /\ exists q, l !! (i - k)%nat = Some q /\ f q = true.
Proof.
  induction l as [|a l IH]; intros k i.
  - cbn. split; [intros H; now apply elem_of_nil in H|].
    intros (_ & q & Hq & _). now rewrite lookup_nil in Hq.
  - assert (Htail : i ∈ select_from f (S k) l
                    <-> (k < i)%nat /\ exists q, (a :: l) !! (i - k)%nat = Some q /\ f q = true).
    { rewrite IH. split.
      - intros (Hk & q & Hq & Hf). split; [lia|]. exists q. split; [|assumption].
        replace (i - k)%nat with (S (i - S k)) by lia. exact Hq.
      - intros (Hk & q & Hq & Hf). split; [lia|]. exists q. split; [|assumption].
        replace (i - k)%nat with (S (i - S k)) in Hq by lia. exact Hq. }
    cbn [select_from]. destruct (f a) eqn:Hfa.
    + rewrite elem_of_cons, Htail. split.
      * intros [->|(Hk & H)]; [|split; [lia|exact H]].
        split; [lia|]. exists a. now rewrite Nat.sub_diag.
      * intros (Hk & q & Hq & Hf).
        destruct (decide (i = k)) as [->|Hne]; [now left|].
        right. split; [lia|]. now exists q.
    + rewrite Htail. split.
      * intros (Hk & H). split; [lia|exact H].
      * intros (Hk & q & Hq & Hf).
        destruct (decide (i = k)) as [->|Hne].
        -- rewrite Nat.sub_diag in Hq. cbn in Hq. congruence.
        -- split; [lia|]. now exists q.
Qed.

(** The first row a query returns is the first row that matches. *)
Lemma select_from_first f : forall l k n q,
  l !! n = Some q ->
  f q = true ->
  (forall i a, (i < n)%nat -> l !! i = Some a -> f a = false) ->
  exists rest, select_from f k l = (k + n)%nat :: rest.
Proof.
  induction l as [|a l IH]; intros k n q Hn Hq Hbefore.
  - now rewrite lookup_nil in Hn.
  - destruct n as [|n].
    + cbn in Hn. injection Hn as ->. cbn. rewrite Hq, Nat.add_0_r. eauto.
    + cbn [select_from]. rewrite (Hbefore 0%nat a) by (reflexivity || lia).
      destruct (IH (S k) n q) as [rest Hrest]; [exact Hn|exact Hq| |].
      * intros i b Hi Hb. apply (Hbefore (S i) b); [lia|exact Hb].
      * exists rest. rewrite Hrest. f_equal. lia.
Qed.

(** ** What the retry loop never touches *)

Lemma commit_jobs E w : jobs (commit E w).2 = jobs w.
Proof. unfold commit. now destruct (store_outcome E (attempts w)). Qed.

Lemma commit_loop_jobs E n : forall w, jobs (commit_loop E n w).2 = jobs w.
Proof.
  induction n as [|n IH]; intros w; [reflexivity|].
  cbn [commit_loop]. unfold mbind, M_bind, try_except, commit.
  destruct (store_outcome E (attempts w)) as [|msg].
  - now rewrite IH.
  - cbn [is_Exception exn_str]. destruct (contains "locked" msg).
    + unfold sleep, modify. now rewrite IH.
    + reflexivity.
Qed.

Lemma commit_loop_fs E n : forall w, fs (commit_loop E n w).2 = fs w.
Proof.
  induction n as [|n IH]; intros w; [reflexivity|].
  cbn [commit_loop]. unfold mbind, M_bind, try_except, commit.
  destruct (store_outcome E (attempts w)) as [|msg].
  - now rewrite IH.
  - cbn [is_Exception exn_str]. destruct (contains "locked" msg).
    + unfold sleep, modify. now rewrite IH.
    + reflexivity.
Qed.

Lemma snd_then_mret {A B} (m : M A) (b : B) w :
  ((m ;; mret b) w).2 = (m w).2.
Proof. unfold mbind, M_bind. now destruct (m w) as [[a|e] w']. Qed.

Lemma database_updater_jobs E d job n w :
  jobs (database_updater E (ArgDict d) job n w).2 = alter (fun j => d ∪ j) job (jobs w).
Proof. now rewrite database_updater_unfold, snd_then_mret, commit_loop_jobs. Qed.

Lemma database_updater_fs E d job n w :
  fs (database_updater E (ArgDict d) job n w).2 = fs w.
Proof. now rewrite database_updater_unfold, snd_then_mret, commit_loop_fs. Qed.

(** With a store that takes every write, the call returns [True] and the
    rows are the session's. *)
Lemma database_updater_healthy E d job n w :
  (0 < n)%nat ->
  (forall i, (i < n)%nat -> store_outcome E (attempts w + i) = Committed) ->
  let r := database_updater E (ArgDict d) job n w in
  r.1 = Ret true /\ stored r.2 = jobs r.2.
Proof.
  intros Hn Hok.
  destruct (database_updater_retry_then_success E d job n w 0) as (Hr & _ & Hs & _);
    [exact Hn|intros i Hi; lia|intros i Hi; apply Hok; lia|].
  now split.
Qed.

(** ** [job_dupe_check] *)

(** C5: a job whose fingerprint is unset gets [(False, None)]; no query is
    made and nothing changes, in the session, the store or anywhere else. *)
Theorem job_dupe_check_no_fingerprint E job w j :
  jobs w !! job = Some j ->
  getattr j "crc_id" = VNone ->
  job_dupe_check E job w = (Ret (false, None), w).
Proof.
  intros Hj Hcrc. unfold job_dupe_check.
  rewrite (bind_Ret _ _ w _ w (attr_lookup job "crc_id" w j Hj)).
  rewrite Hcrc. reflexivity.
Qed.

Lemma job_dupe_check_no_fingerprint_witness :
  job_dupe_check (Sample.env Sample.healthy) 1 Sample.library_unread
  = (Ret (false, None), Sample.library_unread).
Proof.
  apply (job_dupe_check_no_fingerprint (Sample.env Sample.healthy) 1
           Sample.library_unread Sample.unread); reflexivity.
Defined.

Lemma reports_item E p key v :
  reports E p -> key ∈ copied -> getattr p key = v ->
  item (py_str E <$> get_d E p) key = mret (py_str E v).
Proof.
  intros Hrep Hkey Hv. unfold item.
  now rewrite lookup_fmap, (Hrep key Hkey), Hv.
Qed.

(** C6, as amended: with a prior successful job of the same fingerprint whose
    title is a non-empty string, the check hands to [database_updater], for
    the job, the first such prior's title, year and classification, the flag
    [True], and its poster URL, or [None] when that URL is the empty string.
    It returns [True] with the matching records unless [database_updater]
    raises; when the store takes the write, the job carries these values in
    the session and in the store. *)
Theorem job_dupe_check_copies_first_prior E job w j crc i0 p t y u v :
  jobs w !! job = Some j ->
  getattr j "crc_id" = crc ->
  crc <> VNone ->
  jobs w !! i0 = Some p ->
  prior_match crc p = true ->
  (forall i q, (i < i0)%nat -> jobs w !! i = Some q -> prior_match crc q = false) ->
  reports E p ->
  getattr p "title" = VStr t ->
  t <> "" ->
  getattr p "year" = VStr y ->
  getattr p "poster_url" = VStr u ->
  getattr p "video_type" = VStr v ->
  let active_rip : gmap string pyval :=
    {[ "title" := VStr t; "year" := VStr y;
       "poster_url" := if String.eqb u "" then VNone else VStr u;
       "hasnicetitle" := VBool true; "video_type" := VStr v ]} in
  let results := records E w (select_from (prior_match crc) 0 (jobs w)) in
  let r := job_dupe_check E job w in
  r = (database_updater E (ArgDict active_rip) job wait_time_default ;;
       mret (true, Some results)) (emit EvQuery w)
  /\ (r.1 = Ret (true, Some results) \/ exists msg, r.1 = Raise (RuntimeError msg))
  /\ ((forall i, (i < wait_time_default)%nat ->
         store_outcome E (attempts w + i) = Committed) ->
      r.1 = Ret (true, Some results)
      /\ jobs r.2 = alter (fun j => active_rip ∪ j) job (jobs w)
      /\ stored r.2 = jobs r.2).
Proof.
  intros Hj Hcrc Hnone Hp Hmatch Hfirst Hrep Ht Hne Hy Hu Hv active_rip results r.
  assert (Hnice : getattr p "hasnicetitle" = VBool true).
  { unfold prior_match, sql_eq in Hmatch.
    apply andb_prop in Hmatch as [_ Hm]. now apply bool_decide_eq_true in Hm. }
  assert (Hrun : r = (database_updater E (ArgDict active_rip) job wait_time_default ;;
                      mret (true, Some results)) (emit EvQuery w)).
  { unfold r, job_dupe_check.
    rewrite (bind_Ret _ _ w _ w (attr_lookup job "crc_id" w j Hj)).
    rewrite Hcrc, bool_decide_eq_false_2 by exact Hnone.
    rewrite (bind_Ret _ _ w _ _ (query_run _ w)).
    change (fun j0 : Job => (sql_eq (getattr j0 "crc_id") crc
                             && sql_eq (getattr j0 "status") (VStr "success")
                             && sql_eq (getattr j0 "hasnicetitle") (VBool true))%bool)
      with (prior_match crc).
    destruct (select_from_first (prior_match crc) (jobs w) 0 i0 p Hp Hmatch Hfirst)
      as [rest Hsel].
    unfold results, records. rewrite Hsel. cbn [Nat.add].
    unfold gets at 1. unfold mbind at 1, M_bind at 1.
    cbn [jobs emit omap list_omap]. rewrite Hp. cbn [fmap list_fmap].
    rewrite (reports_item E p "title" (VStr t) Hrep) by (assumption || set_solver).
    unfold mbind at 1, M_bind at 1, mret at 1, M_ret at 1.
    rewrite (bind_Ret _ _ _ _ _ (attr_lookup job "label" (emit EvQuery w) j Hj)).
    rewrite (reports_item E p "year" (VStr y) Hrep) by (assumption || set_solver).
    unfold mbind at 1, M_bind at 1, mret at 1, M_ret at 1.
    rewrite (reports_item E p "poster_url" (VStr u) Hrep) by (assumption || set_solver).
    unfold mbind at 1, M_bind at 1, mret at 1, M_ret at 1.
    rewrite (reports_item E p "hasnicetitle" (VBool true) Hrep) by (assumption || set_solver).
    unfold mbind at 1, M_bind at 1, mret at 1, M_ret at 1.
    cbn [py_str].
    change (negb (String.eqb "True" "")) with true. cbv iota.
    rewrite (reports_item E p "video_type" (VStr v) Hrep) by (assumption || set_solver).
    unfold mbind at 1, M_bind at 1, mret at 1, M_ret at 1.
    cbn [py_str].
    change (String.eqb (lower "True") "true") with true.
    assert (Htitle : String.eqb t "" = false) by now apply String.eqb_neq.
    rewrite Htitle. cbn [negb].
    replace (if negb (String.eqb y "") then y else "") with y
      by (destruct (String.eqb_spec y ""); [now subst|reflexivity]).
    replace (if negb (String.eqb u "") then VStr u else VNone)
      with (if String.eqb u "" then VNone else VStr u)
      by now destruct (String.eqb u "").
    reflexivity. }
  split; [exact Hrun|]. split.
  - rewrite Hrun.
    destruct (database_updater_ends E active_rip job wait_time_default (emit EvQuery w))
      as [(w' & Hd)|(msg & w' & Hd)].
    + left. now rewrite (bind_Ret _ _ _ _ _ Hd).
    + right. exists msg. now rewrite (bind_Raise _ _ _ _ _ Hd).
  - intros Hok. rewrite Hrun.
    destruct (database_updater_healthy E active_rip job wait_time_default (emit EvQuery w))
      as [Hret Hst]; [unfold wait_time_default; lia|exact Hok|].
    rewrite snd_then_mret. split; [|split; [|exact Hst]].
    + unfold mbind, M_bind.
      destruct (database_updater E (ArgDict active_rip) job wait_time_default
                  (emit EvQuery w)) as [[b|e] w'] eqn:Hd; cbn in Hret;
        [reflexivity|discriminate].
    + now rewrite database_updater_jobs.
Qed.

Lemma reports_alpha : reports (Sample.env Sample.healthy) Sample.alpha.
Proof.
  intros key Hkey. unfold copied in Hkey.
  repeat (apply elem_of_cons in Hkey as [->|Hkey]; [reflexivity|]).
  now apply elem_of_nil in Hkey.
Defined.

Lemma job_dupe_check_copies_first_prior_witness :
  let E := Sample.env Sample.healthy in
  let active_rip : gmap string pyval :=
    {[ "title" := VStr "Alpha (2001)"; "year" := VStr "2001";
       "poster_url" := if String.eqb "" "" then VNone else VStr "";
       "hasnicetitle" := VBool true; "video_type" := VStr "movie" ]} in
  let results :=
    records E Sample.library
      (select_from (prior_match (VStr "f00d")) 0 (jobs Sample.library)) in
  let r := job_dupe_check E 1 Sample.library in
  r = (database_updater E (ArgDict active_rip) 1 wait_time_default ;;
       mret (true, Some results)) (emit EvQuery Sample.library)
  /\ r.1 = Ret (true, Some results)
  /\ jobs r.2 = alter (fun j => active_rip ∪ j) 1%nat (jobs Sample.library)
  /\ stored r.2 = jobs r.2.
Proof.
  cbv zeta.
  destruct (job_dupe_check_copies_first_prior (Sample.env Sample.healthy) 1
              Sample.library Sample.again (VStr "f00d") 0 Sample.alpha
              "Alpha (2001)" "2001" "" "movie") as (Hrun & _ & Hok);
    [..|split; [exact Hrun|apply Hok; intros i _; reflexivity]].
  - reflexivity.
  - reflexivity.
  - discriminate.
  - reflexivity.
  - reflexivity.
  - intros i q Hi. lia.
  - exact reports_alpha.
  - reflexivity.
  - discriminate.
  - reflexivity.
  - reflexivity.
  - reflexivity.
Defined.

(** C6 as stated fails: the prior rip "Alpha (2001)" has the empty string as
    its poster URL; the current job does not get that value but [None]. *)
Lemma job_dupe_check_poster_not_copied :
  let E := Sample.env Sample.healthy in
  let r := job_dupe_check E 1 Sample.library in
  (prior_match (VStr "f00d") Sample.alpha = true
   /\ getattr Sample.alpha "title" = VStr "Alpha (2001)"
   /\ getattr Sample.alpha "poster_url" = VStr "")
  /\ (exists records, r.1 = Ret (true, Some records))
  /\ getattr (default ∅ (jobs r.2 !! 1%nat)) "title" = VStr "Alpha (2001)"
  /\ getattr (default ∅ (jobs r.2 !! 1%nat)) "poster_url" = VNone
  /\ getattr (default ∅ (jobs r.2 !! 1%nat)) "poster_url"
     <> getattr Sample.alpha "poster_url".
Proof.
  cbv zeta. split; [repeat split|].
  split; [eexists; vm_compute; reflexivity|].
  split; [vm_compute; reflexivity|]. split; [vm_compute; reflexivity|].
  vm_compute. discriminate.
Qed.

(** ** [duplicate_run_check] *)

Lemma py_round_div_bounds n d :
  0 < d -> n / d <= py_round_div n d <= n / d + 1.
Proof.
  intros Hd. unfold py_round_div.
  destruct (2 * (n mod d) <? d); [lia|].
  destruct (d <? 2 * (n mod d)); [lia|].
  destruct (Z.even (n / d)); lia.
Qed.

(** Within one minute the rounded minutes are at most 1; from five minutes
    on they are at least 5. *)
Lemma minutes_recent us :
  0 <= us <= 60 * 1000000 -> (py_round_div us 1000000 / 60 <=? 1) = true.
Proof.
  intros H. apply Z.leb_le.
  pose proof (py_round_div_bounds us 1000000 ltac:(lia)) as [_ Hhi].
  assert (us / 1000000 <= 60) by (apply Z.div_le_upper_bound; lia).
  assert (py_round_div us 1000000 / 60 < 2); [|lia].
  apply Z.div_lt_upper_bound; lia.
Qed.

Lemma minutes_old us :
  300 * 1000000 <= us -> (py_round_div us 1000000 / 60 <=? 1) = false.
Proof.
  intros H. apply Z.leb_gt.
  pose proof (py_round_div_bounds us 1000000 ltac:(lia)) as [Hlo _].
  assert (300 <= us / 1000000) by (apply Z.div_le_lower_bound; lia).
  assert (5 <= py_round_div us 1000000 / 60); [|lia].
  apply Z.div_le_lower_bound; lia.
Qed.

Lemma duplicate_run_check_unfold dev_path :
  duplicate_run_check dev_path
  = (running_jobs ← query (running dev_path);
     if (1 <=? length running_jobs)%nat then for_each running_jobs run_check_one
     else mret tt).
Proof. reflexivity. Qed.

Lemma run_check_one_recent w i j t :
  jobs w !! i = Some j ->
  getattr j "start_time" = VDate t ->
  0 <= clock w - t <= 60 * 1000000 ->
  run_check_one i w = (Raise (SystemExit (VInt 1)), w).
Proof.
  intros Hi Ht Hd. unfold run_check_one.
  rewrite (bind_Ret _ _ w _ w (attr_lookup i "start_time" w j Hi)).
  unfold gets, mbind, M_bind. rewrite Ht.
  rewrite minutes_recent by lia. reflexivity.
Qed.

Lemma run_check_one_old w i j t :
  jobs w !! i = Some j ->
  getattr j "start_time" = VDate t ->
  300 * 1000000 <= clock w - t ->
  run_check_one i w = (Ret tt, w).
Proof.
  intros Hi Ht Hd. unfold run_check_one.
  rewrite (bind_Ret _ _ w _ w (attr_lookup i "start_time" w j Hi)).
  unfold gets, mbind, M_bind. rewrite Ht.
  rewrite minutes_old by lia. reflexivity.
Qed.

(** A job with a start time lets the loop go on, or ends the process. *)
Lemma run_check_one_cases w i j t :
  jobs w !! i = Some j ->
  getattr j "start_time" = VDate t ->
  run_check_one i w = (Ret tt, w)
  \/ run_check_one i w = (Raise (SystemExit (VInt 1)), w).
Proof.
  intros Hi Ht. unfold run_check_one.
  rewrite (bind_Ret _ _ w _ w (attr_lookup i "start_time" w j Hi)).
  unfold gets, mbind, M_bind. rewrite Ht.
  destruct (_ <=? 1); [now right|now left].
Qed.

Lemma for_each_all_pass {A} (body : A -> M unit) w l :
  (forall x, x ∈ l -> body x w = (Ret tt, w)) ->
  for_each l body w = (Ret tt, w).
Proof.
  induction l as [|x l IH]; intros H; [reflexivity|].
  cbn [for_each]. rewrite (bind_Ret _ _ w tt w) by (apply H; left).
  apply IH. intros y Hy. apply H. now right.
Qed.

Lemma for_each_one_raises {A} (body : A -> M unit) w e l :
  (forall x, x ∈ l -> body x w = (Ret tt, w) \/ body x w = (Raise e, w)) ->
  (exists x, x ∈ l /\ body x w = (Raise e, w)) ->
  for_each l body w = (Raise e, w).
Proof.
  induction l as [|x l IH]; intros Hall (y & Hy & Hraise).
  - now apply elem_of_nil in Hy.
  - cbn [for_each]. destruct (Hall x) as [Hx|Hx]; [left| |].
    + rewrite (bind_Ret _ _ w tt w Hx). apply IH.
      * intros z Hz. apply Hall. now right.
      * apply elem_of_cons in Hy as [->|Hy]; [congruence|eauto].
    + now rewrite (bind_Raise _ _ w e w Hx).
Qed.

(** C7: a non-terminal job on the device that started within the last minute
    ends the process with exit status 1; when every such job started five
    minutes ago or earlier, the call returns. *)
Theorem duplicate_run_check_window dev_path w :
  ((forall j, j ∈ jobs w -> running dev_path j = true ->
      exists t, getattr j "start_time" = VDate t) ->
   (exists j t, j ∈ jobs w /\ running dev_path j = true
                /\ getattr j "start_time" = VDate t
                /\ 0 <= clock w - t <= 60 * 1000000) ->
   exists code,
     (duplicate_run_check dev_path w).1 = Raise (SystemExit code)
     /\ exit_status code <> 0)
  /\ ((forall j, j ∈ jobs w -> running dev_path j = true ->
         exists t, getattr j "start_time" = VDate t /\ 300 * 1000000 <= clock w - t) ->
      (duplicate_run_check dev_path w).1 = Ret tt).
Proof.
  rewrite duplicate_run_check_unfold.
  rewrite (bind_Ret _ _ w _ _ (query_run (running dev_path) w)).
  set (w1 := emit EvQuery w).
  assert (Hsel : forall i, i ∈ select_from (running dev_path) 0 (jobs w) ->
                   exists j, jobs w1 !! i = Some j /\ j ∈ jobs w /\ running dev_path j = true).
  { intros i Hi. apply elem_of_select_from in Hi as (_ & j & Hj & Hr).
    rewrite Nat.sub_0_r in Hj. exists j. split; [exact Hj|]. split; [|exact Hr].
    now apply list_elem_of_lookup_2 in Hj. }
  split.
  - intros Hdates (j & t & Hj & Hr & Ht & Hrecent).
    exists (VInt 1). split; [|cbn; lia].
    apply list_elem_of_lookup_1 in Hj as [i Hi].
    assert (Hin : i ∈ select_from (running dev_path) 0 (jobs w)).
    { apply elem_of_select_from. split; [lia|]. exists j. now rewrite Nat.sub_0_r. }
    destruct (select_from (running dev_path) 0 (jobs w)) as [|i1 l] eqn:Hl.
    { now apply elem_of_nil in Hin. }
    change (1 <=? length (i1 :: l))%nat with true. cbv iota.
    rewrite (for_each_one_raises run_check_one w1 (SystemExit (VInt 1))); [reflexivity| |].
    + intros x Hx. destruct (Hsel x Hx) as (jx & Hjx & Hjin & Hjr).
      destruct (Hdates jx Hjin Hjr) as [tx Htx].
      now apply (run_check_one_cases w1 x jx tx).
    + exists i. split; [exact Hin|].
      now apply (run_check_one_recent w1 i j t).
  - intros Hold.
    destruct (select_from (running dev_path) 0 (jobs w)) as [|i1 l] eqn:Hl; [reflexivity|].
    change (1 <=? length (i1 :: l))%nat with true. cbv iota.
    rewrite for_each_all_pass; [reflexivity|].
    intros x Hx. destruct (Hsel x Hx) as (jx & Hjx & Hjin & Hjr).
    destruct (Hold jx Hjin Hjr) as (tx & Htx & Hage).
    now apply (run_check_one_old w1 x jx tx).
Qed.

Lemma duplicate_run_check_window_witness :
  (exists code,
     (duplicate_run_check (VStr "/dev/sr0") Sample.half_a_minute_later).1 = Raise (SystemExit code)
     /\ exit_status code <> 0)
  /\ (duplicate_run_check (VStr "/dev/sr0") Sample.five_minutes_later).1 = Ret tt.
Proof.
  split.
  - apply (duplicate_run_check_window (VStr "/dev/sr0") Sample.half_a_minute_later).
    + intros j Hj _. apply list_elem_of_singleton in Hj. subst j.
      exists 1000000000. reflexivity.
    + exists Sample.ripping, 1000000000.
      split; [apply list_elem_of_singleton; reflexivity|].
      split; [reflexivity|]. split; [reflexivity|]. cbn. lia.
  - apply (duplicate_run_check_window (VStr "/dev/sr0") Sample.five_minutes_later).
    intros j Hj _. apply list_elem_of_singleton in Hj. subst j.
    exists 1000000000. split; [reflexivity|]. cbn. lia.
Defined.

(** ** [check_for_wait] *)

Lemma sleep_run secs w : sleep secs w = (Ret tt, slept secs w).
Proof. reflexivity. Qed.

Lemma refresh_job_run E i w row :
  ui_writes E (polls w) (stored w) !! i = Some row ->
  refresh E (JobRef i) w
  = (Ret tt, emit (EvRefresh (JobRef i))
               (set_jobs (<[i := row]> (jobs w))
                  (set_polls (S (polls w))
                     (set_stored (ui_writes E (polls w) (stored w)) w)))).
Proof. intros H. unfold refresh, modify. now rewrite H. Qed.

Lemma refresh_config_run E w :
  refresh E ConfigRef w = (Ret tt, emit (EvRefresh ConfigRef) w).
Proof. reflexivity. Qed.

(** One round of the wait loop in which the refreshed row carries a manual
    title: the two flags are set and the loop is left. *)
Lemma wait_loop_override E fuel job sleep_time w row :
  sleep_time < MANUAL_WAIT_TIME (cfg E) ->
  (job < length (jobs w))%nat ->
  ui_writes E (polls w) (stored w) !! job = Some row ->
  truthy (getattr row "title_manual") = true ->
  exists w',
    wait_loop E (S fuel) job sleep_time w = (Ret tt, w')
    /\ jobs w' !! job
       = Some (<["hasnicetitle" := VBool true]> (<["updated" := VBool true]> row))
    /\ length (jobs w') = length (jobs w)
    /\ clock w' = clock w + 5 * 1000000
    /\ attempts w' = attempts w
    /\ trace w' = EvRefresh ConfigRef :: EvRefresh (JobRef job) :: EvSleep 5 :: trace w.
Proof.
  intros Hlt Hjob Hrow Htitle.
  cbn [wait_loop]. apply Z.ltb_lt in Hlt. rewrite Hlt.
  rewrite (bind_Ret _ _ w tt _ (sleep_run 5 w)).
  rewrite (bind_Ret _ _ _ tt _ (refresh_job_run E job (slept 5 w) row Hrow)).
  rewrite (bind_Ret _ _ _ tt _ (refresh_config_run E _)).
  set (w2 := emit (EvRefresh ConfigRef) _).
  assert (Hj2 : jobs w2 !! job = Some row).
  { unfold w2. cbn [jobs emit set_jobs]. now apply list_lookup_insert_eq. }
  rewrite (bind_Ret _ _ w2 _ w2 (attr_lookup job "title_manual" w2 row Hj2)).
  rewrite Htitle.
  rewrite (bind_Ret _ _ w2 tt _ (setattr_run job "updated" (VBool true) w2)).
  rewrite setattr_run.
  eexists. split; [reflexivity|].
  cbn [jobs clock attempts trace set_jobs].
  split.
  { rewrite !list_lookup_alter_eq, Hj2. reflexivity. }
  split.
  { rewrite !length_alter. unfold w2. cbn [jobs emit set_jobs]. apply length_insert. }
  unfold w2. cbn. repeat split.
Qed.

(** C9, as amended: with manual waiting enabled, a positive ceiling and
    commits that go through, a job whose row carries a manual title at the
    first poll gets both flags set after exactly one sleep of 5 seconds, its
    status becomes "active" and is committed; the sleep is shorter than the
    ceiling whenever the ceiling exceeds 5 seconds. *)
Theorem check_for_wait_override_at_first_poll E job w j row :
  MANUAL_WAIT (cfg E) = true ->
  0 < MANUAL_WAIT_TIME (cfg E) ->
  jobs w !! job = Some j ->
  store_outcome E (attempts w) = Committed ->
  store_outcome E (S (attempts w)) = Committed ->
  ui_writes E (polls w) (alter (insert "status" (VStr "waiting")) job (jobs w)) !! job
    = Some row ->
  truthy (getattr row "title_manual") = true ->
  let r := check_for_wait E job w in
  r.1 = Ret tt
  /\ jobs r.2 !! job
     = Some (<["status" := VStr "active"]>
               (<["hasnicetitle" := VBool true]> (<["updated" := VBool true]> row)))
  /\ stored r.2 = jobs r.2
  /\ trace r.2 = EvCommit true :: EvRefresh ConfigRef :: EvRefresh (JobRef job)
                 :: EvSleep 5 :: EvCommit true :: trace w
  /\ clock r.2 = clock w + 5 * 1000000
  /\ (5 < MANUAL_WAIT_TIME (cfg E) ->
      clock r.2 - clock w < MANUAL_WAIT_TIME (cfg E) * 1000000).
Proof.
  intros Hon Hpos Hj Hc1 Hc2 Hrow Htitle. cbv zeta.
  unfold check_for_wait. rewrite Hon.
  rewrite (bind_Ret _ _ w tt _ (setattr_run job "status" (VStr "waiting") w)).
  set (w1 := set_jobs _ w).
  rewrite (bind_Ret _ _ w1 tt _ (commit_Committed E w1 Hc1)).
  destruct (Z.to_nat (MANUAL_WAIT_TIME (cfg E))) as [|fuel] eqn:Hfuel; [lia|].
  destruct (wait_loop_override E fuel job 0 (committed w1) row)
    as (w3 & Hloop & Hj3 & Hlen & Hclock & Hatt & Htrace).
  { exact Hpos. }
  { unfold w1. cbn [jobs committed emit set_stored set_attempts set_jobs].
    rewrite length_alter. now apply lookup_lt_Some in Hj. }
  { exact Hrow. }
  { exact Htitle. }
  rewrite (bind_Ret _ _ _ tt w3 Hloop).
  rewrite (bind_Ret _ _ w3 tt _ (setattr_run job "status" (VStr "active") w3)).
  set (w4 := set_jobs _ w3).
  assert (Hc4 : store_outcome E (attempts w4) = Committed).
  { unfold w4. cbn [attempts set_jobs]. rewrite Hatt. exact Hc2. }
  rewrite (commit_Committed E w4 Hc4).
  cbn [fst snd jobs stored trace clock committed emit set_stored set_attempts].
  unfold w4. cbn [jobs stored trace clock set_jobs].
  rewrite list_lookup_alter_eq, Hj3, Htrace, Hclock.
  repeat split. intros H5.
  change (clock (committed w1)) with (clock w). lia.
Qed.

Lemma check_for_wait_override_at_first_poll_witness :
  let E := Sample.env_with_ceiling 60 in
  let row : Job := <["status" := VStr "waiting"]> Sample.overridden in
  let r := check_for_wait E 0 Sample.desk in
  r.1 = Ret tt
  /\ jobs r.2 !! 0%nat
     = Some (<["status" := VStr "active"]>
               (<["hasnicetitle" := VBool true]> (<["updated" := VBool true]> row)))
  /\ stored r.2 = jobs r.2
  /\ trace r.2 = EvCommit true :: EvRefresh ConfigRef :: EvRefresh (JobRef 0)
                 :: EvSleep 5 :: EvCommit true :: trace Sample.desk
  /\ clock r.2 = clock Sample.desk + 5 * 1000000
  /\ (5 < MANUAL_WAIT_TIME (cfg E) ->
      clock r.2 - clock Sample.desk < MANUAL_WAIT_TIME (cfg E) * 1000000).
Proof.
  apply (check_for_wait_override_at_first_poll (Sample.env_with_ceiling 60) 0
           Sample.desk Sample.overridden
           (<["status" := VStr "waiting"]> Sample.overridden)).
  - reflexivity.
  - reflexivity.
  - reflexivity.
  - reflexivity.
  - reflexivity.
  - reflexivity.
  - reflexivity.
Defined.

(** C9 as stated fails: with a ceiling of 5 seconds and the manual title set
    from the start, the wait still sleeps 5 seconds, the whole ceiling. *)
Lemma check_for_wait_sleeps_whole_ceiling :
  let E := Sample.env_with_ceiling 5 in
  let r := check_for_wait E 0 Sample.desk in
  (MANUAL_WAIT (cfg E) = true
   /\ MANUAL_WAIT_TIME (cfg E) = 5
   /\ truthy (getattr Sample.overridden "title_manual") = true)
  /\ r.1 = Ret tt
  /\ trace r.2 = [EvCommit true; EvRefresh ConfigRef; EvRefresh (JobRef 0);
                  EvSleep 5; EvCommit true]
  /\ clock r.2 - clock Sample.desk = MANUAL_WAIT_TIME (cfg E) * 1000000
  /\ ~ (clock r.2 - clock Sample.desk < MANUAL_WAIT_TIME (cfg E) * 1000000).
Proof.
  cbv zeta. split; [repeat split|].
  split; [vm_compute; reflexivity|]. split; [vm_compute; reflexivity|].
  split; [vm_compute; reflexivity|]. vm_compute. intros H. discriminate H.
Qed.

(** The fuel given to the wait loop is never used up: one more round of fuel
    changes nothing. *)
Lemma wait_loop_fuel E job fuel : forall sleep_time w,
  MANUAL_WAIT_TIME (cfg E) - sleep_time <= Z.of_nat fuel ->
  wait_loop E fuel job sleep_time w = wait_loop E (S fuel) job sleep_time w.
Proof.
  induction fuel as [|fuel IH]; intros s w Hfuel.
  - cbn [wait_loop]. destruct (s <? MANUAL_WAIT_TIME (cfg E)) eqn:Hlt; [|reflexivity].
    apply Z.ltb_lt in Hlt. lia.
  - change (wait_loop E (S (S fuel)) job s w)
      with ((if s <? MANUAL_WAIT_TIME (cfg E) then
               sleep 5 ;; refresh E (JobRef job) ;; refresh E ConfigRef ;;
               title_manual ← attr job "title_manual";
               if truthy title_manual then
                 setattr job "updated" (VBool true) ;;
                 setattr job "hasnicetitle" (VBool true)
               else wait_loop E (S fuel) job (s + 5)
             else mret tt) w).
    cbn [wait_loop]. destruct (s <? MANUAL_WAIT_TIME (cfg E)); [|reflexivity].
    unfold mbind, M_bind.
    destruct (sleep 5 w) as [[[]|e] w1]; [|reflexivity].
    destruct (refresh E (JobRef job) w1) as [[[]|e] w2]; [|reflexivity].
    destruct (refresh E ConfigRef w2) as [[[]|e] w3]; [|reflexivity].
    destruct (attr job "title_manual" w3) as [[v|e] w4]; [|reflexivity].
    destruct (truthy v); [reflexivity|]. apply IH. lia.
Qed.

(** ** Properties kept along a computation *)

Section Preserves.
Context (P : World -> Prop).

Lemma preserves_ret {A} (a : A) : preserves P (mret a).
Proof. intros w H. exact H. Qed.

Lemma preserves_raise {A} e : preserves P (@raise A e).
Proof. intros w H. exact H. Qed.

Lemma preserves_gets {A} (f : World -> A) : preserves P (gets f).
Proof. intros w H. exact H. Qed.

Lemma preserves_modify f : (forall w, P w -> P (f w)) -> preserves P (modify f).
Proof. intros Hf w H. now apply Hf. Qed.

Lemma preserves_bind {A B} (m : M A) (f : A -> M B) :
  preserves P m -> (forall a, preserves P (f a)) -> preserves P (m ≫= f).
Proof.
  intros Hm Hf w H. unfold mbind, M_bind.
  specialize (Hm w H). destruct (m w) as [[a|e] w1]; [now apply Hf|exact Hm].
Qed.

Lemma preserves_try_except {A} (m : M A) c h :
  preserves P m -> (forall e, preserves P (h e)) -> preserves P (try_except m c h).
Proof.
  intros Hm Hh w H. unfold try_except.
  specialize (Hm w H). destruct (m w) as [[a|e] w1]; [exact Hm|].
  destruct (c e); [now apply Hh|exact Hm].
Qed.

Lemma preserves_if {A} (b : bool) (m1 m2 : M A) :
  preserves P m1 -> preserves P m2 -> preserves P (if b then m1 else m2).
Proof. now destruct b. Qed.

End Preserves.

(** ** [rip_data]: what the session keeps *)

(** The file system, the shell and the clock never touch the session: a
    property of the jobs alone is kept by all of them. *)
Section JobsKept.
Context (E : Env) (P : World -> Prop).
Context (HP : forall w w', jobs w' = jobs w -> P w -> P w').

Lemma kept_attr k key : preserves P (attr k key).
Proof. apply preserves_gets. Qed.

Lemma kept_path_exists path : preserves P (path_exists path).
Proof. apply preserves_gets. Qed.

Lemma kept_time_x100 : preserves P time_x100.
Proof. apply preserves_gets. Qed.

Lemma kept_makedirs path : preserves P (makedirs E path).
Proof.
  intros w H. unfold makedirs.
  destruct (denied E path || bool_decide (is_Some (fs w !! path)))%bool;
    now apply (HP w).
Qed.





Lemma kept_make_dir path : preserves P (make_dir E path).
Proof.
  unfold make_dir. apply preserves_bind; [apply kept_path_exists|].
  intros there. apply preserves_if; [|apply preserves_ret].
  apply preserves_try_except.
  - apply preserves_bind; [apply kept_makedirs|intros; apply preserves_ret].
  - intros e. apply preserves_raise.
Qed.

Lemma kept_rip_data_paths job : preserves P (rip_data_paths E job).
Proof.
  unfold rip_data_paths.
  apply preserves_bind; [apply kept_attr|intros label].
  apply preserves_bind; [apply kept_attr|intros video_type].
  apply preserves_bind; [apply kept_make_dir|intros made].
  apply preserves_bind.
  - apply preserves_if; [|apply preserves_ret].
    apply preserves_bind; [apply kept_time_x100|intros t].
    apply preserves_bind; [apply kept_make_dir|intros made2].
    apply preserves_if; [apply preserves_raise|apply preserves_ret].
  - intros [raw_path final_file_name].
    apply preserves_bind; [apply kept_make_dir|intros; apply preserves_ret].
Qed.

End JobsKept.

(** The directories are set up without a change to the session. *)
Lemma rip_data_paths_jobs E job w : jobs (rip_data_paths E job w).2 = jobs w.
Proof.
  apply (kept_rip_data_paths E (fun w' => jobs w' = jobs w)); [|reflexivity].
  intros w1 w2 H12 H1. congruence.
Qed.

Section Label.
Context (E : Env) (job : nat) (l : pyval).





End Label.

(** ** [rip_data]: the paths *)

Lemma attr_run k key w :
  attr k key w = (Ret (getattr (default ∅ (jobs w !! k)) key), w).
Proof. reflexivity. Qed.

(** Where [rip_data] works: the staging directory is named after the label,
    or after the label and the time when that name is taken; the destination
    follows it, and the partial file sits in the staging directory under the
    label. *)
Lemma rip_data_paths_shape E job w raw final part w1 :
  rip_data_paths E job w = (Ret (raw, final, part), w1) ->
  let label := py_str E (label_of job w) in
  let dest := path_join (COMPLETED_PATH (cfg E))
                (convert_job_type (getattr (default ∅ (jobs w !! job)) "video_type")) in
  ((raw = path_join (RAW_PATH (cfg E)) label /\ final = path_join dest label)
   \/ (exists t, raw = path_join (RAW_PATH (cfg E)) (label ++ "_" ++ t)
                 /\ final = path_join dest (label ++ "_" ++ t)))
  /\ part = path_join raw (label ++ ".part").
Proof.
  intros H. cbv zeta. unfold rip_data_paths in H.
  rewrite (bind_Ret _ _ w _ w (attr_run job "label" w)) in H.
  rewrite (bind_Ret _ _ w _ w (attr_run job "video_type" w)) in H.
  fold (label_of job w) in H.
  unfold mbind at 1, M_bind at 1 in H.
  destruct (make_dir E _ w) as [[made|e] wa]; [|discriminate].
  destruct made; cbn [negb] in H.
  - unfold mbind at 1, M_bind at 1, mret at 1, M_ret at 1 in H.
    unfold mbind, M_bind in H.
    destruct (make_dir E _ wa) as [[m|e] wb]; [|discriminate].
    injection H as <- <- <- _. split; [left; split|]; reflexivity.
  - unfold mbind at 1, M_bind at 1 in H.
    unfold mbind at 1, M_bind at 1, time_x100 at 1, gets at 1 in H.
    unfold mbind at 1, M_bind at 1 in H.
    destruct (make_dir E _ wa) as [[made2|e] wb]; [|discriminate].
    destruct made2; cbn [negb] in H.
    + unfold mret at 1, M_ret at 1 in H. unfold mbind, M_bind in H.
      destruct (make_dir E _ wb) as [[m|e] wc]; [|discriminate].
      injection H as <- <- <- _. split; [right; eexists; split|]; reflexivity.
    + discriminate.
Qed.






(** ** [rip_data]: the run after the paths *)

Lemma rip_data_run E job w :
  rip_data E job w
  = ('(raw_path, final_path, incomplete_filename) ← rip_data_paths E job;
     rip_data_copy E job raw_path final_path incomplete_filename) (default_label job w).
Proof.
  unfold rip_data, default_label.
  rewrite (bind_Ret _ _ w _ w (attr_run job "label" w)). fold (label_of job w).
  destruct (bool_decide (label_of job w = VStr "") || bool_decide (label_of job w = VNone))%bool.
  - now rewrite (bind_Ret _ _ w tt _ (setattr_run job "label" (VStr "data-disc") w)).
  - reflexivity.
Qed.

Lemma default_label_lookup job w j :
  jobs w !! job = Some j -> exists j', jobs (default_label job w) !! job = Some j'.
Proof.
  intros Hj. unfold default_label. destruct (_ || _)%bool; [|eauto].
  unfold relabelled. cbn [jobs set_jobs]. rewrite list_lookup_alter_eq, Hj. cbn. eauto.
Qed.

(** The clean-up [try: shutil.rmtree(raw_path) except OSError] never raises,
    and it brings no path into being. *)
Lemma rmtree_best_effort E path w :
  exists w',
    try_except (rmtree E path) is_OSError (fun _ => mret tt) w = (Ret tt, w')
    /\ trace w' = EvRmtree path :: trace w
    /\ jobs w' = jobs w
    /\ stored w' = stored w
    /\ (forall p, fs w !! p = None -> fs w' !! p = None).
Proof.
  unfold try_except, rmtree.
  destruct (fs w !! path) as [[]|] eqn:Hp; [|destruct (denied E path)|];
    cbn [is_OSError]; eexists; (split; [reflexivity|]); cbn; repeat split; auto.
  intros p Hnone. apply map_lookup_filter_None. now left.
Qed.

Lemma rip_error_nonempty code output : rip_error code output <> "".
Proof. discriminate. Qed.

(** The default label leaves the command line of the copy as it is. *)
Lemma default_label_dd_command E job w j part :
  jobs w !! job = Some j ->
  dd_command E (default ∅ (jobs (default_label job w) !! job)) part = dd_command E j part.
Proof.
  intros Hj. unfold default_label. destruct (_ || _)%bool; [|now rewrite Hj].
  unfold relabelled. cbn [jobs set_jobs]. rewrite list_lookup_alter_eq, Hj. cbn.
  unfold dd_command, getattr. now rewrite !lookup_insert_ne by discriminate.
Qed.

(** * Further properties *)

(** ** [database_updater]: a store that takes the write *)



(** ** [database_updater]: how it can end *)

(** Given a dictionary, [database_updater] ends in one of two ways: it
    returns [True] after exactly [wait_time] commit attempts, or it raises a
    [RuntimeError] with the text of the first failed commit whose text lacks
    "locked", right after that attempt.  It never returns [False]. *)
Theorem database_updater_outcomes E d job n w :
  let r := database_updater E (ArgDict d) job n w in
  r.1 = Ret true /\ attempts r.2 = (attempts w + n)%nat
  \/ exists k msg,
       (k < n)%nat
       /\ store_outcome E (attempts w + k) = Failed msg
       /\ contains "locked" msg = false
       /\ r.1 = Raise (RuntimeError msg)
       /\ attempts r.2 = (attempts w + k + 1)%nat.
Proof.
  cbv zeta. rewrite database_updater_unfold.
  destruct (commit_loop_outcomes E n (with_args d job w))
    as [[Hr Ha]|(k & msg & Hk & Hf & Hm & Hr & Ha)];
    unfold mbind, M_bind;
    destruct (commit_loop E n (with_args d job w)) as [[[]|e] w'];
    cbn [fst snd] in *; try discriminate.
  - left. split; [reflexivity|exact Ha].
  - right. exists k, msg.
    change (attempts (with_args d job w)) with (attempts w) in *.
    injection Hr as ->. repeat split; assumption.
Qed.

(** ** [database_updater]: an update that was never written, then a rollback *)

Lemma database_updater_rollback E v job n w :
  database_updater E (ArgOther v) job n w
  = (Ret false, emit EvRollback (set_jobs (stored w) w)).
Proof. reflexivity. Qed.

(** When the store stays locked for the whole budget, the call reports
    [True]; a following call with something that is not a dictionary rolls
    back, and the session is again what the store held before: the update is
    lost. *)
Theorem database_updater_lost_update E d v job n m w :
  (forall i, (i < n)%nat -> lock_error (store_outcome E (attempts w + i)) = true) ->
  let r1 := database_updater E (ArgDict d) job n w in
  let r2 := database_updater E (ArgOther v) job m r1.2 in
  r1.1 = Ret true
  /\ r2.1 = Ret false
  /\ jobs r2.2 = stored w
  /\ stored r2.2 = stored w.
Proof.
  intros Hlock. cbv zeta.
  rewrite database_updater_rollback, database_updater_unfold.
  rewrite (bind_Ret _ _ _ tt _ (commit_loop_all_locked E n (with_args d job w) Hlock)).
  cbn [fst snd jobs stored emit set_jobs mret M_ret].
  now rewrite iter_locked_stored.
Qed.

Lemma database_updater_lost_update_witness :
  let E := Sample.env Sample.always_locked in
  let r1 := database_updater E (ArgDict Sample.fail_args) 0 wait_time_default Sample.world in
  let r2 := database_updater E (ArgOther VNone) 0 wait_time_default r1.2 in
  r1.1 = Ret true
  /\ r2.1 = Ret false
  /\ jobs r2.2 = stored Sample.world
  /\ stored r2.2 = stored Sample.world.
Proof.
  apply (database_updater_lost_update (Sample.env Sample.always_locked)
           Sample.fail_args VNone 0 wait_time_default wait_time_default Sample.world).
  intros i _. reflexivity.
Defined.

(** ** [database_adder] *)

Section Adder.
Context (E : Env) (slot : nat) (obj : Job).

Lemma session_add_again w :
  (slot < length (jobs w))%nat -> session_add slot obj w = (Ret tt, w).
Proof.
  intros H. unfold session_add, modify.
  now rewrite (proj2 (Nat.ltb_lt _ _) H).
Qed.

Lemma add_loop_Committed n w :
  (slot < length (jobs w))%nat ->
  store_outcome E (attempts w) = Committed ->
  add_loop E (S n) slot obj w = (Ret tt, committed w).
Proof.
  intros Hin Ho. cbn [add_loop].
  rewrite (bind_Ret _ _ w true (committed w)); [reflexivity|].
  apply try_except_Ret.
  rewrite (bind_Ret _ _ w tt w (session_add_again w Hin)).
  now rewrite (bind_Ret _ _ w tt _ (commit_Committed E w Ho)).
Qed.

Lemma add_loop_locked n w :
  (slot < length (jobs w))%nat ->
  lock_error (store_outcome E (attempts w)) = true ->
  add_loop E (S n) slot obj w = add_loop E n slot obj (slept 1 (refused w)).
Proof.
  intros Hin H. destruct (store_outcome E (attempts w)) as [|msg] eqn:Ho; [discriminate|].
  cbn [lock_error] in H. cbn [add_loop].
  rewrite (bind_Ret _ _ w false (slept 1 (refused w))); [reflexivity|].
  assert (Hraise : (session_add slot obj ;; commit E ;; mret true) w
                   = (Raise (StoreError msg), refused w)).
  { rewrite (bind_Ret _ _ w tt w (session_add_again w Hin)).
    now rewrite (bind_Raise _ _ w _ _ (commit_Failed E w msg Ho)). }
  rewrite (try_except_caught _ _ _ w _ _ Hraise eq_refl).
  cbn [exn_str]. rewrite H. reflexivity.
Qed.

Lemma add_loop_fatal n w msg :
  (slot < length (jobs w))%nat ->
  store_outcome E (attempts w) = Failed msg ->
  contains "locked" msg = false ->
  add_loop E (S n) slot obj w = (Raise (RuntimeError msg), refused w).
Proof.
  intros Hin Ho H. cbn [add_loop].
  rewrite (bind_Raise _ _ w (RuntimeError msg) (refused w)); [reflexivity|].
  assert (Hraise : (session_add slot obj ;; commit E ;; mret true) w
                   = (Raise (StoreError msg), refused w)).
  { rewrite (bind_Ret _ _ w tt w (session_add_again w Hin)).
    now rewrite (bind_Raise _ _ w _ _ (commit_Failed E w msg Ho)). }
  rewrite (try_except_caught _ _ _ w _ _ Hraise eq_refl).
  cbn [exn_str]. rewrite H. reflexivity.
Qed.

Lemma iter_locked_length n w :
  length (jobs (Nat.iter n (fun w => slept 1 (refused w)) w)) = length (jobs w).
Proof. now rewrite iter_locked_jobs. Qed.

(** [N] locked rounds, then a commit that goes through: the loop is left. *)
Lemma add_loop_retry N : forall n w,
  (slot < length (jobs w))%nat ->
  (N < n)%nat ->
  (forall i, (i < N)%nat -> lock_error (store_outcome E (attempts w + i)) = true) ->
  store_outcome E (attempts w + N) = Committed ->
  add_loop E n slot obj w
  = (Ret tt, committed (Nat.iter N (fun w => slept 1 (refused w)) w)).
Proof.
  induction N as [|N IH]; intros n w Hin Hn Hlock Hok.
  - destruct n as [|n]; [lia|]. rewrite Nat.add_0_r in Hok.
    now apply add_loop_Committed.
  - destruct n as [|n]; [lia|].
    rewrite add_loop_locked;
      [|exact Hin|rewrite <- (Nat.add_0_r (attempts w)); apply Hlock; lia].
    rewrite (IH n (slept 1 (refused w))).
    + now rewrite Nat.iter_succ_r.
    + exact Hin.
    + lia.
    + intros i Hi. cbn [attempts slept refused emit set_clock set_attempts].
      rewrite Nat.add_succ_l, <- Nat.add_succ_r. apply Hlock. lia.
    + cbn [attempts slept refused emit set_clock set_attempts].
      now rewrite Nat.add_succ_l, <- Nat.add_succ_r.
Qed.

(** Rounds that all meet a locked store. *)
Lemma add_loop_all_locked n : forall w,
  (slot < length (jobs w))%nat ->
  (forall i, (i < n)%nat -> lock_error (store_outcome E (attempts w + i)) = true) ->
  add_loop E n slot obj w = (Ret tt, Nat.iter n (fun w => slept 1 (refused w)) w).
Proof.
  induction n as [|n IH]; intros w Hin Hlock; [reflexivity|].
  rewrite add_loop_locked;
    [|exact Hin|rewrite <- (Nat.add_0_r (attempts w)); apply Hlock; lia].
  rewrite IH.
  - now rewrite Nat.iter_succ_r.
  - exact Hin.
  - intros i Hi. cbn [attempts slept refused emit set_clock set_attempts].
    rewrite Nat.add_succ_l, <- Nat.add_succ_r. apply Hlock. lia.
Qed.

End Adder.

Lemma bind_same_run {A B} (m : M A) (f : A -> M B) w w' :
  m w = m w' -> (m ≫= f) w = (m ≫= f) w'.
Proof. intros H. unfold mbind, M_bind. now rewrite H. Qed.

Lemma try_except_same_run {A} (m : M A) c h w w' :
  m w = m w' -> try_except m c h w = try_except m c h w'.
Proof. intros H. unfold try_except. now rewrite H. Qed.

(** The first round adds the object; from then on it is in the session. *)
Lemma add_loop_first E n obj w :
  add_loop E (S n) (length (jobs w)) obj w
  = add_loop E (S n) (length (jobs w)) obj (added obj w).
Proof.
  assert (Hin : (length (jobs w) < length (jobs (added obj w)))%nat).
  { unfold added. cbn [jobs set_jobs]. rewrite length_app. cbn. lia. }
  assert (Hadd : session_add (length (jobs w)) obj w = (Ret tt, added obj w)).
  { unfold session_add, modify. now rewrite Nat.ltb_irrefl. }
  cbn [add_loop]. apply bind_same_run, try_except_same_run.
  rewrite (bind_Ret _ _ w tt _ Hadd).
  now rewrite (bind_Ret _ _ _ tt _ (session_add_again _ obj (added obj w) Hin)).
Qed.

Lemma database_adder_unfold E obj w :
  database_adder E obj w
  = (add_loop E 90 (length (jobs w)) obj ;; mret true) (added obj w).
Proof.
  unfold database_adder.
  rewrite (bind_Ret _ _ w (length (jobs w)) w) by reflexivity.
  apply bind_same_run, add_loop_first.
Qed.

Lemma added_length obj w : (length (jobs w) < length (jobs (added obj w)))%nat.
Proof. unfold added. cbn [jobs set_jobs]. rewrite length_app. cbn. lia. Qed.

(** After [N] locked attempts, the first commit that goes through ends
    [database_adder]: it returns [True] after [N + 1] commit attempts and [N]
    sleeps, with the new object in the session and in the store.  The store
    is not asked again, whatever it would have answered. *)
Theorem database_adder_stops_at_first_success E obj w N :
  (N < 90)%nat ->
  (forall i, (i < N)%nat -> lock_error (store_outcome E (attempts w + i)) = true) ->
  store_outcome E (attempts w + N) = Committed ->
  let r := database_adder E obj w in
  r.1 = Ret true
  /\ jobs r.2 = (jobs w ++ [obj])%list
  /\ stored r.2 = (jobs w ++ [obj])%list
  /\ attempts r.2 = (attempts w + N + 1)%nat
  /\ trace r.2 = (EvCommit true :: mjoin (replicate N [EvSleep 1; EvCommit false])
                  ++ trace w)%list.
Proof.
  intros HN Hlock Hok. cbv zeta. rewrite database_adder_unfold.
  rewrite (bind_Ret _ _ _ tt _
             (add_loop_retry E (length (jobs w)) obj N 90 (added obj w)
                (added_length obj w) HN Hlock Hok)).
  cbn [fst snd mret M_ret jobs stored attempts trace committed emit set_stored set_attempts].
  rewrite iter_locked_jobs, iter_locked_attempts, iter_locked_trace.
  repeat split. cbn. lia.
Qed.

Lemma database_adder_stops_at_first_success_witness :
  let r := database_adder (Sample.env Sample2.locked_twice) Sample2.track Sample.world in
  r.1 = Ret true
  /\ jobs r.2 = (jobs Sample.world ++ [Sample2.track])%list
  /\ stored r.2 = (jobs Sample.world ++ [Sample2.track])%list
  /\ attempts r.2 = (attempts Sample.world + 2 + 1)%nat
  /\ trace r.2 = (EvCommit true :: mjoin (replicate 2 [EvSleep 1; EvCommit false])
                  ++ trace Sample.world)%list.
Proof.
  apply (database_adder_stops_at_first_success (Sample.env Sample2.locked_twice)
           Sample2.track Sample.world 2).
  - lia.
  - intros [|[|i]] Hi; [reflexivity|reflexivity|lia].
  - reflexivity.
Defined.

(** When the store stays locked for all 90 attempts, [database_adder] still
    returns [True], after 90 sleeps of one second: the store holds what it
    held before. *)
Theorem database_adder_exhausted E obj w :
  (forall i, (i < 90)%nat -> lock_error (store_outcome E (attempts w + i)) = true) ->
  let r := database_adder E obj w in
  r.1 = Ret true
  /\ stored r.2 = stored w
  /\ attempts r.2 = (attempts w + 90)%nat
  /\ clock r.2 = clock w + 90 * 1000000.
Proof.
  intros Hlock. cbv zeta. rewrite database_adder_unfold.
  rewrite (bind_Ret _ _ _ tt _
             (add_loop_all_locked E (length (jobs w)) obj 90 (added obj w)
                (added_length obj w) Hlock)).
  cbn [fst snd mret M_ret].
  rewrite iter_locked_stored, iter_locked_attempts, iter_locked_clock.
  repeat split.
Qed.

Lemma database_adder_exhausted_witness :
  let r := database_adder (Sample.env Sample.always_locked) Sample2.track Sample.world in
  r.1 = Ret true
  /\ stored r.2 = stored Sample.world
  /\ attempts r.2 = (attempts Sample.world + 90)%nat
  /\ clock r.2 = clock Sample.world + 90 * 1000000.
Proof.
  apply (database_adder_exhausted (Sample.env Sample.always_locked)
           Sample2.track Sample.world).
  intros i _. reflexivity.
Defined.

(** A first commit that fails with another error ends [database_adder] with
    a [RuntimeError] carrying its text, after that one attempt and without a
    sleep; the object does not reach the store. *)
Theorem database_adder_fatal_error E obj w msg :
  store_outcome E (attempts w) = Failed msg ->
  contains "locked" msg = false ->
  let r := database_adder E obj w in
  r.1 = Raise (RuntimeError msg)
  /\ stored r.2 = stored w
  /\ attempts r.2 = S (attempts w)
  /\ clock r.2 = clock w
  /\ trace r.2 = EvCommit false :: trace w.
Proof.
  intros Ho Hmsg. cbv zeta. rewrite database_adder_unfold.
  rewrite (bind_Raise _ _ _ (RuntimeError msg) (refused (added obj w))).
  - repeat split.
  - apply add_loop_fatal; [apply added_length|exact Ho|exact Hmsg].
Qed.

Lemma database_adder_fatal_error_witness :
  let r := database_adder (Sample.env Sample.broken) Sample2.track Sample.world in
  r.1 = Raise (RuntimeError "disk I/O error")
  /\ stored r.2 = stored Sample.world
  /\ attempts r.2 = S (attempts Sample.world)
  /\ clock r.2 = clock Sample.world
  /\ trace r.2 = EvCommit false :: trace Sample.world.
Proof.
  apply (database_adder_fatal_error (Sample.env Sample.broken) Sample2.track
           Sample.world "disk I/O error"); reflexivity.
Defined.

(** ** [clean_old_jobs]: every row *)

Lemma clean_old_jobs_run E w :
  (forall n, (attempts w <= n)%nat -> store_outcome E n = Committed) ->
  (forall j, j ∈ jobs w -> non_terminal j = true -> exists p, getattr j "pid" = VInt p) ->
  exists w',
    clean_old_jobs E w = (Ret VNone, w')
    /\ jobs w' = sweep_row E <$> jobs w
    /\ (attempts w <= attempts w')%nat.
Proof.
  intros Hcommit Hpid. rewrite clean_old_jobs_unfold.
  rewrite (bind_Ret _ _ w _ _ (query_run non_terminal w)).
  destruct (sweep_loop E (jobs w) [] (emit EvQuery w))
    as (w' & Hrun & Hjobs & Ha & _); [reflexivity|exact Hcommit|exact Hpid|].
  change (length (@nil Job)) with 0%nat in Hrun.
  rewrite (bind_Ret _ _ _ _ _ Hrun). exists w'. repeat split; assumption.
Qed.

Lemma sweep_row_terminal E j : non_terminal j = false -> sweep_row E j = j.
Proof. intros H. unfold sweep_row, swept. now rewrite H. Qed.

Lemma sweep_row_running E j p h :
  getattr j "pid" = VInt p -> process_table E p = Some h -> sweep_row E j = j.
Proof.
  intros Hp Hh. unfold sweep_row, swept, abandoned. rewrite Hp, Hh.
  rewrite bool_decide_eq_false_2 by discriminate. now rewrite andb_false_r.
Qed.

Lemma non_terminal_failed (j : Job) : non_terminal (<["status" := VStr "fail"]> j) = false.
Proof. unfold non_terminal, getattr. now rewrite lookup_insert_eq. Qed.

Lemma sweep_row_idempotent E j : sweep_row E (sweep_row E j) = sweep_row E j.
Proof.
  destruct (swept E j) eqn:Hs.
  - replace (sweep_row E j) with (<["status" := VStr "fail"]> j)
      by (unfold sweep_row; now rewrite Hs).
    apply sweep_row_terminal, non_terminal_failed.
  - replace (sweep_row E j) with j by (unfold sweep_row; now rewrite Hs).
    unfold sweep_row. now rewrite Hs.
Qed.

(** With a store that takes the writes, the sweep changes the rows in one
    way only: the non-terminal jobs whose process is gone get the status
    "fail".  A terminal job is left alone, and so is every job whose PID is
    in the process table, whatever identity that process has. *)
Theorem clean_old_jobs_rows E w :
  (forall n, (attempts w <= n)%nat -> store_outcome E n = Committed) ->
  (forall j, j ∈ jobs w -> non_terminal j = true -> exists p, getattr j "pid" = VInt p) ->
  let r := clean_old_jobs E w in
  jobs r.2 = sweep_row E <$> jobs w
  /\ length (jobs r.2) = length (jobs w)
  /\ (forall i j, jobs w !! i = Some j -> non_terminal j = false ->
        jobs r.2 !! i = Some j)
  /\ (forall i j p h, jobs w !! i = Some j ->
        getattr j "pid" = VInt p -> process_table E p = Some h ->
        jobs r.2 !! i = Some j).
Proof.
  intros Hcommit Hpid. cbv zeta.
  destruct (clean_old_jobs_run E w Hcommit Hpid) as (w' & -> & Hjobs & _).
  cbn [snd]. rewrite Hjobs. split; [reflexivity|]. split; [apply length_fmap|]. split.
  - intros i j Hi Ht. rewrite list_lookup_fmap, Hi. cbn.
    now rewrite sweep_row_terminal.
  - intros i j p h Hi Hp Hh. rewrite list_lookup_fmap, Hi. cbn.
    now rewrite (sweep_row_running E j p h).
Qed.

Lemma clean_old_jobs_rows_witness :
  let r := clean_old_jobs (Sample.env_with_processes Sample.pid_reused) Sample.world in
  jobs r.2 = sweep_row (Sample.env_with_processes Sample.pid_reused) <$> jobs Sample.world
  /\ length (jobs r.2) = length (jobs Sample.world)
  /\ jobs r.2 !! 0%nat = Some Sample.job.
Proof.
  destruct (clean_old_jobs_rows (Sample.env_with_processes Sample.pid_reused) Sample.world)
    as (Hrows & Hlen & _ & Hrun).
  - intros n _. reflexivity.
  - intros j Hj _. apply list_elem_of_singleton in Hj. subst j. exists 4242. reflexivity.
  - split; [exact Hrows|]. split; [exact Hlen|].
    apply (Hrun 0%nat Sample.job 4242 99); reflexivity.
Defined.

(** The sweep is idempotent on the session: a second sweep right after the
    first one changes no row. *)
Theorem clean_old_jobs_idempotent E w :
  (forall n, (attempts w <= n)%nat -> store_outcome E n = Committed) ->
  (forall j, j ∈ jobs w -> non_terminal j = true -> exists p, getattr j "pid" = VInt p) ->
  let r1 := clean_old_jobs E w in
  let r2 := clean_old_jobs E r1.2 in
  r1.1 = Ret VNone /\ r2.1 = Ret VNone /\ jobs r2.2 = jobs r1.2.
Proof.
  intros Hcommit Hpid. cbv zeta.
  destruct (clean_old_jobs_run E w Hcommit Hpid) as (w1 & -> & Hjobs1 & Ha1).
  cbn [fst snd].
  destruct (clean_old_jobs_run E w1) as (w2 & -> & Hjobs2 & _).
  - intros n Hn. apply Hcommit. lia.
  - intros j Hj Hnt. rewrite Hjobs1 in Hj.
    apply list_elem_of_fmap in Hj as (j0 & -> & Hj0).
    unfold sweep_row in *. destruct (swept E j0).
    + now rewrite non_terminal_failed in Hnt.
    + now apply Hpid.
  - cbn [fst snd]. split; [reflexivity|]. split; [reflexivity|].
    rewrite Hjobs2, Hjobs1, <- list_fmap_compose.
    apply list_fmap_ext. intros i j _. apply sweep_row_idempotent.
Qed.

Lemma clean_old_jobs_idempotent_witness :
  let E := Sample.env_with_processes Sample.no_process in
  let r1 := clean_old_jobs E Sample.world in
  let r2 := clean_old_jobs E r1.2 in
  r1.1 = Ret VNone /\ r2.1 = Ret VNone /\ jobs r2.2 = jobs r1.2.
Proof.
  apply (clean_old_jobs_idempotent (Sample.env_with_processes Sample.no_process)
           Sample.world).
  - intros n _. reflexivity.
  - intros j Hj _. apply list_elem_of_singleton in Hj. subst j. exists 4242. reflexivity.
Defined.

(** ** [job_dupe_check]: no earlier rip, and what is copied *)

Lemma select_from_none f l k :
  (forall q, q ∈ l -> f q = false) -> select_from f k l = [].
Proof.
  intros H. destruct (select_from f k l) as [|i rest] eqn:Hsel; [reflexivity|].
  assert (Hi : i ∈ select_from f k l) by (rewrite Hsel; left).
  apply elem_of_select_from in Hi as (_ & q & Hq & Hf).
  apply list_elem_of_lookup_2 in Hq. rewrite (H q Hq) in Hf. discriminate.
Qed.

(** Without an earlier successful rip of the same fingerprint with the title
    flag, the check answers [(False, None)]; it has made one query and has
    changed nothing else. *)
Theorem job_dupe_check_no_prior E job w j crc :
  jobs w !! job = Some j ->
  getattr j "crc_id" = crc ->
  crc <> VNone ->
  (forall q, q ∈ jobs w -> prior_match crc q = false) ->
  job_dupe_check E job w = (Ret (false, None), emit EvQuery w).
Proof.
  intros Hj Hcrc Hnone Hno. unfold job_dupe_check.
  rewrite (bind_Ret _ _ w _ w (attr_lookup job "crc_id" w j Hj)).
  rewrite Hcrc, bool_decide_eq_false_2 by exact Hnone.
  rewrite (bind_Ret _ _ w _ _ (query_run _ w)).
  change (fun j0 : Job => (sql_eq (getattr j0 "crc_id") crc
                           && sql_eq (getattr j0 "status") (VStr "success")
                           && sql_eq (getattr j0 "hasnicetitle") (VBool true))%bool)
    with (prior_match crc).
  now rewrite (select_from_none (prior_match crc) (jobs w) 0 Hno).
Qed.

Lemma job_dupe_check_no_prior_witness :
  job_dupe_check (Sample.env Sample.healthy) 0 Sample3.fresh
  = (Ret (false, None), emit EvQuery Sample3.fresh).
Proof.
  apply (job_dupe_check_no_prior (Sample.env Sample.healthy) 0 Sample3.fresh
           Sample.again (VStr "f00d")).
  - reflexivity.
  - reflexivity.
  - discriminate.
  - intros q Hq. apply list_elem_of_singleton in Hq. subst q. reflexivity.
Defined.

Lemma reports_item_value E p key :
  reports E p -> key ∈ copied ->
  item (py_str E <$> get_d E p) key = mret (py_str E (getattr p key)).
Proof. intros Hrep Hkey. now apply reports_item. Qed.

(** What the check hands to [database_updater] for the job, whatever the
    first earlier rip holds: each value is the [str] of the prior's value.
    When the store takes the write, the job carries these values in the
    session and in the store: a prior without a title leaves the job with
    its own label as title, and an unset year becomes the string "None". *)
Theorem job_dupe_check_written E job w j crc i0 p :
  jobs w !! job = Some j ->
  getattr j "crc_id" = crc ->
  crc <> VNone ->
  jobs w !! i0 = Some p ->
  prior_match crc p = true ->
  (forall i q, (i < i0)%nat -> jobs w !! i = Some q -> prior_match crc q = false) ->
  reports E p ->
  let active_rip := active_rip_of E p (getattr j "label") in
  let r := job_dupe_check E job w in
  r = (database_updater E (ArgDict active_rip) job wait_time_default ;;
       mret (true, Some (records E w (select_from (prior_match crc) 0 (jobs w)))))
        (emit EvQuery w)
  /\ ((forall i, (i < wait_time_default)%nat ->
         store_outcome E (attempts w + i) = Committed) ->
      jobs r.2 = alter (fun j => active_rip ∪ j) job (jobs w)
      /\ stored r.2 = jobs r.2
      /\ (getattr p "title" = VStr "" ->
          getattr (default ∅ (jobs r.2 !! job)) "title" = getattr j "label")
      /\ (getattr p "year" = VNone ->
          getattr (default ∅ (jobs r.2 !! job)) "year" = VStr "None")).
Proof.
  intros Hj Hcrc Hnone Hp Hmatch Hfirst Hrep active_rip r.
  assert (Hnice : getattr p "hasnicetitle" = VBool true).
  { unfold prior_match, sql_eq in Hmatch.
    apply andb_prop in Hmatch as [_ Hm]. now apply bool_decide_eq_true in Hm. }
  assert (Hrun : r = (database_updater E (ArgDict active_rip) job wait_time_default ;;
                      mret (true, Some (records E w
                                          (select_from (prior_match crc) 0 (jobs w)))))
                       (emit EvQuery w)).
  { unfold r, job_dupe_check.
    rewrite (bind_Ret _ _ w _ w (attr_lookup job "crc_id" w j Hj)).
    rewrite Hcrc, bool_decide_eq_false_2 by exact Hnone.
    rewrite (bind_Ret _ _ w _ _ (query_run _ w)).
    change (fun j0 : Job => (sql_eq (getattr j0 "crc_id") crc
                             && sql_eq (getattr j0 "status") (VStr "success")
                             && sql_eq (getattr j0 "hasnicetitle") (VBool true))%bool)
      with (prior_match crc).
    destruct (select_from_first (prior_match crc) (jobs w) 0 i0 p Hp Hmatch Hfirst)
      as [rest Hsel].
    unfold records. rewrite Hsel. cbn [Nat.add].
    unfold gets at 1. unfold mbind at 1, M_bind at 1.
    cbn [jobs emit omap list_omap]. rewrite Hp. cbn [fmap list_fmap].
    rewrite (reports_item_value E p "title" Hrep) by set_solver.
    unfold mbind at 1, M_bind at 1, mret at 1, M_ret at 1.
    rewrite (bind_Ret _ _ _ _ _ (attr_lookup job "label" (emit EvQuery w) j Hj)).
    rewrite (reports_item_value E p "year" Hrep) by set_solver.
    unfold mbind at 1, M_bind at 1, mret at 1, M_ret at 1.
    rewrite (reports_item_value E p "poster_url" Hrep) by set_solver.
    unfold mbind at 1, M_bind at 1, mret at 1, M_ret at 1.
    rewrite (reports_item_value E p "hasnicetitle" Hrep) by set_solver.
    unfold mbind at 1, M_bind at 1, mret at 1, M_ret at 1.
    rewrite Hnice. cbn [py_str].
    change (negb (String.eqb "True" "")) with true. cbv iota.
    rewrite (reports_item_value E p "video_type" Hrep) by set_solver.
    unfold mbind at 1, M_bind at 1, mret at 1, M_ret at 1.
    change (String.eqb (lower "True") "true") with true.
    unfold active_rip, active_rip_of. cbv zeta.
    replace (if negb (String.eqb (py_str E (getattr p "year")) "")
             then py_str E (getattr p "year") else "")
      with (py_str E (getattr p "year"))
      by (destruct (String.eqb_spec (py_str E (getattr p "year")) "") as [->|];
          reflexivity).
    destruct (String.eqb (py_str E (getattr p "title")) "");
      destruct (String.eqb (py_str E (getattr p "poster_url")) ""); reflexivity. }
  assert (Hjobs : jobs r.2 = alter (fun j => active_rip ∪ j) job (jobs w)).
  { rewrite Hrun, snd_then_mret, database_updater_jobs. reflexivity. }
  assert (Hget : forall k v, active_rip !! k = Some v ->
                   getattr (default ∅ (jobs r.2 !! job)) k = v).
  { intros k v Hk. rewrite Hjobs, list_lookup_alter_eq, Hj. cbn.
    unfold getattr. rewrite lookup_union, Hk. now destruct (j !! k). }
  split; [exact Hrun|]. intros Hok. split; [exact Hjobs|]. split.
  { rewrite Hrun, snd_then_mret.
    now apply database_updater_healthy; [unfold wait_time_default; lia|]. }
  split.
  - intros Ht. apply Hget. unfold active_rip, active_rip_of. cbv zeta.
    rewrite Ht. cbn [py_str]. apply lookup_insert_eq.
  - intros Hy. apply Hget. unfold active_rip, active_rip_of. cbv zeta.
    rewrite Hy. cbn [py_str].
    rewrite lookup_insert_ne by discriminate. apply lookup_insert_eq.
Qed.

Lemma reports_untitled : reports (Sample.env Sample.healthy) Sample3.untitled.
Proof.
  intros key Hkey. unfold copied in Hkey.
  repeat (apply elem_of_cons in Hkey as [->|Hkey]; [reflexivity|]).
  now apply elem_of_nil in Hkey.
Defined.

Lemma job_dupe_check_written_witness :
  let E := Sample.env Sample.healthy in
  let r := job_dupe_check E 1 Sample3.library in
  getattr (default ∅ (jobs r.2 !! 1%nat)) "title" = VStr "ALPHA_DISC"
  /\ getattr (default ∅ (jobs r.2 !! 1%nat)) "year" = VStr "None".
Proof.
  destruct (job_dupe_check_written (Sample.env Sample.healthy) 1 Sample3.library
              Sample.again (VStr "f00d") 0 Sample3.untitled)
    as (_ & Hok).
  - reflexivity.
  - reflexivity.
  - discriminate.
  - reflexivity.
  - reflexivity.
  - intros i q Hi. lia.
  - exact reports_untitled.
  - destruct Hok as (_ & _ & Htitle & Hyear); [intros i _; reflexivity|].
    split; [apply Htitle|apply Hyear]; reflexivity.
Defined.

(** ** [duplicate_run_check]: the window as it is *)

(** The minutes since the start, rounded as the code rounds them, are at
    most 1 exactly up to 119.5 seconds. *)
Lemma minutes_exact us :
  0 <= us -> (py_round_div us 1000000 / 60 <=? 1) = (us <? 119500000).
Proof.
  intros Hus.
  assert (Hkey : py_round_div us 1000000 < 120 <-> us < 119500000).
  { unfold py_round_div.
    pose proof (Z.div_mod us 1000000 ltac:(lia)) as Hdm.
    pose proof (Z.mod_pos_bound us 1000000 ltac:(lia)) as Hr.
    set (q := us / 1000000) in *. set (r := us mod 1000000) in *.
    destruct (Z.ltb_spec (2 * r) 1000000); [lia|].
    destruct (Z.ltb_spec 1000000 (2 * r)); [lia|].
    destruct (Z.even q) eqn:Heven; [|lia].
    destruct (Z.eq_dec q 119) as [Heq|]; [|lia].
    rewrite Heq in Heven. discriminate. }
  destruct (Z.ltb_spec us 119500000) as [Hlt|Hge].
  - apply Z.leb_le. apply Hkey in Hlt.
    assert (py_round_div us 1000000 / 60 < 2); [|lia].
    apply Z.div_lt_upper_bound; lia.
  - apply Z.leb_gt.
    assert (120 <= py_round_div us 1000000) by (destruct Hkey; lia).
    assert (2 <= py_round_div us 1000000 / 60); [|lia].
    apply Z.div_le_lower_bound; lia.
Qed.

Lemma run_check_one_exact w i j t :
  jobs w !! i = Some j ->
  getattr j "start_time" = VDate t ->
  run_check_one i w
  = (if Z.abs (t - clock w) <? 119500000 then Raise (SystemExit (VInt 1)) else Ret tt, w).
Proof.
  intros Hi Ht. unfold run_check_one.
  rewrite (bind_Ret _ _ w _ w (attr_lookup i "start_time" w j Hi)).
  unfold gets, mbind, M_bind. rewrite Ht.
  rewrite minutes_exact by lia.
  now destruct (Z.abs (t - clock w) <? 119500000).
Qed.

(** The guard ends the process exactly when a non-terminal job on the device
    has a start time less than 119.5 seconds away from now, before or after;
    otherwise it returns.  Either way it has made one query and has changed
    nothing. *)
Theorem duplicate_run_check_exact dev_path w :
  (forall j, j ∈ jobs w -> running dev_path j = true ->
     exists t, getattr j "start_time" = VDate t) ->
  ((exists j t, j ∈ jobs w /\ running dev_path j = true
                /\ getattr j "start_time" = VDate t
                /\ Z.abs (t - clock w) < 119500000) ->
   duplicate_run_check dev_path w = (Raise (SystemExit (VInt 1)), emit EvQuery w))
  /\ ((forall j t, j ∈ jobs w -> running dev_path j = true ->
         getattr j "start_time" = VDate t -> 119500000 <= Z.abs (t - clock w)) ->
      duplicate_run_check dev_path w = (Ret tt, emit EvQuery w)).
Proof.
  intros Hdates. rewrite duplicate_run_check_unfold.
  rewrite (bind_Ret _ _ w _ _ (query_run (running dev_path) w)).
  set (w1 := emit EvQuery w).
  assert (Hsel : forall i, i ∈ select_from (running dev_path) 0 (jobs w) ->
                   exists j t, jobs w1 !! i = Some j /\ j ∈ jobs w
                               /\ running dev_path j = true
                               /\ getattr j "start_time" = VDate t).
  { intros i Hi. apply elem_of_select_from in Hi as (_ & j & Hj & Hr).
    rewrite Nat.sub_0_r in Hj.
    assert (Hin : j ∈ jobs w) by now apply list_elem_of_lookup_2 in Hj.
    destruct (Hdates j Hin Hr) as [t Ht]. now exists j, t. }
  split.
  - intros (j & t & Hj & Hr & Ht & Hnear).
    apply list_elem_of_lookup_1 in Hj as [i Hi].
    assert (Hin : i ∈ select_from (running dev_path) 0 (jobs w)).
    { apply elem_of_select_from. split; [lia|]. exists j. now rewrite Nat.sub_0_r. }
    destruct (select_from (running dev_path) 0 (jobs w)) as [|i1 l] eqn:Hl.
    { now apply elem_of_nil in Hin. }
    change (1 <=? length (i1 :: l))%nat with true. cbv iota.
    apply for_each_one_raises.
    + intros x Hx. destruct (Hsel x Hx) as (jx & tx & Hjx & _ & _ & Htx).
      rewrite (run_check_one_exact w1 x jx tx Hjx Htx).
      destruct (_ <? _); [now right|now left].
    + exists i. split; [exact Hin|].
      rewrite (run_check_one_exact w1 i j t Hi Ht).
      change (clock w1) with (clock w).
      now rewrite (proj2 (Z.ltb_lt _ _) Hnear).
  - intros Hfar.
    destruct (select_from (running dev_path) 0 (jobs w)) as [|i1 l] eqn:Hl; [reflexivity|].
    change (1 <=? length (i1 :: l))%nat with true. cbv iota.
    apply for_each_all_pass.
    intros x Hx. destruct (Hsel x Hx) as (jx & tx & Hjx & Hjin & Hjr & Htx).
    rewrite (run_check_one_exact w1 x jx tx Hjx Htx).
    change (clock w1) with (clock w).
    now rewrite (proj2 (Z.ltb_ge _ _) (Hfar jx tx Hjin Hjr Htx)).
Qed.

Lemma duplicate_run_check_exact_witness :
  duplicate_run_check (VStr "/dev/sr0") Sample4.after_119_seconds
  = (Raise (SystemExit (VInt 1)), emit EvQuery Sample4.after_119_seconds)
  /\ duplicate_run_check (VStr "/dev/sr0") Sample4.after_2_minutes
     = (Ret tt, emit EvQuery Sample4.after_2_minutes).
Proof.
  split.
  - apply (duplicate_run_check_exact (VStr "/dev/sr0") Sample4.after_119_seconds).
    + intros j Hj _. apply list_elem_of_singleton in Hj. subst j.
      exists 1000000000. reflexivity.
    + exists Sample.ripping, 1000000000.
      split; [apply list_elem_of_singleton; reflexivity|].
      split; [reflexivity|]. split; [reflexivity|]. cbn. lia.
  - apply (duplicate_run_check_exact (VStr "/dev/sr0") Sample4.after_2_minutes).
    + intros j Hj _. apply list_elem_of_singleton in Hj. subst j.
      exists 1000000000. reflexivity.
    + intros j t Hj _ Ht. apply list_elem_of_singleton in Hj. subst j.
      vm_compute in Ht. injection Ht as <-. vm_compute. discriminate.
Defined.

(** ** [check_for_wait]: nobody enters a title *)

Lemma ticks_left_step d : 0 < d -> ticks_left d = 1 + ticks_left (d - 5).
Proof.
  intros Hd. unfold ticks_left.
  destruct (Z.leb_spec d 0); [lia|].
  destruct (Z.leb_spec (d - 5) 0).
  - assert (1 <= (d + 4) / 5) by (apply Z.div_le_lower_bound; lia).
    assert ((d + 4) / 5 < 2) by (apply Z.div_lt_upper_bound; lia). lia.
  - replace (d + 4) with ((d - 5 + 4) + 1 * 5) by lia.
    rewrite Z.div_add by lia. lia.
Qed.

Lemma ticks_left_nonneg d : 0 <= ticks_left d.
Proof.
  unfold ticks_left. destruct (Z.leb_spec d 0); [lia|].
  apply Z.div_pos; lia.
Qed.




(** ** [check_for_wait]: never longer than the ceiling allows *)

Lemma refresh_clock E o w :
  exists w', refresh E o w = (Ret tt, w') /\ clock w' = clock w.
Proof. destruct o; eexists; split; reflexivity. Qed.

Lemma wait_loop_clock E job fuel : forall sleep_time w,
  let w' := (wait_loop E fuel job sleep_time w).2 in
  clock w <= clock w'
  <= clock w + 5 * 1000000 * ticks_left (MANUAL_WAIT_TIME (cfg E) - sleep_time).
Proof.
  induction fuel as [|fuel IH]; intros s w; cbv zeta.
  - pose proof (ticks_left_nonneg (MANUAL_WAIT_TIME (cfg E) - s)).
    cbn [wait_loop]. destruct (s <? MANUAL_WAIT_TIME (cfg E)); cbn; lia.
  - pose proof (ticks_left_nonneg (MANUAL_WAIT_TIME (cfg E) - s)) as Hnn.
    cbn [wait_loop]. destruct (Z.ltb_spec s (MANUAL_WAIT_TIME (cfg E))) as [Hlt|Hge];
      [|cbn; lia].
    rewrite (bind_Ret _ _ w tt _ (sleep_run 5 w)).
    destruct (refresh_clock E (JobRef job) (slept 5 w)) as (w2 & Hr2 & Hc2).
    rewrite (bind_Ret _ _ _ tt w2 Hr2).
    destruct (refresh_clock E ConfigRef w2) as (w3 & Hr3 & Hc3).
    rewrite (bind_Ret _ _ _ tt w3 Hr3).
    rewrite (bind_Ret _ _ w3 _ w3 (attr_run job "title_manual" w3)).
    assert (Hc : clock w3 = clock w + 5 * 1000000).
    { rewrite Hc3, Hc2. cbn. lia. }
    rewrite (ticks_left_step (MANUAL_WAIT_TIME (cfg E) - s)) by lia.
    destruct (truthy _).
    + pose proof (ticks_left_nonneg (MANUAL_WAIT_TIME (cfg E) - s - 5)).
      rewrite (bind_Ret _ _ w3 tt _ (setattr_run job "updated" (VBool true) w3)).
      rewrite setattr_run. cbn [snd clock set_jobs]. lia.
    + specialize (IH (s + 5) w3). cbv zeta in IH.
      replace (MANUAL_WAIT_TIME (cfg E) - (s + 5))
        with (MANUAL_WAIT_TIME (cfg E) - s - 5) in IH by lia.
      lia.
Qed.

Lemma commit_clock E w : clock (commit E w).2 = clock w.
Proof. unfold commit. now destruct (store_outcome E (attempts w)). Qed.

(** Whatever the store and the UI do, [check_for_wait] never sleeps longer
    than the ceiling rounded up to a multiple of 5 seconds.  With manual
    waiting disabled it does nothing at all, and with a ceiling of 0 or less
    it does not sleep. *)
Theorem check_for_wait_sleep_bound E job w :
  let r := check_for_wait E job w in
  clock w <= clock r.2
  <= clock w + 5 * 1000000 * ticks_left (MANUAL_WAIT_TIME (cfg E))
  /\ (MANUAL_WAIT (cfg E) = false -> r = (Ret tt, w))
  /\ (MANUAL_WAIT_TIME (cfg E) <= 0 -> clock r.2 = clock w).
Proof.
  cbv zeta.
  assert (Hzero : MANUAL_WAIT_TIME (cfg E) <= 0 ->
                  ticks_left (MANUAL_WAIT_TIME (cfg E)) = 0).
  { intros H. unfold ticks_left. now rewrite (proj2 (Z.leb_le _ _) H). }
  assert (Hbound : clock w <= clock (check_for_wait E job w).2
                   <= clock w + 5 * 1000000 * ticks_left (MANUAL_WAIT_TIME (cfg E)));
    [|split; [exact Hbound|split;
        [intros Hoff; unfold check_for_wait; now rewrite Hoff
        |intros Hle; rewrite (Hzero Hle) in Hbound; lia]]].
  pose proof (ticks_left_nonneg (MANUAL_WAIT_TIME (cfg E))) as Hnn.
  unfold check_for_wait. destruct (MANUAL_WAIT (cfg E)); [|cbn; lia].
  rewrite (bind_Ret _ _ w tt _ (setattr_run job "status" (VStr "waiting") w)).
  set (w1 := set_jobs _ w).
  assert (Hw1 : clock w1 = clock w) by reflexivity.
  unfold mbind, M_bind.
  pose proof (commit_clock E w1) as Hc1.
  destruct (commit E w1) as [[[]|e] w2]; cbn [snd] in *; [|lia].
  pose proof (wait_loop_clock E job (Z.to_nat (MANUAL_WAIT_TIME (cfg E))) 0 w2) as Hloop.
  cbv zeta in Hloop. rewrite Z.sub_0_r in Hloop.
  destruct (wait_loop E _ job 0 w2) as [[[]|e] w3]; cbn [snd] in *; [|lia].
  rewrite setattr_run. rewrite commit_clock. cbn [clock set_jobs]. lia.
Qed.

(** ** [make_dir] *)

Lemma make_dir_exists E path w n :
  fs w !! path = Some n -> make_dir E path w = (Ret false, w).
Proof.
  intros H. unfold make_dir, path_exists.
  rewrite (bind_Ret _ _ w true w); [reflexivity|].
  unfold gets. now rewrite H, bool_decide_eq_true_2.
Qed.

Lemma make_dir_creates E path w :
  fs w !! path = None -> denied E path = false ->
  make_dir E path w
  = (Ret true, set_fs (<[path := Dir]> (fs w)) (emit (EvMakedirs path) w)).
Proof.
  intros H Hd. unfold make_dir, path_exists.
  rewrite (bind_Ret _ _ w false w).
  - cbn [negb]. apply try_except_Ret.
    rewrite (bind_Ret _ _ w tt (set_fs (<[path := Dir]> (fs w)) (emit (EvMakedirs path) w)));
      [reflexivity|].
    unfold makedirs. rewrite Hd, H.
    now rewrite bool_decide_eq_false_2 by (intros [? ?]; discriminate).
  - unfold gets. rewrite H.
    now rewrite bool_decide_eq_false_2 by (intros [? ?]; discriminate).
Qed.

Lemma make_dir_denied E path w :
  fs w !! path = None -> denied E path = true ->
  make_dir E path w
  = (Raise (SystemExit (VStr ("Couldn't create a directory at path: " ++ path
                              ++ " Probably a permissions error.  Exiting"))),
     emit (EvMakedirs path) w).
Proof.
  intros H Hd. unfold make_dir, path_exists.
  rewrite (bind_Ret _ _ w false w).
  - cbn [negb].
    assert (Hraise : (makedirs E path ;; mret true) w
                     = (Raise (OSError path), emit (EvMakedirs path) w)).
    { rewrite (bind_Raise _ _ w (OSError path) (emit (EvMakedirs path) w)); [reflexivity|].
      unfold makedirs. now rewrite Hd. }
    now rewrite (try_except_caught _ _ _ w _ _ Hraise eq_refl).
  - unfold gets. rewrite H.
    now rewrite bool_decide_eq_false_2 by (intros [? ?]; discriminate).
Qed.

(** [make_dir] takes nothing away from the file system.  When it returns,
    the path exists; it returns [True] exactly when the path was not there
    before, and a second call returns [False] and changes nothing.  When it
    does not return, it ends the process with exit status 1, and the path
    was not there before. *)
Theorem make_dir_outcomes E path w :
  let r := make_dir E path w in
  (forall p n, fs w !! p = Some n -> fs r.2 !! p = Some n)
  /\ ((exists b, r.1 = Ret b
                 /\ (b = true <-> fs w !! path = None)
                 /\ is_Some (fs r.2 !! path)
                 /\ make_dir E path r.2 = (Ret false, r.2))
      \/ (exists msg, r.1 = Raise (SystemExit (VStr msg))
                      /\ exit_status (VStr msg) = 1
                      /\ fs w !! path = None)).
Proof.
  cbv zeta. destruct (fs w !! path) as [n|] eqn:Hp.
  - rewrite (make_dir_exists E path w n Hp). cbn [fst snd].
    split; [auto|]. left. exists false.
    split; [reflexivity|]. split; [split; discriminate|].
    split; [rewrite Hp; eauto|].
    now apply (make_dir_exists E path w n).
  - destruct (denied E path) eqn:Hd.
    + rewrite (make_dir_denied E path w Hp Hd). cbn [fst snd fs emit].
      split; [auto|]. right. eexists. repeat split.
    + rewrite (make_dir_creates E path w Hp Hd). cbn [fst snd fs set_fs].
      split.
      { intros p n Hn. rewrite lookup_insert_ne; [exact Hn|]. congruence. }
      left. exists true.
      split; [reflexivity|]. split; [split; auto|].
      split; [rewrite lookup_insert_eq; eauto|].
      apply (make_dir_exists E path _ Dir). cbn [fs set_fs]. apply lookup_insert_eq.
Qed.

(** ** [rip_data]: the other ways it ends *)

Lemma string_app_assoc (a b c : string) : ((a ++ b) ++ c = a ++ (b ++ c))%string.
Proof.
  induction a as [|x a IH]; [reflexivity|].
  change (String x ((a ++ b) ++ c) = String x (a ++ (b ++ c)))%string. now f_equal.
Qed.

Lemma string_length_snoc s c : String.length (s ++ String c "") = S (String.length s).
Proof.
  induction s as [|x s IH]; [reflexivity|].
  change (S (String.length (s ++ String c "")) = S (S (String.length s))). now f_equal.
Qed.

Lemma string_get_snoc s c : get (String.length s) (s ++ String c "") = Some c.
Proof. induction s as [|x s IH]; [reflexivity|exact IH]. Qed.

Lemma string_snoc_inj s s' c c' :
  (s ++ String c "")%string = (s' ++ String c' "")%string -> c = c'.
Proof.
  intros H. pose proof (string_length_snoc s c) as Hl.
  pose proof (string_get_snoc s c) as Hg. rewrite H in Hl, Hg.
  rewrite string_length_snoc in Hl. injection Hl as Hl.
  rewrite <- Hl, string_get_snoc in Hg. congruence.
Qed.

(** [os.path.join(a, b)] ends with [b]. *)
Lemma path_join_tail a b : exists x, path_join a b = (x ++ b)%string.
Proof.
  unfold path_join. destruct (String.prefix "/" b); [now exists ""|].
  destruct (_ || _)%bool; [now exists a|].
  exists (a ++ "/")%string. now rewrite string_app_assoc.
Qed.

(** The partial file and the image are two files. *)
Lemma part_not_iso raw final l :
  path_join raw (l ++ ".part") <> path_join final (l ++ ".iso").
Proof.
  destruct (path_join_tail raw (l ++ ".part")) as [x ->].
  destruct (path_join_tail final (l ++ ".iso")) as [y ->].
  change ".part" with (".par" ++ "t")%string. change ".iso" with (".is" ++ "o")%string.
  rewrite <- !string_app_assoc. intros H. apply string_snoc_inj in H. discriminate.
Qed.

(** The default label is set in the session only. *)
Lemma default_label_frame job w :
  let w0 := default_label job w in
  fs w0 = fs w /\ clock w0 = clock w /\ stored w0 = stored w
  /\ attempts w0 = attempts w /\ trace w0 = trace w.
Proof. cbv zeta. unfold default_label. now destruct (_ || _)%bool. Qed.

(** Making a directory is no business of the store. *)
Lemma make_dir_store E path w :
  stored (make_dir E path w).2 = stored w
  /\ attempts (make_dir E path w).2 = attempts w.
Proof.
  destruct (fs w !! path) as [n|] eqn:Hp.
  - now rewrite (make_dir_exists E path w n Hp).
  - destruct (denied E path) eqn:Hd.
    + now rewrite (make_dir_denied E path w Hp Hd).
    + now rewrite (make_dir_creates E path w Hp Hd).
Qed.

Lemma rip_data_paths_store E job w :
  stored (rip_data_paths E job w).2 = stored w
  /\ attempts (rip_data_paths E job w).2 = attempts w.
Proof.
  set (P := fun w' => stored w' = stored w /\ attempts w' = attempts w).
  assert (Hmk : forall path, preserves P (make_dir E path)).
  { intros path w0 [H1 H2]. destruct (make_dir_store E path w0) as [H3 H4].
    split; congruence. }
  assert (Hall : preserves P (rip_data_paths E job)); [|now apply (Hall w)].
  unfold rip_data_paths.
  apply preserves_bind; [apply preserves_gets|intros label].
  apply preserves_bind; [apply preserves_gets|intros video_type].
  apply preserves_bind; [apply Hmk|intros made].
  apply preserves_bind.
  - apply preserves_if; [|apply preserves_ret].
    apply preserves_bind; [apply preserves_gets|intros t].
    apply preserves_bind; [apply Hmk|intros made2].
    apply preserves_if; [apply preserves_raise|apply preserves_ret].
  - intros [raw_path final_file_name].
    apply preserves_bind; [apply Hmk|intros; apply preserves_ret].
Qed.

(** The clean-up leaves every path outside the staging directory, and the
    count of commits. *)
Lemma rmtree_best_effort_outside E path w p :
  in_tree path p = false ->
  fs (try_except (rmtree E path) is_OSError (fun _ => mret tt) w).2 !! p = fs w !! p.
Proof.
  intros Hp. unfold try_except, rmtree.
  destruct (fs w !! path) as [[]|]; [|destruct (denied E path)|];
    cbn [is_OSError snd fs set_fs emit mret M_ret]; try reflexivity.
  destruct (fs w !! p) as [n|] eqn:Hn.
  - apply map_lookup_filter_Some_2; [exact Hn|]. cbn. now rewrite Hp.
  - apply map_lookup_filter_None. now left.
Qed.

Lemma rmtree_best_effort_attempts E path w :
  attempts (try_except (rmtree E path) is_OSError (fun _ => mret tt) w).2 = attempts w.
Proof.
  unfold try_except, rmtree.
  now destruct (fs w !! path) as [[]|]; [|destruct (denied E path)|].
Qed.

(** The run of [rip_data] up to the copy: the command line is the one of
    the job's row. *)
Lemma rip_data_copy_command E job w j raw final part w1 :
  jobs w !! job = Some j ->
  rip_data_paths E job (default_label job w) = (Ret (raw, final, part), w1) ->
  jobs w1 = jobs (default_label job w)
  /\ stored w1 = stored w
  /\ attempts w1 = attempts w
  /\ dd_command E (default ∅ (jobs w1 !! job)) part = dd_command E j part.
Proof.
  intros Hj Hpaths.
  assert (Hw1 : w1 = (rip_data_paths E job (default_label job w)).2)
    by now rewrite Hpaths.
  assert (Hj1 : jobs w1 = jobs (default_label job w))
    by (rewrite Hw1; apply rip_data_paths_jobs).
  destruct (rip_data_paths_store E job (default_label job w)) as [Hs1 Ha1].
  rewrite <- Hw1 in Hs1, Ha1.
  destruct (default_label_frame job w) as (_ & _ & Hs0 & Ha0 & _).
  split; [exact Hj1|]. split; [congruence|]. split; [congruence|].
  rewrite Hj1. now apply default_label_dd_command.
Qed.

(** When the copy command ends well and leaves the partial file,
    [rip_data] moves it to the image named after the label and returns
    [True].  The partial file is gone, and the image is there as long as the
    destination does not lie inside the staging directory.  The job and the
    store are as they were: no status is set and nothing is committed. *)
Theorem rip_data_copied E job w j raw final part w1 out files n :
  jobs w !! job = Some j ->
  rip_data_paths E job (default_label job w) = (Ret (raw, final, part), w1) ->
  run_shell E (dd_command E j part) (fs w1) = (0, out, files) ->
  files !! part = Some n ->
  let iso := path_join final (py_str E (label_of job (default_label job w)) ++ ".iso") in
  denied E iso = false ->
  in_tree raw iso = false ->
  let r := rip_data E job w in
  r.1 = Ret true
  /\ fs r.2 !! iso = Some n
  /\ fs r.2 !! part = None
  /\ jobs r.2 = jobs (default_label job w)
  /\ stored r.2 = stored w
  /\ attempts r.2 = attempts w
  /\ head (trace r.2) = Some (EvRmtree raw).
Proof.
  intros Hj Hpaths Hshell Hpart iso Hden Htree r. subst r.
  rewrite rip_data_run, (bind_Ret _ _ _ _ _ Hpaths).
  destruct (rip_data_copy_command E job w j raw final part w1 Hj Hpaths)
    as (Hj1 & Hs1 & Ha1 & Hcmd).
  destruct (rip_data_paths_shape E job _ raw final part w1 Hpaths) as [_ Hshape].
  assert (Hne : iso <> part).
  { rewrite Hshape. intros H. symmetry in H. revert H. apply part_not_iso. }
  unfold rip_data_copy.
  rewrite (bind_Ret _ _ w1 _ w1 (attr_run job "label" w1)).
  rewrite (bind_Ret _ _ w1 _ w1 (attr_run job "devpath" w1)).
  rewrite (bind_Ret _ _ w1 _ w1 (attr_run job "logfile" w1)).
  change ("dd if=" ++ _)%string with (dd_command E (default ∅ (jobs w1 !! job)) part).
  rewrite Hcmd, Hj1. fold (label_of job (default_label job w)). fold iso.
  set (w2 := emit (EvShell (dd_command E j part)) (set_fs files w1)).
  set (w3 := set_fs (<[iso := n]> (delete part files)) (emit (EvRename part iso) w2)).
  assert (Hout : check_output E (dd_command E j part) w1 = (Ret out, w2)).
  { unfold check_output. now rewrite Hshell. }
  assert (Hren : rename E part iso w2 = (Ret tt, w3)).
  { unfold rename. change (fs w2) with files. now rewrite Hpart, Hden. }
  rewrite (bind_Ret _ _ w1 true w3).
  2:{ apply try_except_Ret. rewrite (bind_Ret _ _ w1 _ w2 Hout).
      now rewrite (bind_Ret _ _ w2 tt w3 Hren). }
  pose proof (rmtree_best_effort_outside E raw w3 iso Htree) as Hiso.
  pose proof (rmtree_best_effort_attempts E raw w3) as Ha4.
  destruct (rmtree_best_effort E raw w3) as (w4 & Hrm & Htr4 & Hj4 & Hs4 & Hfs4).
  rewrite Hrm in Hiso, Ha4. cbn [snd] in Hiso, Ha4.
  rewrite (bind_Ret _ _ w3 tt w4 Hrm). cbn [fst snd mret M_ret].
  split; [reflexivity|]. split.
  { rewrite Hiso. unfold w3. cbn [fs set_fs]. apply lookup_insert_eq. }
  split.
  { apply Hfs4. unfold w3. cbn [fs set_fs].
    rewrite lookup_insert_ne by exact Hne. apply lookup_delete_eq. }
  split; [rewrite Hj4; exact Hj1|].
  split; [rewrite Hs4; exact Hs1|].
  split; [rewrite Ha4; exact Ha1|].
  now rewrite Htr4.
Qed.

Lemma rip_data_copied_witness :
  let E := Sample.env_with_shell Sample.dd_copies Sample.healthy in
  let r := rip_data E 0 Sample.shelf in
  r.1 = Ret true
  /\ fs r.2 !! "/home/arm/media/unidentified/data-disc/data-disc.iso" = Some File
  /\ fs r.2 !! Sample.part_file = None
  /\ jobs r.2 = jobs (default_label 0 Sample.shelf)
  /\ stored r.2 = stored Sample.shelf
  /\ attempts r.2 = attempts Sample.shelf
  /\ head (trace r.2) = Some (EvRmtree "/home/arm/raw/data-disc").
Proof.
  apply (rip_data_copied (Sample.env_with_shell Sample.dd_copies Sample.healthy)
           0 Sample.shelf Sample.unlabelled
           "/home/arm/raw/data-disc" "/home/arm/media/unidentified/data-disc"
           Sample.part_file
           (rip_data_paths (Sample.env_with_shell Sample.dd_copies Sample.healthy)
              0 (default_label 0 Sample.shelf)).2
           ""
           (<[Sample.part_file := File]>
              (fs (rip_data_paths (Sample.env_with_shell Sample.dd_copies Sample.healthy)
                     0 (default_label 0 Sample.shelf)).2))
           File).
  - reflexivity.
  - vm_compute. reflexivity.
  - reflexivity.
  - apply lookup_insert_eq.
  - reflexivity.
  - vm_compute. reflexivity.
Defined.

(** C8 (the code departs from it): when the copy command fails and has left
    no partial file, the error of the unguarded [os.unlink] leaves
    [rip_data].  Nothing is returned, the job is not marked as failed,
    nothing is committed, and the staging directory is neither removed nor
    tried: the failed [unlink] is the last thing done, and the file system
    is as the copy left it. *)
Theorem rip_data_nothing_to_unlink E job w j raw final part w1 code output files :
  jobs w !! job = Some j ->
  rip_data_paths E job (default_label job w) = (Ret (raw, final, part), w1) ->
  run_shell E (dd_command E j part) (fs w1) = (code, output, files) ->
  code <> 0 ->
  files !! part = None ->
  let r := rip_data E job w in
  r.1 = Raise (OSError part)
  /\ r.1 <> Ret false
  /\ jobs r.2 = jobs (default_label job w)
  /\ stored r.2 = stored w
  /\ attempts r.2 = attempts w
  /\ fs r.2 = files
  /\ trace r.2 = EvUnlink part :: EvShell (dd_command E j part) :: trace w1.
Proof.
  intros Hj Hpaths Hshell Hcode Hpart r. subst r.
  rewrite rip_data_run, (bind_Ret _ _ _ _ _ Hpaths).
  destruct (rip_data_copy_command E job w j raw final part w1 Hj Hpaths)
    as (Hj1 & Hs1 & Ha1 & Hcmd).
  unfold rip_data_copy.
  rewrite (bind_Ret _ _ w1 _ w1 (attr_run job "label" w1)).
  rewrite (bind_Ret _ _ w1 _ w1 (attr_run job "devpath" w1)).
  rewrite (bind_Ret _ _ w1 _ w1 (attr_run job "logfile" w1)).
  change ("dd if=" ++ _)%string with (dd_command E (default ∅ (jobs w1 !! job)) part).
  rewrite Hcmd.
  set (w2 := emit (EvShell (dd_command E j part)) (set_fs files w1)).
  set (w3 := emit (EvUnlink part) w2).
  assert (Hout : check_output E (dd_command E j part) w1
                 = (Raise (CalledProcessError code output), w2)).
  { unfold check_output. rewrite Hshell.
    now rewrite (proj2 (Z.eqb_neq code 0) Hcode). }
  assert (Hunlink : unlink E part w2 = (Raise (OSError part), w3)).
  { unfold unlink. change (fs w2) with files. now rewrite Hpart. }
  rewrite (bind_Raise _ _ w1 (OSError part) w3).
  2:{ pose proof (bind_Raise (check_output E (dd_command E j part))
                    (fun _ => rename E part
                                (path_join final
                                   (py_str E (getattr (default ∅ (jobs w1 !! job)) "label")
                                    ++ ".iso")) ;; mret true)
                    w1 _ w2 Hout) as Hraise.
      rewrite (try_except_caught _ _ _ w1 _ _ Hraise eq_refl).
      cbv iota. now rewrite (bind_Raise _ _ w2 (OSError part) w3 Hunlink). }
  cbn [fst snd]. unfold w3, w2. cbn [jobs stored attempts fs trace set_fs emit].
  split; [reflexivity|]. split; [discriminate|]. repeat split; assumption.
Qed.

Lemma rip_data_nothing_to_unlink_witness :
  let E := Sample.env_with_shell Sample6.dd_cannot_open Sample.healthy in
  let r := rip_data E 0 Sample.shelf in
  r.1 = Raise (OSError Sample.part_file)
  /\ r.1 <> Ret false
  /\ jobs r.2 = jobs (default_label 0 Sample.shelf)
  /\ stored r.2 = stored Sample.shelf
  /\ attempts r.2 = attempts Sample.shelf
  /\ fs r.2 = fs (rip_data_paths E 0 (default_label 0 Sample.shelf)).2
  /\ trace r.2 = EvUnlink Sample.part_file
                 :: EvShell (dd_command E Sample.unlabelled Sample.part_file)
                 :: trace (rip_data_paths E 0 (default_label 0 Sample.shelf)).2.
Proof.
  apply (rip_data_nothing_to_unlink
           (Sample.env_with_shell Sample6.dd_cannot_open Sample.healthy)
           0 Sample.shelf Sample.unlabelled
           "/home/arm/raw/data-disc" "/home/arm/media/unidentified/data-disc"
           Sample.part_file
           (rip_data_paths (Sample.env_with_shell Sample6.dd_cannot_open Sample.healthy)
              0 (default_label 0 Sample.shelf)).2
           1 "b'dd: failed to open'"
           (fs (rip_data_paths (Sample.env_with_shell Sample6.dd_cannot_open Sample.healthy)
                  0 (default_label 0 Sample.shelf)).2)).
  - reflexivity.
  - vm_compute. reflexivity.
  - reflexivity.
  - discriminate.
  - vm_compute. reflexivity.
Defined.

(** When the copy command fails and leaves the partial file,
    [rip_data] removes that file and hands the status "fail" and the error
    text to [database_updater].  As long as no commit fails for another
    reason than a locked store, it then tries to remove the staging
    directory and returns [False]; when the store takes the writes, the job
    carries the status and the non-empty error text, in the session and in
    the store. *)
Theorem rip_data_failed_copy E job w j raw final part w1 code output files :
  jobs w !! job = Some j ->
  rip_data_paths E job (default_label job w) = (Ret (raw, final, part), w1) ->
  run_shell E (dd_command E j part) (fs w1) = (code, output, files) ->
  code <> 0 ->
  files !! part = Some File ->
  denied E part = false ->
  let r := rip_data E job w in
  ((forall i msg, (i < wait_time_default)%nat ->
      store_outcome E (attempts w + i) = Failed msg -> contains "locked" msg = true) ->
   r.1 = Ret false
   /\ fs r.2 !! part = None
   /\ head (trace r.2) = Some (EvRmtree raw))
  /\ ((forall i, (i < wait_time_default)%nat ->
         store_outcome E (attempts w + i) = Committed) ->
      getattr (default ∅ (jobs r.2 !! job)) "status" = VStr "fail"
      /\ getattr (default ∅ (jobs r.2 !! job)) "errors" = VStr (rip_error code output)
      /\ rip_error code output <> ""
      /\ stored r.2 = jobs r.2).
Proof.
  intros Hj Hpaths Hshell Hcode Hpart Hdenied r.
  destruct (rip_data_copy_command E job w j raw final part w1 Hj Hpaths)
    as (Hj1 & Hs1 & Ha1 & Hcmd).
  destruct (default_label_lookup job w j Hj) as [j0 Hj0].
  assert (Hrow1 : jobs w1 !! job = Some j0) by now rewrite Hj1.
  pose (args := ({[ "status" := VStr "fail";
                    "errors" := VStr (rip_error code output) ]} : gmap string pyval)).
  set (w2 := emit (EvShell (dd_command E j part)) (set_fs files w1)).
  set (w3 := set_fs (delete part files) (emit (EvUnlink part) w2)).
  (* the run, up to the answer of the updater *)
  assert (Hrun : forall b w4,
             database_updater E (ArgDict args) job wait_time_default w3 = (Ret b, w4) ->
             exists w5, r = (Ret false, w5)
                        /\ trace w5 = EvRmtree raw :: trace w4
                        /\ jobs w5 = jobs w4 /\ stored w5 = stored w4
                        /\ (forall p, fs w4 !! p = None -> fs w5 !! p = None)).
  { intros b w4 Hupd. unfold r.
    rewrite rip_data_run, (bind_Ret _ _ _ _ _ Hpaths).
    unfold rip_data_copy.
    rewrite (bind_Ret _ _ w1 _ w1 (attr_run job "label" w1)).
    rewrite (bind_Ret _ _ w1 _ w1 (attr_run job "devpath" w1)).
    rewrite (bind_Ret _ _ w1 _ w1 (attr_run job "logfile" w1)).
    change ("dd if=" ++ _)%string with (dd_command E (default ∅ (jobs w1 !! job)) part).
    rewrite Hcmd.
    assert (Hout : check_output E (dd_command E j part) w1
                   = (Raise (CalledProcessError code output), w2)).
    { unfold check_output. rewrite Hshell.
      now rewrite (proj2 (Z.eqb_neq code 0) Hcode). }
    assert (Hunlink : unlink E part w2 = (Ret tt, w3)).
    { unfold unlink. change (fs w2) with files. now rewrite Hpart, Hdenied. }
    rewrite (bind_Ret _ _ w1 false w4).
    2:{ pose proof (bind_Raise (check_output E (dd_command E j part))
                      (fun _ => rename E part
                                  (path_join final
                                     (py_str E (getattr (default ∅ (jobs w1 !! job)) "label")
                                      ++ ".iso")) ;; mret true)
                      w1 _ w2 Hout) as Hraise.
        rewrite (try_except_caught _ _ _ w1 _ _ Hraise eq_refl).
        cbv iota. rewrite (bind_Ret _ _ w2 tt w3 Hunlink).
        change (database_updater E (ArgDict _) job wait_time_default)
          with (database_updater E (ArgDict args) job wait_time_default).
        now rewrite (bind_Ret _ _ w3 b w4 Hupd). }
    destruct (rmtree_best_effort E raw w4) as (w5 & Hrm & Htr5 & Hj5 & Hs5 & Hfs5).
    rewrite (bind_Ret _ _ w4 tt w5 Hrm). exists w5. now repeat split. }
  assert (Ha3 : attempts w3 = attempts w) by exact Ha1.
  split.
  - intros Hlock.
    destruct (database_updater_no_fatal E args job wait_time_default w3) as [w4 Hupd].
    { intros i msg Hi. rewrite Ha3. now apply Hlock. }
    destruct (Hrun true w4 Hupd) as (w5 & -> & Htr5 & _ & _ & Hfs5).
    cbn [fst snd]. split; [reflexivity|]. split; [|now rewrite Htr5].
    apply Hfs5.
    pose proof (database_updater_fs E args job wait_time_default w3) as Hfs.
    rewrite Hupd in Hfs. cbn [snd] in Hfs. rewrite Hfs.
    unfold w3. cbn [fs set_fs]. apply lookup_delete_eq.
  - intros Hok.
    destruct (database_updater_retry_then_success E args job wait_time_default w3 0)
      as (Hret & Hjobs & Hstored & _).
    { unfold wait_time_default. lia. }
    { intros i Hi. lia. }
    { intros i Hi. rewrite Ha3. apply Hok. lia. }
    destruct (database_updater E (ArgDict args) job wait_time_default w3)
      as [[b|e] w4] eqn:Hupd; cbn [fst snd] in *; [|discriminate].
    destruct (Hrun b w4 eq_refl) as (w5 & -> & _ & Hj5 & Hs5 & _).
    cbn [fst snd].
    assert (Hrow : jobs w5 !! job = Some (args ∪ j0)).
    { rewrite Hj5, Hjobs. unfold w3, w2. cbn [jobs set_fs emit].
      now rewrite list_lookup_alter_eq, Hrow1. }
    rewrite Hrow. cbn [default from_option id].
    assert (Hget : forall k v, args !! k = Some v -> getattr (args ∪ j0) k = v).
    { intros k v Hk. unfold getattr. rewrite lookup_union, Hk.
      now destruct (j0 !! k). }
    split; [apply Hget; unfold args; apply lookup_insert_eq|].
    split; [apply Hget; unfold args; rewrite lookup_insert_ne by discriminate;
            apply lookup_singleton_eq|].
    split; [apply rip_error_nonempty|]. congruence.
Qed.

Lemma rip_data_failed_copy_witness :
  let E := Sample.env_with_shell Sample.dd_fails Sample.healthy in
  let r := rip_data E 0 Sample.shelf in
  r.1 = Ret false
  /\ fs r.2 !! Sample.part_file = None
  /\ head (trace r.2) = Some (EvRmtree "/home/arm/raw/data-disc")
  /\ getattr (default ∅ (jobs r.2 !! 0%nat)) "status" = VStr "fail"
  /\ getattr (default ∅ (jobs r.2 !! 0%nat)) "errors"
     = VStr (rip_error 1 "b'dd: error reading'")
  /\ rip_error 1 "b'dd: error reading'" <> ""
  /\ stored r.2 = jobs r.2.
Proof.
  cbv zeta.
  destruct (rip_data_failed_copy (Sample.env_with_shell Sample.dd_fails Sample.healthy)
              0 Sample.shelf Sample.unlabelled
              "/home/arm/raw/data-disc" "/home/arm/media/unidentified/data-disc"
              Sample.part_file
              (rip_data_paths (Sample.env_with_shell Sample.dd_fails Sample.healthy)
                 0 (default_label 0 Sample.shelf)).2
              1 "b'dd: error reading'"
              (<[Sample.part_file := File]>
                 (fs (rip_data_paths (Sample.env_with_shell Sample.dd_fails Sample.healthy)
                        0 (default_label 0 Sample.shelf)).2)))
    as [Hret Hrow].
  - reflexivity.
  - vm_compute. reflexivity.
  - reflexivity.
  - discriminate.
  - apply lookup_insert_eq.
  - reflexivity.
  - destruct Hret as (H1 & H2 & H3); [intros i msg _ Hf; discriminate Hf|].
    destruct Hrow as (H4 & H5 & H6 & H7); [intros i _; reflexivity|].
    repeat split; assumption.
Defined.

(** When the staging directory named after the label exists, and so do
    the ones named after the label and the hundredths of a second around
    now, on whichever of them the rounding of the time falls, [rip_data]
    ends the process with exit status 0.  No command was run, the file
    system is as it was, and the job is not marked as failed. *)
Theorem rip_data_staging_taken E job w :
  let label := py_str E (label_of job (default_label job w)) in
  let now := py_round_div (clock w) 10000 in
  is_Some (fs w !! path_join (RAW_PATH (cfg E)) label) ->
  (forall t, now - 1 <= t <= now + 1 ->
     is_Some (fs w !! path_join (RAW_PATH (cfg E)) (label ++ "_" ++ str_int t))) ->
  let r := rip_data E job w in
  (exists code, r.1 = Raise (SystemExit code) /\ exit_status code = 0)
  /\ fs r.2 = fs w
  /\ trace r.2 = trace w
  /\ jobs r.2 = jobs (default_label job w)
  /\ stored r.2 = stored w
  /\ attempts r.2 = attempts w.
Proof.
  intros label now [n1 H1] Hnear r. subst r.
  destruct (Hnear now ltac:(lia)) as [n2 H2].
  destruct (default_label_frame job w) as (Hf0 & Hc0 & Hs0 & Ha0 & Ht0).
  set (w0 := default_label job w) in *.
  assert (Hrun : rip_data E job w = (Raise (SystemExit VNone), w0)).
  { rewrite rip_data_run. fold w0. unfold rip_data_paths.
    rewrite (bind_Raise _ _ w0 (SystemExit VNone) w0); [reflexivity|].
    rewrite (bind_Ret _ _ w0 _ w0 (attr_run job "label" w0)).
    rewrite (bind_Ret _ _ w0 _ w0 (attr_run job "video_type" w0)).
    fold (label_of job w0). fold label.
    rewrite (bind_Ret _ _ w0 false w0).
    2:{ apply (make_dir_exists E _ w0 n1). now rewrite Hf0. }
    cbn [negb].
    rewrite (bind_Raise _ _ w0 (SystemExit VNone) w0); [reflexivity|].
    assert (Ht : time_x100 w0 = (Ret now, w0)).
    { unfold time_x100, gets, now. now rewrite Hc0. }
    rewrite (bind_Ret _ _ w0 _ w0 Ht).
    rewrite (bind_Ret _ _ w0 false w0); [reflexivity|].
    apply (make_dir_exists E _ w0 n2). now rewrite Hf0. }
  rewrite Hrun. cbn [fst snd].
  split; [exists VNone; split; reflexivity|]. repeat split; assumption.
Qed.

Lemma rip_data_staging_taken_witness :
  let r := rip_data (Sample.env_with_shell Sample.dd_copies Sample.healthy) 0 Sample6.crowded in
  (exists code, r.1 = Raise (SystemExit code) /\ exit_status code = 0)
  /\ fs r.2 = fs Sample6.crowded
  /\ trace r.2 = trace Sample6.crowded
  /\ jobs r.2 = jobs (default_label 0 Sample6.crowded)
  /\ stored r.2 = stored Sample6.crowded
  /\ attempts r.2 = attempts Sample6.crowded.
Proof.
  apply (rip_data_staging_taken (Sample.env_with_shell Sample.dd_copies Sample.healthy)
           0 Sample6.crowded).
  - vm_compute. eauto.
  - intros t Ht.
    assert (Hnow : py_round_div (clock Sample6.crowded) 10000 = 170000000000)
      by (vm_compute; reflexivity).
    rewrite Hnow in Ht.
    assert (Hcases : t = 169999999999 \/ t = 170000000000 \/ t = 170000000001) by lia.
    destruct Hcases as [->|[->| ->]]; vm_compute; eauto.
Defined.

(** ** [find_largest_file] *)

Lemma largest_from_spec st_size (size : string -> Z) out rest cur :
  cur <> "" ->
  st_size (path_join out cur) = Some (size cur) ->
  "" ∉ rest ->
  (forall f, f ∈ rest -> st_size (path_join out f) = Some (size f)) ->
  exists f,
    largest_from st_size out rest cur = Ret f
    /\ ((f = cur /\ forall g, g ∈ rest -> size g <= size cur)
        \/ (size cur < size f
            /\ exists pre post,
                 rest = (pre ++ f :: post)%list
                 /\ (forall g, g ∈ pre -> size g < size f)
                 /\ (forall g, g ∈ post -> size g <= size f))).
Proof.
  revert cur. induction rest as [|file rest IH]; intros cur Hcur Hst Hno Hall.
  - exists cur. split; [reflexivity|]. left. split; [reflexivity|].
    intros g Hg. now apply elem_of_nil in Hg.
  - assert (Hfile : file <> "").
    { intros ->. apply Hno. now left. }
    assert (Hno' : "" ∉ rest).
    { intros H. apply Hno. now right. }
    assert (Hall' : forall f, f ∈ rest -> st_size (path_join out f) = Some (size f)).
    { intros f Hf. apply Hall. now right. }
    assert (Hstf : st_size (path_join out file) = Some (size file)).
    { apply Hall. now left. }
    cbn [largest_from].
    rewrite (proj2 (String.eqb_neq cur "") Hcur), Hstf, Hst.
    destruct (size cur <? size file) eqn:Hlt.
    + apply Z.ltb_lt in Hlt.
      destruct (IH file Hfile Hstf Hno' Hall') as (f & Hrun & Hf).
      exists f. split; [exact Hrun|]. right.
      destruct Hf as [[-> Hle]|(Hlt' & pre & post & -> & Hpre & Hpost)].
      * split; [exact Hlt|]. exists [], rest. split; [reflexivity|].
        split; [|exact Hle]. intros g Hg. now apply elem_of_nil in Hg.
      * split; [lia|]. exists (file :: pre), post. split; [reflexivity|].
        split; [|exact Hpost].
        intros g Hg. apply elem_of_cons in Hg as [->|Hg]; [exact Hlt'|now apply Hpre].
    + apply Z.ltb_ge in Hlt.
      destruct (IH cur Hcur Hst Hno' Hall') as (f & Hrun & Hf).
      exists f. split; [exact Hrun|].
      destruct Hf as [[-> Hle]|(Hlt' & pre & post & -> & Hpre & Hpost)].
      * left. split; [reflexivity|].
        intros g Hg. apply elem_of_cons in Hg as [->|Hg]; [exact Hlt|now apply Hle].
      * right. split; [exact Hlt'|]. exists (file :: pre), post.
        split; [reflexivity|]. split; [|exact Hpost].
        intros g Hg. apply elem_of_cons in Hg as [->|Hg]; [lia|now apply Hpre].
Qed.

(** For a listing that is not empty and holds no empty name, and whose
    files can all be examined, [find_largest_file] returns the first of the
    largest files: every file before it in the listing is smaller, and no
    file after it is larger. *)
Theorem find_largest_file_first_largest st_size (size : string -> Z) files mkv_out_path :
  files <> [] ->
  "" ∉ files ->
  (forall f, f ∈ files -> st_size (path_join mkv_out_path f) = Some (size f)) ->
  exists pre f post,
    find_largest_file st_size files mkv_out_path = Ret f
    /\ files = (pre ++ f :: post)%list
    /\ (forall g, g ∈ pre -> size g < size f)
    /\ (forall g, g ∈ post -> size g <= size f).
Proof.
  intros Hne Hno Hall. destruct files as [|file rest]; [congruence|].
  assert (Hfile : file <> "").
  { intros ->. apply Hno. now left. }
  assert (Hstf : st_size (path_join mkv_out_path file) = Some (size file)).
  { apply Hall. now left. }
  unfold find_largest_file. cbn [largest_from String.eqb].
  rewrite Hstf, Z.ltb_irrefl.
  destruct (largest_from_spec st_size size mkv_out_path rest file Hfile Hstf)
    as (f & Hrun & Hf).
  { intros H. apply Hno. now right. }
  { intros f Hf. apply Hall. now right. }
  destruct Hf as [[-> Hle]|(Hlt & pre & post & -> & Hpre & Hpost)].
  - exists [], file, rest. split; [exact Hrun|]. split; [reflexivity|].
    split; [|exact Hle]. intros g Hg. now apply elem_of_nil in Hg.
  - exists (file :: pre), f, post. split; [exact Hrun|]. split; [reflexivity|].
    split; [|exact Hpost].
    intros g Hg. apply elem_of_cons in Hg as [->|Hg]; [exact Hlt|now apply Hpre].
Qed.

Lemma find_largest_file_first_largest_witness :
  exists pre f post,
    find_largest_file Sample7.st_size Sample7.listing "/home/arm/raw/ALPHA" = Ret f
    /\ Sample7.listing = (pre ++ f :: post)%list
    /\ (forall g, g ∈ pre -> Sample7.size g < Sample7.size f)
    /\ (forall g, g ∈ post -> Sample7.size g <= Sample7.size f).
Proof.
  apply (find_largest_file_first_largest Sample7.st_size Sample7.size
           Sample7.listing "/home/arm/raw/ALPHA").
  - discriminate.
  - intros H. unfold Sample7.listing in H.
    repeat (apply elem_of_cons in H as [H|H]; [discriminate|]).
    now apply elem_of_nil in H.
  - intros f H. unfold Sample7.listing in H.
    repeat (apply elem_of_cons in H as [->|H]; [reflexivity|]).
    now apply elem_of_nil in H.
Defined.

(** ** [rip_music] *)

(** [rip_music] never raises and never touches the job or the store.  For a
    disc that is not a music disc it does nothing at all and returns
    [False]; for a music disc it runs one command and returns whether that
    command ended with status 0. *)
Theorem rip_music_outcome E conf job logfile w :
  let r := rip_music E conf job logfile w in
  jobs r.2 = jobs w /\ stored r.2 = stored w /\ attempts r.2 = attempts w
  /\ if bool_decide (getattr (default ∅ (jobs w !! job)) "disctype" = VStr "music")
     then exists cmd,
            trace r.2 = EvShell cmd :: trace w
            /\ r.1 = Ret (bool_decide ((run_shell E cmd (fs w)).1.1 = 0))
            /\ fs r.2 = (run_shell E cmd (fs w)).2
     else r = (Ret false, w).
Proof.
  cbv zeta. unfold rip_music.
  rewrite (bind_Ret _ _ w _ w (attr_run job "disctype" w)).
  destruct (bool_decide (getattr (default ∅ (jobs w !! job)) "disctype" = VStr "music"));
    [|now repeat split].
  rewrite (bind_Ret (gets _) _ w _ w eq_refl).
  rewrite (bind_Ret _ _ w _ w (attr_run job "devpath" w)).
  match goal with
  | |- context [check_output E ?c] => set (cmd := c)
  end.
  unfold try_except, mbind, M_bind, check_output.
  destruct (run_shell E cmd (fs w)) as [[code output] files] eqn:Hshell.
  destruct (code =? 0) eqn:Hcode; cbn [is_CalledProcessError mret M_ret fst snd];
    (split; [reflexivity|]); (split; [reflexivity|]); (split; [reflexivity|]);
    exists cmd; rewrite Hshell; cbn [fst snd]; (split; [reflexivity|]);
    (split; [|reflexivity]).
  - apply Z.eqb_eq in Hcode. now rewrite bool_decide_eq_true_2.
  - apply Z.eqb_neq in Hcode. now rewrite bool_decide_eq_false_2.
Qed.

(** ** [arm_setup] *)

Lemma setup_folder_run E folder w :
  let r := setup_folder E folder w in
  (forall p n, fs w !! p = Some n -> fs r.2 !! p = Some n)
  /\ jobs r.2 = jobs w
  /\ ((r.1 = Ret tt /\ is_Some (fs r.2 !! folder))
      \/ (r.1 = Raise (SystemExit (VStr (make_dir_error folder)))
          /\ fs w !! folder = None /\ denied E folder = true)).
Proof.
  cbv zeta. unfold setup_folder, mbind, M_bind.
  destruct (fs w !! folder) as [n|] eqn:Hp.
  - rewrite (make_dir_exists E folder w n Hp). cbn [fst snd mret M_ret].
    split; [auto|]. split; [reflexivity|]. left. rewrite Hp. eauto.
  - destruct (denied E folder) eqn:Hd.
    + rewrite (make_dir_denied E folder w Hp Hd). cbn [fst snd fs emit].
      split; [auto|]. split; [reflexivity|]. now right.
    + rewrite (make_dir_creates E folder w Hp Hd). cbn [fst snd fs set_fs mret M_ret].
      split.
      { intros p n Hn. rewrite lookup_insert_ne; [exact Hn|]. congruence. }
      split; [reflexivity|]. left. rewrite lookup_insert_eq. eauto.
Qed.

Lemma setup_loop E dirs w :
  let r := for_each dirs (setup_folder E) w in
  (forall p n, fs w !! p = Some n -> fs r.2 !! p = Some n)
  /\ jobs r.2 = jobs w
  /\ ((r.1 = Ret tt /\ forall d, d ∈ dirs -> is_Some (fs r.2 !! d))
      \/ (exists d, d ∈ dirs
                    /\ r.1 = Raise (SystemExit (VStr (make_dir_error d)))
                    /\ fs w !! d = None /\ denied E d = true)).
Proof.
  cbv zeta. revert w. induction dirs as [|d dirs IH]; intros w.
  - cbn. split; [auto|]. split; [reflexivity|]. left. split; [reflexivity|].
    intros d Hd. now apply elem_of_nil in Hd.
  - cbn [for_each].
    destruct (setup_folder_run E d w) as (Hgrow & Hjobs & Hd).
    destruct (setup_folder E d w) as [[[]|e] w1] eqn:Hrun; cbn [fst snd] in *.
    + rewrite (bind_Ret _ _ w tt w1 Hrun).
      destruct Hd as [[_ Hthere]|[Hr _]]; [|discriminate].
      destruct (IH w1) as (Hgrow' & Hjobs' & Hrest).
      split; [auto|]. split; [congruence|].
      destruct Hrest as [[Hret Hall]|(d' & Hin & Hraise & Hnone & Hden)].
      * left. split; [exact Hret|]. intros d' Hd'.
        apply elem_of_cons in Hd' as [->|Hd']; [|now apply Hall].
        destruct Hthere as [n Hn]. exists n. now apply Hgrow'.
      * right. exists d'. split; [now right|]. split; [exact Hraise|].
        split; [|exact Hden].
        destruct (fs w !! d') as [n|] eqn:Hw; [|reflexivity].
        apply Hgrow in Hw. congruence.
    + rewrite (bind_Raise _ _ w e w1 Hrun). cbn [fst snd].
      split; [exact Hgrow|]. split; [exact Hjobs|]. right.
      destruct Hd as [[Hr _]|(Hr & Hnone & Hden)]; [discriminate|].
      exists d. split; [now left|]. now split.
Qed.

(** [arm_setup] takes nothing away from the file system and leaves the
    jobs alone.  Either it returns and the four directories exist, or it
    ends the process with exit status 1, and then one of the four did not
    exist and could not be created.  The handler for [IOError] is never
    entered: no error of the file system leaves [arm_setup]. *)
Theorem arm_setup_outcomes E conf w :
  let r := arm_setup E conf w in
  (forall p n, fs w !! p = Some n -> fs r.2 !! p = Some n)
  /\ jobs r.2 = jobs w
  /\ ((r.1 = Ret tt /\ forall d, d ∈ arm_directories E conf -> is_Some (fs r.2 !! d))
      \/ (exists d, d ∈ arm_directories E conf
                    /\ r.1 = Raise (SystemExit (VStr (make_dir_error d)))
                    /\ exit_status (VStr (make_dir_error d)) = 1
                    /\ fs w !! d = None /\ denied E d = true)).
Proof.
  cbv zeta. unfold arm_setup, try_except.
  destruct (setup_loop E (arm_directories E conf) w) as (Hgrow & Hjobs & Hend).
  destruct (for_each (arm_directories E conf) (setup_folder E) w) as [[[]|e] w1];
    cbn [fst snd] in *.
  - split; [exact Hgrow|]. split; [exact Hjobs|].
    destruct Hend as [Hret|(d & _ & Hr & _)]; [now left|discriminate].
  - destruct Hend as [[Hr _]|(d & Hin & Hr & Hnone & Hden)]; [discriminate|].
    injection Hr as ->. cbn [is_OSError fst snd].
    split; [exact Hgrow|]. split; [exact Hjobs|]. right.
    exists d. repeat split; assumption.
Qed.

(** ** [sleep_check_process] *)

Lemma waited_step P first n w :
  waited P first (S n) w = waited P (S first) n (slept (randrange P first) w).
Proof. reflexivity. Qed.

Lemma waited_clock P first n w :
  (forall round, 20 <= randrange P round <= 110) ->
  clock w + 20000000 * Z.of_nat n <= clock (waited P first n w)
  <= clock w + 110000000 * Z.of_nat n.
Proof.
  intros Hr. revert first w. induction n as [|n IH]; intros first w.
  - cbn. lia.
  - rewrite waited_step. specialize (IH (S first) (slept (randrange P first) w)).
    specialize (Hr first). cbn [clock slept emit set_clock] in IH. lia.
Qed.

Lemma waited_jobs P first n w : jobs (waited P first n w) = jobs w.
Proof.
  revert first w. induction n as [|n IH]; intros first w; [reflexivity|].
  rewrite waited_step, IH. reflexivity.
Qed.

Lemma check_loop_first_free P process_str limit k :
  forall fuel round loop_count w,
    limit <= loop_count ->
    (forall i, (i < k)%nat -> limit <= process_count P process_str (round + i)) ->
    process_count P process_str (round + k) < limit ->
    (k < fuel)%nat ->
    check_loop P fuel round process_str limit loop_count w
    = (Ret (Some true), waited P round k w).
Proof.
  induction k as [|k IH]; intros fuel round loop_count w Hlc Hbusy Hfree Hfuel;
    (destruct fuel as [|fuel]; [lia|]); cbn [check_loop];
    rewrite (proj2 (Z.leb_le _ _) Hlc).
  - rewrite Nat.add_0_r in Hfree. now rewrite (proj2 (Z.ltb_lt _ _) Hfree).
  - pose proof (Hbusy 0%nat ltac:(lia)) as H0. rewrite Nat.add_0_r in H0.
    rewrite (proj2 (Z.ltb_ge _ _) H0).
    rewrite (bind_Ret _ _ w tt _ (sleep_run (randrange P round) w)).
    rewrite waited_step. apply IH; [exact H0| | |lia].
    + intros i Hi. replace (S round + i)%nat with (round + S i)%nat by lia.
      apply Hbusy. lia.
    + now replace (S round + k)%nat with (round + S k)%nat by lia.
Qed.

Lemma check_loop_not_False P process_str limit :
  forall fuel round loop_count w,
    limit <= loop_count ->
    (check_loop P fuel round process_str limit loop_count w).1 <> Ret (Some false).
Proof.
  induction fuel as [|fuel IH]; intros round loop_count w Hlc; cbn [check_loop];
    rewrite (proj2 (Z.leb_le _ _) Hlc); [discriminate|].
  destruct (process_count P process_str round <? limit) eqn:Hc; [discriminate|].
  rewrite (bind_Ret _ _ w tt _ (sleep_run (randrange P round) w)).
  apply IH. now apply Z.ltb_ge.
Qed.

(** With a limit above 0, [sleep_check_process] returns [True] at the first
    round that finds fewer processes than the limit.  It has slept once for
    every round before, between 20 and 110 seconds each time, and has not
    touched the jobs. *)
Theorem sleep_check_process_first_free P fuel process_str limit k w :
  0 < limit ->
  (forall round, 20 <= randrange P round <= 110) ->
  (forall i, (i < k)%nat -> limit <= process_count P process_str i) ->
  process_count P process_str k < limit ->
  (k < fuel)%nat ->
  let r := sleep_check_process P fuel process_str limit w in
  r = (Ret (Some true), waited P 0 k w)
  /\ clock w + 20000000 * Z.of_nat k <= clock r.2 <= clock w + 110000000 * Z.of_nat k
  /\ jobs r.2 = jobs w.
Proof.
  intros Hlimit Hrange Hbusy Hfree Hfuel r. subst r.
  unfold sleep_check_process. rewrite (proj2 (Z.ltb_lt _ _) Hlimit). cbv zeta.
  rewrite (check_loop_first_free P process_str limit k fuel 0 (limit + 1) w);
    [|lia|exact Hbusy|exact Hfree|exact Hfuel].
  cbn [snd]. split; [reflexivity|].
  split; [now apply waited_clock|apply waited_jobs].
Qed.

Lemma sleep_check_process_first_free_witness :
  let r := sleep_check_process Sample9.polls 5 "HandBrakeCLI" 2 Sample.world in
  r = (Ret (Some true), waited Sample9.polls 0 2 Sample.world)
  /\ clock Sample.world + 20000000 * Z.of_nat 2 <= clock r.2
     <= clock Sample.world + 110000000 * Z.of_nat 2
  /\ jobs r.2 = jobs Sample.world.
Proof.
  apply (sleep_check_process_first_free Sample9.polls 5 "HandBrakeCLI" 2 2 Sample.world).
  - lia.
  - intros round. cbn. destruct (Nat.even round); lia.
  - intros i Hi. cbn. destruct i as [|[|i]]; cbn; lia.
  - cbn. lia.
  - lia.
Defined.

(** [sleep_check_process] returns [False] only when the limit is switched
    off, and then at once: with a limit above 0 it returns [True] or goes
    on waiting, however long it is followed. *)
Theorem sleep_check_process_False_iff_disabled P fuel process_str limit w :
  let r := sleep_check_process P fuel process_str limit w in
  (r.1 = Ret (Some false) <-> limit <= 0)
  /\ (limit <= 0 -> r.2 = w).
Proof.
  cbv zeta. unfold sleep_check_process.
  destruct (0 <? limit) eqn:Hl.
  - apply Z.ltb_lt in Hl. cbv zeta. split; [|lia]. split; [|lia].
    intros H. exfalso. revert H. apply check_loop_not_False. lia.
  - apply Z.ltb_ge in Hl. now repeat split.
Qed.

(** ** [check_ip] *)

Lemma check_ip_inner (acc l : list string) :
  foldl (fun ip_list ip_address =>
           if usable_address ip_address then (ip_list ++ [ip_address])%list else ip_list)
        acc l
  = (acc ++ filter (fun a => usable_address a = true) l)%list.
Proof.
  revert acc. induction l as [|a l IH]; intros acc; cbn [foldl].
  - now rewrite filter_nil, app_nil_r.
  - rewrite IH. destruct (usable_address a) eqn:Ha.
    + rewrite filter_cons_True by exact Ha. now rewrite <- app_assoc.
    + rewrite filter_cons_False; [reflexivity|]. congruence.
Qed.

Lemma check_ip_outer (acc : list string) (links : list (list string)) :
  foldl (fun ip_list inet_links =>
           foldl (fun ip_list ip_address =>
                    if usable_address ip_address
                    then (ip_list ++ [ip_address])%list else ip_list)
                 ip_list inet_links)
        acc links
  = (acc ++ filter (fun a => usable_address a = true) (concat links))%list.
Proof.
  revert acc. induction links as [|l links IH]; intros acc; cbn [foldl concat].
  - now rewrite filter_nil, app_nil_r.
  - rewrite IH, check_ip_inner, filter_app, app_assoc. reflexivity.
Qed.

Lemma first_usable (l : list string) :
  (filter (fun a => usable_address a = true) l = []
   /\ forall a, a ∈ l -> usable_address a = false)
  \/ (exists pre ip post rest,
        filter (fun a => usable_address a = true) l = ip :: rest
        /\ l = (pre ++ ip :: post)%list
        /\ usable_address ip = true
        /\ forall a, a ∈ pre -> usable_address a = false).
Proof.
  induction l as [|a l IH].
  - left. split; [reflexivity|]. intros a Ha. now apply elem_of_nil in Ha.
  - destruct (usable_address a) eqn:Ha.
    + right. exists [], a, l, (filter (fun a => usable_address a = true) l).
      split; [now rewrite filter_cons_True by exact Ha|]. split; [reflexivity|].
      split; [exact Ha|]. intros b Hb. now apply elem_of_nil in Hb.
    + rewrite filter_cons_False by congruence.
      destruct IH as [[Hnil Hall]|(pre & ip & post & rest & Hf & -> & Hip & Hpre)].
      * left. split; [exact Hnil|].
        intros b Hb. apply elem_of_cons in Hb as [->|Hb]; [exact Ha|now apply Hall].
      * right. exists (a :: pre), ip, post, rest. split; [exact Hf|].
        split; [reflexivity|]. split; [exact Hip|].
        intros b Hb. apply elem_of_cons in Hb as [->|Hb]; [exact Ha|now apply Hpre].
Qed.

(** A configured address is returned as it is.  Without one, [check_ip]
    returns the first address, in the order of the interfaces and their
    links, that is not the loopback address and does not start with "172";
    it returns the loopback address when there is none. *)
Theorem check_ip_first_usable WEBSERVER_IP links :
  let ip := check_ip WEBSERVER_IP links in
  if String.eqb WEBSERVER_IP "x.x.x.x"
  then (ip = "127.0.0.1" /\ forall a, a ∈ concat links -> usable_address a = false)
       \/ (exists pre post,
             concat links = (pre ++ ip :: post)%list
             /\ ip <> "127.0.0.1" /\ String.prefix "172" ip = false
             /\ forall a, a ∈ pre -> usable_address a = false)
  else ip = WEBSERVER_IP.
Proof.
  cbv zeta. unfold check_ip.
  destruct (String.eqb WEBSERVER_IP "x.x.x.x"); cbn [negb]; [|reflexivity].
  rewrite check_ip_outer, app_nil_l.
  destruct (first_usable (concat links))
    as [[-> Hall]|(pre & ip & post & rest & -> & Hl & Hip & Hpre)].
  - now left.
  - right. exists pre, post. split; [exact Hl|].
    unfold usable_address in Hip. apply andb_prop in Hip as [H1 H2].
    apply negb_true_iff in H1, H2. apply String.eqb_neq in H1.
    now repeat split.
Qed.
